(** * CRM server: role-scoped entity access and lead conversion

    A shallow embedding of the Express route handlers of the CRM server
    ([server/routes/leads.ts], [customers.ts], [tasks.ts], [users.ts]) and
    of the Mongoose schemas they save through ([server/models]), followed
    by the properties of the specification that concern them.

    Conventions of the embedding:
    - a string is a [string] of bytes; the validators are modelled on ASCII
      text (JavaScript counts UTF-16 code units);
    - an [ObjectId] is its 24 digit hexadecimal rendering in lower case,
      a [Date] the number of milliseconds since the epoch; the path
      parameter of a Lead, Customer or Task route is the ObjectId it
      casts to, while the user routes, which compare the parameter as
      text before they look it up, take the text;
    - the persistent store is a record of collections, each a list in
      insertion order, together with the journal of the writes issued to
      it; a route handler is a computation over the store that stops at
      its first response;
    - a value of a JSON body is typed by the path it is assigned to,
      and is a [Json] value where the code looks at its JavaScript type;
    - library functions whose definition lies outside the repository and
      that no property depends on (regular expression search, ISO 8601
      dates, e-mail normalisation), and the setters of the User schema,
      which is not among the sources, are section variables. *)

From Stdlib Require Import List String Ascii ZArith Bool Arith Lia DecimalString.
Import ListNotations.

Local Open Scope string_scope.
Local Open Scope bool_scope.

Set Implicit Arguments.

(* ================================================================== *)
(** ** Text: the string functions of JavaScript and validator.js       *)
(* ================================================================== *)

Module Text.

(** [\s] on ASCII: tab, line feed, vertical tab, form feed, carriage
    return and space. *)
Definition is_space (c : ascii) : bool :=
  let n := nat_of_ascii c in
  ((9 <=? n)%nat && (n <=? 13)%nat) || (n =? 32)%nat.

Fixpoint ltrim (s : string) : string :=
  match s with
  | EmptyString => EmptyString
  | String c s' => if is_space c then ltrim s' else s
  end.

Definition reverse (s : string) : string :=
  string_of_list_ascii (rev (list_ascii_of_string s)).

Definition rtrim (s : string) : string := reverse (ltrim (reverse s)).

(** [trim()] of validator.js: [rtrim(ltrim(str))]. *)
Definition trim (s : string) : string := rtrim (ltrim s).

Definition lower (c : ascii) : ascii :=
  let n := nat_of_ascii c in
  if ((65 <=? n)%nat && (n <=? 90)%nat) then ascii_of_nat (n + 32) else c.

(** [String.prototype.toLowerCase] on ASCII letters. *)
Fixpoint toLowerCase (s : string) : string :=
  match s with
  | EmptyString => EmptyString
  | String c s' => String (lower c) (toLowerCase s')
  end.

(** The string does not start with white space. *)
Definition clean_start (s : string) : bool :=
  match s with
  | EmptyString => true
  | String c _ => negb (is_space c)
  end.

(** JavaScript truthiness of a string value. *)
Definition truthy (s : string) : bool := negb (s =? "").

Definition is_digit (c : ascii) : bool :=
  let n := nat_of_ascii c in (48 <=? n)%nat && (n <=? 57)%nat.

Definition is_hex (c : ascii) : bool :=
  let n := nat_of_ascii c in
  is_digit c || ((65 <=? n)%nat && (n <=? 70)%nat)
             || ((97 <=? n)%nat && (n <=? 102)%nat).

(** [\w]: letters, digits and the underscore. *)
Definition is_word (c : ascii) : bool :=
  let n := nat_of_ascii c in
  is_digit c || ((65 <=? n)%nat && (n <=? 90)%nat)
             || ((97 <=? n)%nat && (n <=? 122)%nat) || (n =? 95)%nat.

Fixpoint all_chars (p : ascii -> bool) (s : string) : bool :=
  match s with
  | EmptyString => true
  | String c s' => p c && all_chars p s'
  end.

Definition digit_value (c : ascii) : Z := Z.of_nat (nat_of_ascii c) - 48.

(** Value of a string of decimal digits, most significant first. *)
Fixpoint digits_value (acc : Z) (s : string) : Z :=
  match s with
  | EmptyString => acc
  | String c s' => digits_value (10 * acc + digit_value c) s'
  end.

(** The unsigned part of what validator.js's [isInt] recognises with
    its default options: one or more decimal digits, leading zeros
    allowed, read in base ten as [parseInt] does.  [None] elsewhere,
    where [parseInt] may still read a prefix but which no validated query
    reaches. *)
Definition unsigned_int (s : string) : option Z :=
  match s with
  | EmptyString => None
  | String _ _ => if all_chars is_digit s then Some (digits_value 0 s) else None
  end.

Definition parseInt (s : string) : option Z :=
  match s with
  | String "+" s' => unsigned_int s'
  | String "-" s' => option_map Z.opp (unsigned_int s')
  | _ => unsigned_int s
  end.

End Text.

(* ================================================================== *)
(** ** Regular expressions, for the [match] validator of the schemas   *)
(* ================================================================== *)

Module Regex.

Inductive re : Type :=
| Void : re
| Eps : re
| Chr : (ascii -> bool) -> re
| Cat : re -> re -> re
| Alt : re -> re -> re
| Star : re -> re.

Fixpoint nullable (r : re) : bool :=
  match r with
  | Void => false
  | Eps => true
  | Chr _ => false
  | Cat a b => nullable a && nullable b
  | Alt a b => nullable a || nullable b
  | Star _ => true
  end.

Definition is_void (r : re) : bool :=
  match r with Void => true | _ => false end.

Definition cat (a b : re) : re :=
  if is_void a || is_void b then Void
  else match a with Eps => b | _ => Cat a b end.

Definition alt (a b : re) : re :=
  if is_void a then b else if is_void b then a else Alt a b.

(** Brzozowski derivative of [r] by the character [c]. *)
Fixpoint deriv (c : ascii) (r : re) : re :=
  match r with
  | Void => Void
  | Eps => Void
  | Chr p => if p c then Eps else Void
  | Cat a b =>
      if nullable a then alt (cat (deriv c a) b) (deriv c b)
      else cat (deriv c a) b
  | Alt a b => alt (deriv c a) (deriv c b)
  | Star a => cat (deriv c a) (Star a)
  end.

(** [^r$] tested against the whole string. *)
Fixpoint matches (r : re) (s : string) : bool :=
  match s with
  | EmptyString => nullable r
  | String c s' => matches (deriv c r) s'
  end.

Definition plus (r : re) : re := Cat r (Star r).
Definition opt (r : re) : re := Alt Eps r.
Definition lit (c : ascii) : re := Chr (Ascii.eqb c).

Definition w : re := Chr Text.is_word.
Definition dot_or_dash : re := Chr (fun c => Ascii.eqb c "." || Ascii.eqb c "-").

(** [/^\w+([.-]?\w+)*@\w+([.-]?\w+)*(\.\w{2,3})+$/], the [match] of
    the [email] path in the Lead and Customer schemas. *)
Definition email_pattern : re :=
  let words := Cat (plus w) (Star (Cat (opt dot_or_dash) (plus w))) in
  Cat words
    (Cat (lit "@")
       (Cat words (plus (Cat (lit ".") (Cat w (Cat w (opt w))))))).

End Regex.

(* ================================================================== *)
(** ** JSON values                                                      *)
(* ================================================================== *)

(** A value of a JSON body at a key that the code treats by its
    JavaScript type: a boolean, a string or a number, an integer here.
    [null], arrays and objects are left out. *)
Inductive Json : Type :=
| JBool (b : bool)
| JText (s : string)
| JNumber (n : Z).

(** [String(value)], the text a validation chain tests. *)
Definition Json_toString (v : Json) : string :=
  match v with
  | JBool true => "true"
  | JBool false => "false"
  | JText s => s
  | JNumber n => NilZero.string_of_int (Z.to_int n)
  end.

(** [value === false] on a key of the body. *)
Definition Json_is_false (v : option Json) : bool :=
  match v with
  | Some (JBool false) => true
  | _ => false
  end.

(* ================================================================== *)
(** ** express-validator chains                                         *)
(* ================================================================== *)

Module Validator.

(** [isLength({min, max})]. *)
Definition isLength (min max : nat) (s : string) : bool :=
  (min <=? String.length s)%nat && (String.length s <=? max)%nat.

(** [isIn(values)]. *)
Definition isIn (values : list string) (s : string) : bool :=
  existsb (String.eqb s) values.

(** [isInt({min, max})]. *)
Definition isInt (min : Z) (max : option Z) (s : string) : bool :=
  match Text.parseInt s with
  | None => false
  | Some n =>
      (min <=? n)%Z && match max with Some m => (n <=? m)%Z | None => true end
  end.

(** [isHexadecimal]: one or more hexadecimal digits, after an
    optional prefix 0x or 0h, in either case of the letters. *)
Definition isHexadecimal (s : string) : bool :=
  let digits :=
    match s with
    | String "0" (String c s') =>
        if existsb (Ascii.eqb c) ["x"; "X"; "h"; "H"]%char then s' else s
    | _ => s
    end in
  (Text.truthy digits && Text.all_chars Text.is_hex digits)
  || (Text.truthy s && Text.all_chars Text.is_hex s).

(** [isMongoId]: hexadecimal and 24 characters long. *)
Definition isMongoId (s : string) : bool :=
  isHexadecimal s && (String.length s =? 24)%nat.

(** [isBoolean()] on the text of a value. *)
Definition isBoolean (s : string) : bool :=
  isIn ["true"; "false"; "1"; "0"] s.

(** [.optional()]: the chain is skipped when the field is undefined. *)
Definition optional {A : Type} (check : A -> bool) (v : option A) : bool :=
  match v with
  | None => true
  | Some x => check x
  end.

(** A field that is not optional: a sanitizer turns [undefined] into
    the empty string before the validators run. *)
Definition required_text (v : option string) : string :=
  match v with
  | None => ""
  | Some s => s
  end.

(** One entry of [errors.array()], identified by its path. *)
Definition check (path : string) (ok : bool) : list string :=
  if ok then [] else [path].

End Validator.

(* ================================================================== *)
(** ** Data model ([server/models])                                     *)
(* ================================================================== *)

Definition ObjectId := string.
Definition Date := Z.

Inductive Role : Type := admin | agent.

Definition Role_eqb (a b : Role) : bool :=
  match a, b with
  | admin, admin | agent, agent => true
  | _, _ => false
  end.

Definition Role_label (r : Role) : string :=
  match r with admin => "admin" | agent => "agent" end.

Definition Role_of_label (s : string) : option Role :=
  if s =? "admin" then Some admin
  else if s =? "agent" then Some agent else None.

(** Modelled from the spec: [server/models/User.ts] is not among the
    sources.  The fields are those of the User entity of the data model
    (id, email, password hash, first and last name, role in admin or
    agent, isActive, lastLogin), which are also the ones the routes and
    the seed script read and write. *)
Record User : Type := {
  u_id : ObjectId;
  u_email : string;
  u_password : string;
  u_firstName : string;
  u_lastName : string;
  u_role : Role;
  u_isActive : bool;
  u_lastLogin : option Date
}.

Inductive LeadStatus : Type := New | InProgress | ClosedWon | ClosedLost.

Definition LeadStatus_label (s : LeadStatus) : string :=
  match s with
  | New => "New"
  | InProgress => "In Progress"
  | ClosedWon => "Closed Won"
  | ClosedLost => "Closed Lost"
  end.

Definition LeadStatus_of_label (s : string) : option LeadStatus :=
  if s =? "New" then Some New
  else if s =? "In Progress" then Some InProgress
  else if s =? "Closed Won" then Some ClosedWon
  else if s =? "Closed Lost" then Some ClosedLost else None.

Definition lead_statuses : list string :=
  ["New"; "In Progress"; "Closed Won"; "Closed Lost"].

(** [ILead]; of the two timestamps only [createdAt], which the list
    endpoint sorts on, is kept. *)
Record Lead : Type := {
  l_id : ObjectId;
  l_name : string;
  l_email : string;
  l_phone : string;
  l_status : LeadStatus;
  l_source : string;
  l_assignedAgent : ObjectId;
  l_notes : option string;
  l_isArchived : bool;
  l_convertedToCustomer : option ObjectId;
  l_convertedAt : option Date;
  l_createdAt : Date
}.

Record Note : Type := {
  n_content : string;
  n_createdBy : ObjectId;
  n_createdAt : Date
}.

Inductive DealStatus : Type := DealOpen | DealWon | DealLost.

(** An entry of [deals]; [value] is a JavaScript number, modelled by an
    integer, and [expectedCloseDate] may be missing from a request. *)
Record Deal : Type := {
  d_title : string;
  d_value : Z;
  d_status : DealStatus;
  d_expectedCloseDate : option Date;
  d_createdAt : Date
}.

(** [ICustomer]. *)
Record Customer : Type := {
  c_id : ObjectId;
  c_name : string;
  c_company : string;
  c_email : string;
  c_phone : string;
  c_notes : list Note;
  c_tags : list string;
  c_owner : ObjectId;
  c_deals : list Deal;
  c_convertedFromLead : option ObjectId;
  c_createdAt : Date
}.

Inductive TaskStatus : Type := Open | Doing | Done.

Definition TaskStatus_label (s : TaskStatus) : string :=
  match s with Open => "Open" | Doing => "In Progress" | Done => "Done" end.

Definition TaskStatus_of_label (s : string) : option TaskStatus :=
  if s =? "Open" then Some Open
  else if s =? "In Progress" then Some Doing
  else if s =? "Done" then Some Done else None.

Definition TaskStatus_eqb (a b : TaskStatus) : bool :=
  TaskStatus_label a =? TaskStatus_label b.

Definition task_statuses : list string := ["Open"; "In Progress"; "Done"].

Inductive Priority : Type := Low | Medium | High.

(** The priority is stored as the string of its name. *)
Definition Priority_label (p : Priority) : string :=
  match p with Low => "Low" | Medium => "Medium" | High => "High" end.

Definition Priority_of_label (s : string) : option Priority :=
  if s =? "Low" then Some Low
  else if s =? "Medium" then Some Medium
  else if s =? "High" then Some High else None.

Definition priorities : list string := ["Low"; "Medium"; "High"].

Inductive RelatedTo : Type :=
| RelLead (id : ObjectId)
| RelCustomer (id : ObjectId).

(** [ITask]. *)
Record Task : Type := {
  t_id : ObjectId;
  t_title : string;
  t_description : option string;
  t_dueDate : Date;
  t_status : TaskStatus;
  t_priority : Priority;
  t_relatedTo : RelatedTo;
  t_owner : ObjectId;
  t_assignedTo : option ObjectId;
  t_completedAt : option Date
}.

Inductive EntityType : Type := ELead | ECustomer | ETask | EUser.

(** [IActivity]; [details] is a free-form object, kept as the list of
    its keys with the strings stored under each. *)
Record Activity : Type := {
  a_id : ObjectId;
  a_user : ObjectId;
  a_action : string;
  a_entityType : EntityType;
  a_entityId : ObjectId;
  a_details : list (string * list string);
  a_createdAt : Date
}.

(* ================================================================== *)
(** ** The persistent store                                             *)
(* ================================================================== *)

(** A write issued to the store. *)
Inductive Write : Type :=
| SaveUser (u : User)
| DeleteUser (id : ObjectId)
| SaveLead (l : Lead)
| InsertCustomer (c : Customer)
| SaveCustomer (c : Customer)
| SaveTask (t : Task)
| InsertActivity (a : Activity).

Record Store : Type := {
  users : list User;
  leads : list Lead;
  customers : list Customer;
  tasks : list Task;
  activities : list Activity;
  journal : list Write
}.

Section Collection.
Variable A : Type.
Variable key : A -> ObjectId.

(** [Model.findById(id)]. *)
Definition findById (coll : list A) (id : ObjectId) : option A :=
  find (fun x => key x =? id) coll.

(** [doc.save()] of a document loaded from the collection. *)
Definition replace (doc : A) (coll : list A) : list A :=
  map (fun x => if key x =? key doc then doc else x) coll.

(** [Model.findByIdAndDelete(id)]. *)
Definition remove (id : ObjectId) (coll : list A) : list A :=
  filter (fun x => negb (key x =? id)) coll.
End Collection.

Definition with_users (st : Store) (us : list User) : Store :=
  {| users := us; leads := leads st; customers := customers st;
     tasks := tasks st; activities := activities st; journal := journal st |}.

Definition with_leads (st : Store) (ls : list Lead) : Store :=
  {| users := users st; leads := ls; customers := customers st;
     tasks := tasks st; activities := activities st; journal := journal st |}.

Definition with_customers (st : Store) (cs : list Customer) : Store :=
  {| users := users st; leads := leads st; customers := cs;
     tasks := tasks st; activities := activities st; journal := journal st |}.

Definition with_tasks (st : Store) (ts : list Task) : Store :=
  {| users := users st; leads := leads st; customers := customers st;
     tasks := ts; activities := activities st; journal := journal st |}.

Definition with_activities (st : Store) (acts : list Activity) : Store :=
  {| users := users st; leads := leads st; customers := customers st;
     tasks := tasks st; activities := acts; journal := journal st |}.

Definition logged (w : Write) (st : Store) : Store :=
  {| users := users st; leads := leads st; customers := customers st;
     tasks := tasks st; activities := activities st;
     journal := journal st ++ [w] |}.

(** The effect of one write on the collections, recorded in the journal. *)
Definition apply_write (w : Write) (st : Store) : Store :=
  logged w
    match w with
    | SaveUser u => with_users st (replace u_id u (users st))
    | DeleteUser id => with_users st (remove u_id id (users st))
    | SaveLead l => with_leads st (replace l_id l (leads st))
    | InsertCustomer c => with_customers st (customers st ++ [c])
    | SaveCustomer c => with_customers st (replace c_id c (customers st))
    | SaveTask t => with_tasks st (replace t_id t (tasks st))
    | InsertActivity a => with_activities st (activities st ++ [a])
    end.

(* ================================================================== *)
(** ** Responses and route handlers                                     *)
(* ================================================================== *)

(** What reaches [next(error)] from the [catch] of a handler. *)
Inductive Exn : Type :=
| ValidationError (paths : list string)
| CastError (path : string)
| SyntaxError
| TypeError
| DuplicateKey (path : string).

Inductive Response (A : Type) : Type :=
| Success (status : nat) (message : option string) (data : A)
| Failure (status : nat) (message : string)
| Rejected (errors : list string)
| NextError (e : Exn).

Arguments Failure {A} status message.
Arguments Rejected {A} errors.
Arguments NextError {A} e.

(** The HTTP status the handler itself sets; the error middleware, which
    answers a [NextError], is not among the sources. *)
Definition status_of {A : Type} (r : Response A) : option nat :=
  match r with
  | Success s _ _ => Some s
  | Failure s _ => Some s
  | Rejected _ => Some 400%nat
  | NextError _ => None
  end.

Definition is_success {A : Type} (r : Response A) : bool :=
  match r with Success _ _ _ => true | _ => false end.

(** A handler runs over the store and either responds, which ends it, or
    goes on with a value. *)
Definition Handler (R A : Type) : Type := Store -> (R + A) * Store.

Definition ret {R A : Type} (a : A) : Handler R A :=
  fun st => (inr a, st).

Definition bind {R A B : Type} (m : Handler R A) (k : A -> Handler R B)
  : Handler R B :=
  fun st =>
    match m st with
    | (inl r, st') => (inl r, st')
    | (inr a, st') => k a st'
    end.

(** [return res.status(..).json(..)], and [throw] inside the [try]. *)
Definition respond {R A : Type} (r : R) : Handler R A :=
  fun st => (inl r, st).

(** [if (cond) return res...;] *)
Definition when_ {R : Type} (cond : bool) (r : R) : Handler R unit :=
  if cond then respond r else ret tt.

Definition query {R A : Type} (f : Store -> A) : Handler R A :=
  fun st => (inr (f st), st).

Definition write {R : Type} (w : Write) : Handler R unit :=
  fun st => (inr tt, apply_write w st).

Definition run {R : Type} (h : Handler R R) (st : Store) : R * Store :=
  match h st with
  | (inl r, st') => (r, st')
  | (inr r, st') => (r, st')
  end.

Declare Scope handler_scope.
Delimit Scope handler_scope with handler.
Notation "x <- m ;; k" := (bind m (fun x => k))
  (at level 61, m at next level, right associativity) : handler_scope.
Notation "m ;; k" := (bind m (fun _ => k))
  (at level 61, right associativity) : handler_scope.

(* ================================================================== *)
(** ** Mongoose schemas: setters and validators                         *)
(* ================================================================== *)

Module Schema.

(** [required: true] on a String path. *)
Definition required (s : string) : bool := Text.truthy s.

Definition maxlength (n : nat) (s : string) : bool :=
  (String.length s <=? n)%nat.

(** [match: [pattern, message]]; the empty string is left to
    [required]. *)
Definition email_match (s : string) : bool :=
  (s =? "") || Regex.matches Regex.email_pattern s.

(** [trim: true]. *)
Definition set_text (s : string) : string := Text.trim s.

(** [lowercase: true, trim: true]. *)
Definition set_email (s : string) : string :=
  Text.trim (Text.toLowerCase s).

(** Cast of a string to [Schema.Types.ObjectId]. *)
Definition is_ObjectId (s : string) : bool :=
  (String.length s =? 24)%nat && Text.all_chars Text.is_hex s.

(** The ObjectId a text casts to, [None] where the cast throws: the
    hexadecimal digits are read in either case of the letters, and the
    identifier is rendered in lower case. *)
Definition cast_ObjectId (s : string) : option ObjectId :=
  if is_ObjectId s then Some (Text.toLowerCase s) else None.

(** Cast of a value to [Boolean]: true, 'true', 1, '1' and 'yes' are
    true; false, 'false', 0, '0' and 'no' are false; the cast of any
    other value throws. *)
Definition cast_Boolean (v : Json) : option bool :=
  match v with
  | JBool b => Some b
  | JText s =>
      if (s =? "true") || (s =? "1") || (s =? "yes") then Some true
      else if (s =? "false") || (s =? "0") || (s =? "no") then Some false
      else None
  | JNumber n =>
      if (n =? 1)%Z then Some true
      else if (n =? 0)%Z then Some false else None
  end.

Definition name_ok (s : string) : bool := required s && maxlength 100 s.
Definition email_ok (s : string) : bool := required s && email_match s.
Definition phone_ok (s : string) : bool := required s && maxlength 20 s.
Definition source_ok (s : string) : bool := required s && maxlength 50 s.

(** A Lead as the Lead schema stores it, on the paths the conversion
    copies: each has been through its setter and passes its
    validators. *)
Definition Lead_conforms (l : Lead) : bool :=
  (set_text (l_name l) =? l_name l) && name_ok (l_name l)
  && (set_email (l_email l) =? l_email l) && email_ok (l_email l)
  && (set_text (l_phone l) =? l_phone l) && phone_ok (l_phone l).

(** [createdBy] is required too, and every note is built with one. *)
Definition note_ok (n : Note) : bool :=
  required (n_content n) && maxlength 1000 (n_content n).

Definition tag_ok (t : string) : bool := maxlength 30 t.

Definition deal_ok (d : Deal) : bool :=
  required (d_title d) && maxlength 200 (d_title d)
  && (0 <=? d_value d)%Z
  && match d_expectedCloseDate d with Some _ => true | None => false end.

(** The paths of a new Customer document that fail validation;
    [owner] is required too, and every Customer is built with one. *)
Definition Customer_errors (c : Customer) : list string :=
  Validator.check "name" (name_ok (c_name c))
  ++ Validator.check "company" (name_ok (c_company c))
  ++ Validator.check "email" (email_ok (c_email c))
  ++ Validator.check "phone" (phone_ok (c_phone c))
  ++ Validator.check "notes" (forallb note_ok (c_notes c))
  ++ Validator.check "tags" (forallb tag_ok (c_tags c))
  ++ Validator.check "deals" (forallb deal_ok (c_deals c)).

End Schema.

(** A deal as a request carries it. *)
Record DealInput : Type := {
  di_title : string;
  di_value : Z;
  di_status : option DealStatus;
  di_expectedCloseDate : option Date
}.

Definition new_Deal (now : Date) (d : DealInput) : Deal :=
  {| d_title := Schema.set_text (di_title d);
     d_value := di_value d;
     d_status := match di_status d with Some s => s | None => DealOpen end;
     d_expectedCloseDate := di_expectedCloseDate d;
     d_createdAt := now |}.

(** [new Customer({name, company, email, phone, tags, deals, owner,
    convertedFromLead})]: the setters of the schema run on assignment. *)
Definition new_Customer (id : ObjectId) (now : Date)
    (name company email phone : string) (tags : list string)
    (deals : list DealInput) (owner : ObjectId)
    (convertedFromLead : option ObjectId) : Customer :=
  {| c_id := id;
     c_name := Schema.set_text name;
     c_company := Schema.set_text company;
     c_email := Schema.set_email email;
     c_phone := Schema.set_text phone;
     c_notes := [];
     c_tags := map Schema.set_text tags;
     c_owner := owner;
     c_deals := map (new_Deal now) deals;
     c_convertedFromLead := convertedFromLead;
     c_createdAt := now |}.

(* ================================================================== *)
(** ** Middleware ([server/middleware/auth.ts])                         *)
(* ================================================================== *)

(** [requireRole(roles)]: [roles.includes(req.user.role)]. *)
Definition requireRole (roles : list Role) (user : User) : bool :=
  existsb (Role_eqb (u_role user)) roles.

Definition requireAdmin : User -> bool := requireRole [admin].
Definition requireAgentOrAdmin : User -> bool := requireRole [admin; agent].

Definition is_agent (user : User) : bool := Role_eqb (u_role user) agent.
Definition is_admin (user : User) : bool := Role_eqb (u_role user) admin.

Definition forbidden {A : Type} : Response A :=
  Failure 403 "Insufficient permissions".

(* ================================================================== *)
(** ** Lists: sort, skip, limit                                         *)
(* ================================================================== *)

Section Sorting.
Variable A : Type.
(** [before x y]: [x] may come before [y] in the result. *)
Variable before : A -> A -> bool.

Fixpoint insert (x : A) (l : list A) : list A :=
  match l with
  | [] => [x]
  | y :: l' => if before x y then x :: l else y :: insert x l'
  end.

(** [.sort(..)]: documents with equal keys keep their store order. *)
Definition sort (l : list A) : list A := fold_right insert [] l.
End Sorting.

Record Page (A : Type) : Type := {
  data : list A;
  page : Z;
  limit : Z;
  total : Z;
  pages : Z
}.

(** [parseInt(req.query.x) || fallback]. *)
Definition int_or (v : option string) (fallback : Z) : Z :=
  match v with
  | None => fallback
  | Some s =>
      match Text.parseInt s with
      | None => fallback
      | Some n => if (n =? 0)%Z then fallback else n
      end
  end.

(** [.skip((page - 1) * limit).limit(limit)], with the count of the
    documents that match and [Math.ceil(total / limit)]. *)
Definition paginate {A : Type} (pg lim : Z) (found : list A) : Page A :=
  let n := Z.of_nat (List.length found) in
  {| data := firstn (Z.to_nat lim) (skipn (Z.to_nat ((pg - 1) * lim)) found);
     page := pg;
     limit := lim;
     total := n;
     pages := (n + lim - 1) / lim |}.

Definition is_nil {A : Type} (l : list A) : bool :=
  match l with [] => true | _ => false end.

Definition is_some {A : Type} (o : option A) : bool :=
  match o with Some _ => true | None => false end.

Definition present {A : Type} (key : string) (o : option A) : list string :=
  match o with Some _ => [key] | None => [] end.

Definition or_else {A : Type} (o : option A) (d : A) : A :=
  match o with Some v => v | None => d end.

(* ================================================================== *)
(** ** Routes                                                           *)
(* ================================================================== *)

Local Open Scope handler_scope.

Section Routes.

(** [new RegExp(source, 'i')] as the test it denotes on a field;
    [None] when the constructor throws on a malformed source. *)
Variable RegExp_i : string -> option (string -> bool).
(** [isISO8601()] and [new Date(text)], [None] for an invalid date. *)
Variable isISO8601 : string -> bool.
Variable Date_parse : string -> option Date.
(** [isEmail()] and [normalizeEmail()] of validator.js. *)
Variable isEmail : string -> bool.
Variable normalizeEmail : string -> string.

(* ---------------------------------------------------------------- *)
(** *** [routes/leads.ts]                                            *)
(* ---------------------------------------------------------------- *)

Record LeadQuery : Type := {
  lq_page : option string;
  lq_limit : option string;
  lq_status : option string;
  lq_search : option string;
  lq_assignedAgent : option string
}.

Definition leads_list_check (q : LeadQuery) : list string :=
  Validator.check "page" (Validator.optional (Validator.isInt 1 None) (lq_page q))
  ++ Validator.check "limit"
       (Validator.optional (Validator.isInt 1 (Some 100%Z)) (lq_limit q))
  ++ Validator.check "status"
       (Validator.optional (Validator.isIn lead_statuses) (lq_status q))
  ++ Validator.check "assignedAgent"
       (Validator.optional Validator.isMongoId (lq_assignedAgent q)).

(** The query object handed to [Lead.find]. *)
Record LeadFilter : Type := {
  lf_isArchived : option bool;
  lf_assignedAgent : option string;
  lf_status : option string;
  lf_or : option (string -> bool)
}.

Definition lf_set_assignedAgent (f : LeadFilter) (v : string) : LeadFilter :=
  {| lf_isArchived := lf_isArchived f; lf_assignedAgent := Some v;
     lf_status := lf_status f; lf_or := lf_or f |}.

Definition lf_set_status (f : LeadFilter) (v : string) : LeadFilter :=
  {| lf_isArchived := lf_isArchived f; lf_assignedAgent := lf_assignedAgent f;
     lf_status := Some v; lf_or := lf_or f |}.

Definition lf_set_or (f : LeadFilter) (re : string -> bool) : LeadFilter :=
  {| lf_isArchived := lf_isArchived f; lf_assignedAgent := lf_assignedAgent f;
     lf_status := lf_status f; lf_or := Some re |}.

Definition holds {A : Type} (c : option A) (test : A -> bool) : bool :=
  match c with
  | None => true
  | Some v => test v
  end.

(** Whether a stored Lead satisfies the query; [$or] ranges over name,
    email, phone and source. *)
Definition lead_matches (f : LeadFilter) (l : Lead) : bool :=
  holds (lf_isArchived f) (Bool.eqb (l_isArchived l))
  && holds (lf_assignedAgent f) (String.eqb (l_assignedAgent l))
  && holds (lf_status f) (String.eqb (LeadStatus_label (l_status l)))
  && holds (lf_or f)
       (fun re => re (l_name l) || re (l_email l) || re (l_phone l)
                  || re (l_source l)).

(** [{ createdAt: -1 }]. *)
Definition newest_first {A : Type} (createdAt : A -> Date) (x y : A) : bool :=
  (createdAt y <=? createdAt x)%Z.

(** The filter [GET /leads] builds, before the search clause. *)
Definition leads_list_filter (user : User) (q : LeadQuery) : LeadFilter :=
  let filter :=
    {| lf_isArchived := Some false; lf_assignedAgent := None;
       lf_status := None; lf_or := None |} in
  let filter :=
    if is_agent user then lf_set_assignedAgent filter (u_id user) else filter in
  let filter :=
    match lq_status q with
    | Some s => if Text.truthy s then lf_set_status filter s else filter
    | None => filter
    end in
  match lq_assignedAgent q with
  | Some a =>
      if Text.truthy a && is_admin user
      then lf_set_assignedAgent filter a else filter
  | None => filter
  end.

(** [GET /leads].  It issues no write: a function of the store.
    [populate] changes how the references of the documents of the page
    are rendered, not which documents are on it; the page holds the
    stored documents. *)
Definition leads_list (st : Store) (user : User) (q : LeadQuery)
  : Response (Page Lead) :=
  if negb (requireAgentOrAdmin user) then forbidden else
  match leads_list_check q with
  | (_ :: _) as errors => Rejected errors
  | [] =>
      let search := option_map Text.trim (lq_search q) in
      let pg := int_or (lq_page q) 1 in
      let lim := int_or (lq_limit q) 20 in
      let filter := leads_list_filter user q in
      let searched :=
        match search with
        | Some s =>
            if Text.truthy s
            then option_map (lf_set_or filter) (RegExp_i s)
            else Some filter
        | None => Some filter
        end in
      match searched with
      | None => NextError SyntaxError
      | Some filter =>
          (* [Lead.find] casts the filter to the schema *)
          if negb (holds (lf_assignedAgent filter) Schema.is_ObjectId)
          then NextError (CastError "assignedAgent")
          else
            Success 200 None
              (paginate pg lim
                 (sort (newest_first l_createdAt)
                    (List.filter (lead_matches filter) (leads st))))
      end
  end.

(** The ownership check of the routes that load the Lead without
    populating it, where [assignedAgent] is an ObjectId and its
    [toString()] the identifier:
    [req.user.role === 'agent' && lead.assignedAgent.toString() !== req.user.id]. *)
Definition lead_denied (user : User) (lead : Lead) : bool :=
  is_agent user && negb (l_assignedAgent lead =? u_id user).

(** What [populate(path, 'firstName lastName email')] puts in place of
    a reference to a user: the document found, with its identifier and
    the selected fields; [null] when no user has the identifier. *)
Record UserRef : Type := {
  ur_id : ObjectId;
  ur_firstName : string;
  ur_lastName : string;
  ur_email : string
}.

(** What [populate('convertedToCustomer', 'name company')] puts in place
    of the reference to a customer. *)
Record CustomerRef : Type := {
  cr_id : ObjectId;
  cr_name : string;
  cr_company : string
}.

Definition populate_User (st : Store) (id : ObjectId) : option UserRef :=
  option_map
    (fun u => {| ur_id := u_id u; ur_firstName := u_firstName u;
                 ur_lastName := u_lastName u; ur_email := u_email u |})
    (findById u_id (users st) id).

Definition populate_Customer (st : Store) (id : ObjectId) : option CustomerRef :=
  option_map
    (fun c => {| cr_id := c_id c; cr_name := c_name c;
                 cr_company := c_company c |})
    (findById c_id (customers st) id).

(** The Lead that [GET /leads/:id] loads: the stored document with its
    two references populated. *)
Record PopulatedLead : Type := {
  pl_lead : Lead;
  pl_assignedAgent : option UserRef;
  pl_convertedToCustomer : option CustomerRef
}.

Definition Lead_populate (st : Store) (lead : Lead) : PopulatedLead :=
  {| pl_lead := lead;
     pl_assignedAgent := populate_User st (l_assignedAgent lead);
     pl_convertedToCustomer :=
       match l_convertedToCustomer lead with
       | Some id => populate_Customer st id
       | None => None
       end |}.

(** [toString()] of a populated reference.  It is a Mongoose document,
    whose [toString] is the text of its inspection: an object literal in
    braces listing the identifier and the selected fields, never the bare
    identifier.  The layout inside the braces follows Node's
    [util.inspect] and is kept on one line here. *)
Definition UserRef_toString (r : UserRef) : string :=
  "{ _id: new ObjectId('" ++ ur_id r ++ "'), firstName: '" ++ ur_firstName r
  ++ "', lastName: '" ++ ur_lastName r ++ "', email: '" ++ ur_email r ++ "' }".

(** [GET /leads/:id].  It issues no write.  The ownership test for an
    agent is made on the populated document,
    [lead.assignedAgent.toString() !== req.user.id]: the left side is the
    text of a user document, and of [null], which has no [toString], when
    the agent is not stored. *)
Definition leads_get (st : Store) (user : User) (id : ObjectId)
  : Response PopulatedLead :=
  if negb (requireAgentOrAdmin user) then forbidden else
  match findById l_id (leads st) id with
  | None => Failure 404 "Lead not found"
  | Some lead =>
      let doc := Lead_populate st lead in
      if is_agent user then
        match pl_assignedAgent doc with
        | None => NextError TypeError
        | Some assigned =>
            if negb (UserRef_toString assigned =? u_id user)
            then Failure 403 "Access denied"
            else Success 200 None doc
        end
      else Success 200 None doc
  end.

(** The body of [PATCH /leads/:id]: the fields the route validates and
    the remaining paths of the schema, which it does not.  A key that is
    no path of the schema is not stored and has no field here. *)
Record LeadBody : Type := {
  lb_name : option string;
  lb_email : option string;
  lb_phone : option string;
  lb_status : option string;
  lb_source : option string;
  lb_notes : option string;
  lb_assignedAgent : option string;
  lb_isArchived : option Json;
  lb_convertedToCustomer : option string;
  lb_convertedAt : option string
}.

(** [Object.keys(req.body)]. *)
Definition LeadBody_keys (b : LeadBody) : list string :=
  present "name" (lb_name b) ++ present "email" (lb_email b)
  ++ present "phone" (lb_phone b) ++ present "status" (lb_status b)
  ++ present "source" (lb_source b) ++ present "notes" (lb_notes b)
  ++ present "assignedAgent" (lb_assignedAgent b)
  ++ present "isArchived" (lb_isArchived b)
  ++ present "convertedToCustomer" (lb_convertedToCustomer b)
  ++ present "convertedAt" (lb_convertedAt b).

Definition trimmed_length (min max : nat) (v : string) : bool :=
  Validator.isLength min max (Text.trim v).

Definition leads_patch_check (b : LeadBody) : list string :=
  Validator.check "name" (Validator.optional (trimmed_length 1 100) (lb_name b))
  ++ Validator.check "email" (Validator.optional isEmail (lb_email b))
  ++ Validator.check "phone" (Validator.optional (trimmed_length 1 20) (lb_phone b))
  ++ Validator.check "status"
       (Validator.optional (Validator.isIn lead_statuses) (lb_status b))
  ++ Validator.check "source" (Validator.optional (trimmed_length 1 50) (lb_source b))
  ++ Validator.check "notes" (Validator.optional (trimmed_length 0 1000) (lb_notes b))
  ++ Validator.check "assignedAgent"
       (Validator.optional Validator.isMongoId (lb_assignedAgent b)).

(** The sanitizers of the chains write their result back to
    [req.body]. *)
Definition leads_patch_sanitize (b : LeadBody) : LeadBody :=
  {| lb_name := option_map Text.trim (lb_name b);
     lb_email := option_map normalizeEmail (lb_email b);
     lb_phone := option_map Text.trim (lb_phone b);
     lb_status := lb_status b;
     lb_source := option_map Text.trim (lb_source b);
     lb_notes := option_map Text.trim (lb_notes b);
     lb_assignedAgent := lb_assignedAgent b;
     lb_isArchived := lb_isArchived b;
     lb_convertedToCustomer := lb_convertedToCustomer b;
     lb_convertedAt := lb_convertedAt b |}.

(** [Object.assign(lead, req.body)]: every key of the body is set on
    the document, through the setter and the cast of its path; a value
    that does not cast leaves the path as it was and is reported by
    [save].  [_id] and the timestamps are not keys of the body here. *)
Definition Lead_assign (lead : Lead) (b : LeadBody) : Lead :=
  {| l_id := l_id lead;
     l_name := or_else (option_map Schema.set_text (lb_name b)) (l_name lead);
     l_email := or_else (option_map Schema.set_email (lb_email b)) (l_email lead);
     l_phone := or_else (option_map Schema.set_text (lb_phone b)) (l_phone lead);
     l_status :=
       match lb_status b with
       | Some v => or_else (LeadStatus_of_label v) (l_status lead)
       | None => l_status lead
       end;
     l_source := or_else (option_map Schema.set_text (lb_source b)) (l_source lead);
     l_assignedAgent :=
       match lb_assignedAgent b with
       | Some v => or_else (Schema.cast_ObjectId v) (l_assignedAgent lead)
       | None => l_assignedAgent lead
       end;
     l_notes :=
       match lb_notes b with
       | Some v => Some (Schema.set_text v)
       | None => l_notes lead
       end;
     l_isArchived :=
       match lb_isArchived b with
       | Some v => or_else (Schema.cast_Boolean v) (l_isArchived lead)
       | None => l_isArchived lead
       end;
     l_convertedToCustomer :=
       match lb_convertedToCustomer b with
       | Some v =>
           match Schema.cast_ObjectId v with
           | Some id => Some id
           | None => l_convertedToCustomer lead
           end
       | None => l_convertedToCustomer lead
       end;
     l_convertedAt :=
       match lb_convertedAt b with
       | Some v =>
           match Date_parse v with
           | Some d => Some d
           | None => l_convertedAt lead
           end
       | None => l_convertedAt lead
       end;
     l_createdAt := l_createdAt lead |}.

(** Validation on [lead.save()] of the paths the body modified;
    a label outside the enum and a value that does not cast to the type
    of its path (ObjectId, Boolean, Date) are reported under their
    path. *)
Definition Lead_save_errors (b : LeadBody) (l : Lead) : list string :=
  Validator.check "name" (holds (lb_name b) (fun _ => Schema.name_ok (l_name l)))
  ++ Validator.check "email" (holds (lb_email b) (fun _ => Schema.email_ok (l_email l)))
  ++ Validator.check "phone" (holds (lb_phone b) (fun _ => Schema.phone_ok (l_phone l)))
  ++ Validator.check "status"
       (holds (lb_status b) (fun v => is_some (LeadStatus_of_label v)))
  ++ Validator.check "source" (holds (lb_source b) (fun _ => Schema.source_ok (l_source l)))
  ++ Validator.check "notes"
       (holds (lb_notes b) (fun _ => holds (l_notes l) (Schema.maxlength 1000)))
  ++ Validator.check "assignedAgent" (holds (lb_assignedAgent b) Schema.is_ObjectId)
  ++ Validator.check "isArchived"
       (holds (lb_isArchived b) (fun v => is_some (Schema.cast_Boolean v)))
  ++ Validator.check "convertedToCustomer"
       (holds (lb_convertedToCustomer b) Schema.is_ObjectId)
  ++ Validator.check "convertedAt"
       (holds (lb_convertedAt b) (fun v => is_some (Date_parse v))).

(** [await doc.save()]: a validation error is thrown to the [catch],
    otherwise the write is issued. *)
Definition save {A : Type} (errors : list string) (w : Write)
  : Handler (Response A) unit :=
  if is_nil errors then write w
  else respond (NextError (ValidationError errors)).

(** [Activity.create({user, action, entityType, entityId, details})]. *)
Definition log_activity {A : Type} (id : ObjectId) (now : Date) (user : User)
    (action : string) (entity : EntityType) (entityId : ObjectId)
    (details : list (string * list string)) : Handler (Response A) unit :=
  write (InsertActivity
           {| a_id := id; a_user := u_id user; a_action := action;
              a_entityType := entity; a_entityId := entityId;
              a_details := details; a_createdAt := now |}).

(** [Lead.findOne({email, isArchived: false, _id: {$ne: lead._id}})],
    asked only when the body changes the e-mail. *)
Definition lead_email_taken (st : Store) (lead : Lead) (b : LeadBody)
  : option Lead :=
  match lb_email b with
  | Some e =>
      if Text.truthy e && negb (e =? l_email lead)
      then find (fun x => (l_email x =? e) && Bool.eqb (l_isArchived x) false
                          && negb (l_id x =? l_id lead)) (leads st)
      else None
  | None => None
  end.

(** [PATCH /leads/:id]; [now] is the clock and [aid] the identifier
    of the Activity entry the handler creates. *)
Definition leads_patch (user : User) (id : ObjectId) (body : LeadBody)
    (now : Date) (aid : ObjectId)
  : Handler (Response Lead) (Response Lead) :=
  when_ (negb (requireAgentOrAdmin user)) forbidden ;;
  let errors := leads_patch_check body in
  when_ (negb (is_nil errors)) (Rejected errors) ;;
  let body := leads_patch_sanitize body in
  found <- query (fun st => findById l_id (leads st) id) ;;
  match found with
  | None => respond (Failure 404 "Lead not found")
  | Some lead =>
      when_ (lead_denied user lead) (Failure 403 "Access denied") ;;
      existingLead <- query (fun st => lead_email_taken st lead body) ;;
      when_ (is_some existingLead)
        (Failure 400 "Lead with this email already exists") ;;
      let lead := Lead_assign lead body in
      save (Lead_save_errors body lead) (SaveLead lead) ;;
      log_activity aid now user "Lead Updated" ELead (l_id lead)
        [("updatedFields", LeadBody_keys body)] ;;
      ret (Success 200 (Some "Lead updated successfully") lead)
  end.

Record ConvertBody : Type := {
  cv_company : option string;
  cv_tags : option (list string);
  cv_deals : option (list DealInput)
}.

(** [tags] and [deals] are arrays by their type, which is all that
    their chains ask. *)
Definition leads_convert_check (b : ConvertBody) : list string :=
  Validator.check "company"
    (trimmed_length 1 100 (Validator.required_text (cv_company b))).

Definition lead_closed (lead : Lead) : bool :=
  (LeadStatus_label (l_status lead) =? "Closed Won")
  || (LeadStatus_label (l_status lead) =? "Closed Lost").

(** The three assignments before [lead.save()] in the conversion. *)
Definition Lead_converted (lead : Lead) (customer : ObjectId) (now : Date)
  : Lead :=
  {| l_id := l_id lead; l_name := l_name lead; l_email := l_email lead;
     l_phone := l_phone lead; l_status := ClosedWon;
     l_source := l_source lead; l_assignedAgent := l_assignedAgent lead;
     l_notes := l_notes lead; l_isArchived := l_isArchived lead;
     l_convertedToCustomer := Some customer;
     l_convertedAt := Some now;
     l_createdAt := l_createdAt lead |}.

(** The Customer document the conversion builds from the Lead. *)
Definition converted_Customer (cid : ObjectId) (now : Date) (user : User)
    (lead : Lead) (body : ConvertBody) : Customer :=
  new_Customer cid now (l_name lead)
    (Text.trim (Validator.required_text (cv_company body)))
    (l_email lead) (l_phone lead)
    (or_else (cv_tags body) []) (or_else (cv_deals body) [])
    (u_id user) (Some (l_id lead)).

(** [POST /leads/:id/convert]; [cid] and [aid] are the identifiers of
    the Customer and of the Activity entry the handler creates. *)
Definition leads_convert (user : User) (id : ObjectId) (body : ConvertBody)
    (now : Date) (cid aid : ObjectId)
  : Handler (Response (Customer * Lead)) (Response (Customer * Lead)) :=
  when_ (negb (requireAgentOrAdmin user)) forbidden ;;
  let errors := leads_convert_check body in
  when_ (negb (is_nil errors)) (Rejected errors) ;;
  found <- query (fun st => findById l_id (leads st) id) ;;
  match found with
  | None => respond (Failure 404 "Lead not found")
  | Some lead =>
      when_ (lead_denied user lead) (Failure 403 "Access denied") ;;
      when_ (lead_closed lead) (Failure 400 "Cannot convert closed lead") ;;
      let customer := converted_Customer cid now user lead body in
      save (Schema.Customer_errors customer) (InsertCustomer customer) ;;
      let lead := Lead_converted lead (c_id customer) now in
      write (SaveLead lead) ;;
      log_activity aid now user "Lead Converted to Customer" ELead (l_id lead)
        [("customerId", [c_id customer]);
         ("company", [Text.trim (Validator.required_text (cv_company body))])] ;;
      ret (Success 200 (Some "Lead converted to customer successfully")
             (customer, lead))
  end.

Definition Lead_archived (lead : Lead) : Lead :=
  {| l_id := l_id lead; l_name := l_name lead; l_email := l_email lead;
     l_phone := l_phone lead; l_status := l_status lead;
     l_source := l_source lead; l_assignedAgent := l_assignedAgent lead;
     l_notes := l_notes lead; l_isArchived := true;
     l_convertedToCustomer := l_convertedToCustomer lead;
     l_convertedAt := l_convertedAt lead;
     l_createdAt := l_createdAt lead |}.

(** [DELETE /leads/:id]: the soft delete. *)
Definition leads_archive (user : User) (id : ObjectId) (now : Date)
    (aid : ObjectId) : Handler (Response unit) (Response unit) :=
  when_ (negb (requireAgentOrAdmin user)) forbidden ;;
  found <- query (fun st => findById l_id (leads st) id) ;;
  match found with
  | None => respond (Failure 404 "Lead not found")
  | Some lead =>
      when_ (lead_denied user lead) (Failure 403 "Access denied") ;;
      let lead := Lead_archived lead in
      write (SaveLead lead) ;;
      log_activity aid now user "Lead Archived" ELead (l_id lead)
        [("name", [l_name lead])] ;;
      ret (Success 200 (Some "Lead archived successfully") tt)
  end.

(* ---------------------------------------------------------------- *)
(** *** [routes/customers.ts]                                        *)
(* ---------------------------------------------------------------- *)

(** A query parameter that may be repeated. *)
Inductive QueryValue : Type :=
| QString (s : string)
| QArray (l : list string).

Definition isArray (v : QueryValue) : bool :=
  match v with QArray _ => true | QString _ => false end.

Record CustomerQuery : Type := {
  cq_page : option string;
  cq_limit : option string;
  cq_search : option string;
  cq_tags : option QueryValue;
  cq_owner : option string
}.

Definition customers_list_check (q : CustomerQuery) : list string :=
  Validator.check "page" (Validator.optional (Validator.isInt 1 None) (cq_page q))
  ++ Validator.check "limit"
       (Validator.optional (Validator.isInt 1 (Some 100%Z)) (cq_limit q))
  ++ Validator.check "tags" (Validator.optional isArray (cq_tags q))
  ++ Validator.check "owner" (Validator.optional Validator.isMongoId (cq_owner q)).

(** The query object handed to [Customer.find]; [cf_tags] is the
    argument of [$in]. *)
Record CustomerFilter : Type := {
  cf_owner : option string;
  cf_tags : option (list string);
  cf_or : option (string -> bool)
}.

Definition customer_matches (f : CustomerFilter) (c : Customer) : bool :=
  holds (cf_owner f) (String.eqb (c_owner c))
  && holds (cf_tags f)
       (fun wanted => existsb (fun t => existsb (String.eqb t) wanted) (c_tags c))
  && holds (cf_or f)
       (fun re => re (c_name c) || re (c_company c) || re (c_email c)
                  || re (c_phone c)).

(** The filter [GET /customers] builds, before the search clause. *)
Definition customers_list_filter (user : User) (q : CustomerQuery)
  : CustomerFilter :=
  let owner := if is_agent user then Some (u_id user) else None in
  let owner :=
    match cq_owner q with
    | Some o => if Text.truthy o && is_admin user then Some o else owner
    | None => owner
    end in
  let tags :=
    match cq_tags q with
    | Some (QArray l) => Some l
    | _ => None
    end in
  {| cf_owner := owner; cf_tags := tags; cf_or := None |}.

(** [GET /customers].  It issues no write. *)
Definition customers_list (st : Store) (user : User) (q : CustomerQuery)
  : Response (Page Customer) :=
  if negb (requireAgentOrAdmin user) then forbidden else
  match customers_list_check q with
  | (_ :: _) as errors => Rejected errors
  | [] =>
      let search := option_map Text.trim (cq_search q) in
      let pg := int_or (cq_page q) 1 in
      let lim := int_or (cq_limit q) 20 in
      let filter := customers_list_filter user q in
      let searched :=
        match search with
        | Some s =>
            if Text.truthy s
            then option_map
                   (fun re => {| cf_owner := cf_owner filter;
                                 cf_tags := cf_tags filter; cf_or := Some re |})
                   (RegExp_i s)
            else Some filter
        | None => Some filter
        end in
      match searched with
      | None => NextError SyntaxError
      | Some filter =>
          (* [Customer.find] casts the filter to the schema *)
          if negb (holds (cf_owner filter) Schema.is_ObjectId)
          then NextError (CastError "owner")
          else
            Success 200 None
              (paginate pg lim
                 (sort (newest_first c_createdAt)
                    (List.filter (customer_matches filter) (customers st))))
      end
  end.

Record CustomerBody : Type := {
  cb_name : option string;
  cb_company : option string;
  cb_email : option string;
  cb_phone : option string;
  cb_tags : option (list string);
  cb_deals : option (list DealInput)
}.

Definition customers_create_check (b : CustomerBody) : list string :=
  Validator.check "name"
    (trimmed_length 1 100 (Validator.required_text (cb_name b)))
  ++ Validator.check "company"
       (trimmed_length 1 100 (Validator.required_text (cb_company b)))
  ++ Validator.check "email" (isEmail (Validator.required_text (cb_email b)))
  ++ Validator.check "phone"
       (trimmed_length 1 20 (Validator.required_text (cb_phone b))).

(** [POST /customers]. *)
Definition customers_create (user : User) (body : CustomerBody)
    (now : Date) (cid aid : ObjectId)
  : Handler (Response Customer) (Response Customer) :=
  when_ (negb (requireAgentOrAdmin user)) forbidden ;;
  let errors := customers_create_check body in
  when_ (negb (is_nil errors)) (Rejected errors) ;;
  let name := Text.trim (Validator.required_text (cb_name body)) in
  let company := Text.trim (Validator.required_text (cb_company body)) in
  let email := normalizeEmail (Validator.required_text (cb_email body)) in
  let phone := Text.trim (Validator.required_text (cb_phone body)) in
  existingCustomer <-
    query (fun st => find (fun c => c_email c =? email) (customers st)) ;;
  when_ (is_some existingCustomer)
    (Failure 400 "Customer with this email already exists") ;;
  let customer :=
    new_Customer cid now name company email phone
      (or_else (cb_tags body) []) (or_else (cb_deals body) [])
      (u_id user) None in
  save (Schema.Customer_errors customer) (InsertCustomer customer) ;;
  log_activity aid now user "Customer Created" ECustomer (c_id customer)
    [("name", [name]); ("company", [company]); ("email", [email])] ;;
  ret (Success 201 (Some "Customer created successfully") customer).

Definition customer_denied (user : User) (customer : Customer) : bool :=
  is_agent user && negb (c_owner customer =? u_id user).

(** [Array.prototype.slice(-n)]: the last [n] elements. *)
Definition slice_last {A : Type} (n : nat) (l : list A) : list A :=
  skipn (List.length l - n) l.

(** [customer.notes.push(note)] followed by the cap on five notes. *)
Definition push_note (notes : list Note) (note : Note) : list Note :=
  let notes := (notes ++ [note])%list in
  if (5 <? List.length notes)%nat then slice_last 5 notes else notes.

Definition Customer_with_notes (c : Customer) (notes : list Note) : Customer :=
  {| c_id := c_id c; c_name := c_name c; c_company := c_company c;
     c_email := c_email c; c_phone := c_phone c; c_notes := notes;
     c_tags := c_tags c; c_owner := c_owner c; c_deals := c_deals c;
     c_convertedFromLead := c_convertedFromLead c;
     c_createdAt := c_createdAt c |}.

(** [POST /customers/:id/notes]; the response carries the notes. *)
Definition customers_add_note (user : User) (id : ObjectId)
    (content : option string) (now : Date) (aid : ObjectId)
  : Handler (Response (list Note)) (Response (list Note)) :=
  when_ (negb (requireAgentOrAdmin user)) forbidden ;;
  let errors :=
    Validator.check "content"
      (trimmed_length 1 1000 (Validator.required_text content)) in
  when_ (negb (is_nil errors)) (Rejected errors) ;;
  let content := Text.trim (Validator.required_text content) in
  found <- query (fun st => findById c_id (customers st) id) ;;
  match found with
  | None => respond (Failure 404 "Customer not found")
  | Some customer =>
      when_ (customer_denied user customer) (Failure 403 "Access denied") ;;
      let note :=
        {| n_content := Schema.set_text content;
           n_createdBy := u_id user;
           n_createdAt := now |} in
      let customer :=
        Customer_with_notes customer (push_note (c_notes customer) note) in
      save (Validator.check "notes" (Schema.note_ok note))
        (SaveCustomer customer) ;;
      log_activity aid now user "Note Added to Customer" ECustomer
        (c_id customer) [("noteContent", [substring 0 100 content])] ;;
      ret (Success 200 (Some "Note added successfully") (c_notes customer))
  end.

(* ---------------------------------------------------------------- *)
(** *** [routes/tasks.ts]                                            *)
(* ---------------------------------------------------------------- *)

Record TaskQuery : Type := {
  tq_page : option string;
  tq_limit : option string;
  tq_status : option string;
  tq_priority : option string;
  tq_owner : option string;
  tq_assignedTo : option string;
  tq_dueDate : option string;
  tq_overdue : option string
}.

Definition tasks_list_check (q : TaskQuery) : list string :=
  Validator.check "page" (Validator.optional (Validator.isInt 1 None) (tq_page q))
  ++ Validator.check "limit"
       (Validator.optional (Validator.isInt 1 (Some 100%Z)) (tq_limit q))
  ++ Validator.check "status"
       (Validator.optional (Validator.isIn task_statuses) (tq_status q))
  ++ Validator.check "priority"
       (Validator.optional (Validator.isIn priorities) (tq_priority q))
  ++ Validator.check "owner" (Validator.optional Validator.isMongoId (tq_owner q))
  ++ Validator.check "assignedTo"
       (Validator.optional Validator.isMongoId (tq_assignedTo q))
  ++ Validator.check "dueDate" (Validator.optional isISO8601 (tq_dueDate q))
  ++ Validator.check "overdue" (Validator.optional Validator.isBoolean (tq_overdue q)).

(** A member of [$or]. *)
Inductive TaskClause : Type :=
| OwnerIs (id : ObjectId)
| AssignedToIs (id : ObjectId).

Inductive StatusCond : Type :=
| StatusIs (label : string)
| StatusNot (label : string).

(** [{$gte: d, $lt: d + one day}] for the parsed [dueDate], which may
    be an invalid date, and [{$lt: now}]. *)
Inductive DateCond : Type :=
| OnDay (d : option Date)
| Before (d : Date).

(** The query object handed to [Task.find]. *)
Record TaskFilter : Type := {
  tf_or : option (list TaskClause);
  tf_status : option StatusCond;
  tf_priority : option string;
  tf_owner : option string;
  tf_assignedTo : option string;
  tf_dueDate : option DateCond
}.

Definition day : Z := 24 * 60 * 60 * 1000.

Definition assignee_is (t : Task) (id : ObjectId) : bool :=
  match t_assignedTo t with
  | Some a => a =? id
  | None => false
  end.

Definition clause_matches (t : Task) (c : TaskClause) : bool :=
  match c with
  | OwnerIs id => t_owner t =? id
  | AssignedToIs id => assignee_is t id
  end.

Definition task_matches (f : TaskFilter) (t : Task) : bool :=
  holds (tf_or f) (existsb (clause_matches t))
  && holds (tf_status f)
       (fun c => match c with
                 | StatusIs s => TaskStatus_label (t_status t) =? s
                 | StatusNot s => negb (TaskStatus_label (t_status t) =? s)
                 end)
  && holds (tf_priority f) (String.eqb (Priority_label (t_priority t)))
  && holds (tf_owner f) (String.eqb (t_owner t))
  && holds (tf_assignedTo f) (assignee_is t)
  && holds (tf_dueDate f)
       (fun c => match c with
                 | OnDay (Some d) =>
                     (d <=? t_dueDate t)%Z && (t_dueDate t <? d + day)%Z
                 | OnDay None => false
                 | Before d => (t_dueDate t <? d)%Z
                 end).

(** [{ dueDate: 1, priority: -1 }]: by ascending date, then by
    descending priority, which is compared as the string it is
    stored as. *)
Definition task_before (x y : Task) : bool :=
  (t_dueDate x <? t_dueDate y)%Z
  || ((t_dueDate x =? t_dueDate y)%Z
      && String.leb (Priority_label (t_priority y))
                    (Priority_label (t_priority x))).

Definition tasks_list_filter (user : User) (q : TaskQuery) (now : Date)
  : TaskFilter :=
  let or_ :=
    if is_agent user
    then Some [OwnerIs (u_id user); AssignedToIs (u_id user)] else None in
  let status :=
    match tq_status q with
    | Some s => if Text.truthy s then Some (StatusIs s) else None
    | None => None
    end in
  let priority :=
    match tq_priority q with
    | Some p => if Text.truthy p then Some p else None
    | None => None
    end in
  let owner :=
    match tq_owner q with
    | Some o => if Text.truthy o && is_admin user then Some o else None
    | None => None
    end in
  let assignedTo :=
    match tq_assignedTo q with
    | Some a => if Text.truthy a && is_admin user then Some a else None
    | None => None
    end in
  let dueDate :=
    match tq_dueDate q with
    | Some d => if Text.truthy d then Some (OnDay (Date_parse d)) else None
    | None => None
    end in
  let overdue :=
    match tq_overdue q with
    | Some v => v =? "true"
    | None => false
    end in
  {| tf_or := or_;
     tf_status := if overdue then Some (StatusNot "Done") else status;
     tf_priority := priority;
     tf_owner := owner;
     tf_assignedTo := assignedTo;
     tf_dueDate := if overdue then Some (Before now) else dueDate |}.

(** [Task.find] casts the filter to the schema: the identifiers to
    ObjectId, the bounds of [dueDate] to dates. *)
Definition filter_casts (f : TaskFilter) : bool :=
  holds (tf_owner f) Schema.is_ObjectId
  && holds (tf_assignedTo f) Schema.is_ObjectId
  && holds (tf_dueDate f)
       (fun c => match c with OnDay None => false | _ => true end).

(** [GET /tasks]; [now] is the clock.  It issues no write. *)
Definition tasks_list (st : Store) (user : User) (q : TaskQuery) (now : Date)
  : Response (Page Task) :=
  if negb (requireAgentOrAdmin user) then forbidden else
  match tasks_list_check q with
  | (_ :: _) as errors => Rejected errors
  | [] =>
      let pg := int_or (tq_page q) 1 in
      let lim := int_or (tq_limit q) 20 in
      let filter := tasks_list_filter user q now in
      if negb (filter_casts filter) then NextError (CastError "filter")
      else
        Success 200 None
          (paginate pg lim
             (sort task_before
                (List.filter (task_matches filter) (tasks st))))
  end.

Record TaskBody : Type := {
  tb_title : option string;
  tb_description : option string;
  tb_dueDate : option string;
  tb_status : option string;
  tb_priority : option string;
  tb_assignedTo : option string
}.

Definition TaskBody_keys (b : TaskBody) : list string :=
  present "title" (tb_title b) ++ present "description" (tb_description b)
  ++ present "dueDate" (tb_dueDate b) ++ present "status" (tb_status b)
  ++ present "priority" (tb_priority b)
  ++ present "assignedTo" (tb_assignedTo b).

Definition tasks_patch_check (b : TaskBody) : list string :=
  Validator.check "title" (Validator.optional (trimmed_length 1 200) (tb_title b))
  ++ Validator.check "description"
       (Validator.optional (trimmed_length 0 1000) (tb_description b))
  ++ Validator.check "dueDate" (Validator.optional isISO8601 (tb_dueDate b))
  ++ Validator.check "status"
       (Validator.optional (Validator.isIn task_statuses) (tb_status b))
  ++ Validator.check "priority"
       (Validator.optional (Validator.isIn priorities) (tb_priority b))
  ++ Validator.check "assignedTo"
       (Validator.optional Validator.isMongoId (tb_assignedTo b)).

Definition tasks_patch_sanitize (b : TaskBody) : TaskBody :=
  {| tb_title := option_map Text.trim (tb_title b);
     tb_description := option_map Text.trim (tb_description b);
     tb_dueDate := tb_dueDate b;
     tb_status := tb_status b;
     tb_priority := tb_priority b;
     tb_assignedTo := tb_assignedTo b |}.

(** A key of [updateData]: missing, holding a value, or holding
    [undefined]. *)
Inductive Update (A : Type) : Type :=
| Absent
| Assigned (v : A)
| Undefined.

Arguments Absent {A}.
Arguments Undefined {A}.

Definition body_status_is_Done (b : TaskBody) : bool :=
  match tb_status b with
  | Some s => s =? "Done"
  | None => false
  end.

(** The [completedAt] key of [updateData]:
    [if (req.body.status === 'Done' && task.status !== 'Done') now
     else if (req.body.status !== 'Done') undefined]. *)
Definition completedAt_update (task : Task) (b : TaskBody) (now : Date)
  : Update Date :=
  if body_status_is_Done b && negb (TaskStatus_label (t_status task) =? "Done")
  then Assigned now
  else if negb (body_status_is_Done b) then Undefined
  else Absent.

(** The [dueDate] key of [updateData]:
    [if (req.body.dueDate) updateData.dueDate = new Date(req.body.dueDate)];
    the empty string is left as it is and casts to no date. *)
Definition dueDate_update (v : string) : option Date :=
  if Text.truthy v then Date_parse v else None.

(** [Object.assign(task, updateData)]; assigning [undefined] to a path
    unsets it. *)
Definition Task_assign (task : Task) (b : TaskBody) (completedAt : Update Date)
  : Task :=
  {| t_id := t_id task;
     t_title := or_else (option_map Schema.set_text (tb_title b)) (t_title task);
     t_description :=
       match tb_description b with
       | Some v => Some (Schema.set_text v)
       | None => t_description task
       end;
     t_dueDate :=
       match tb_dueDate b with
       | Some v => or_else (dueDate_update v) (t_dueDate task)
       | None => t_dueDate task
       end;
     t_status :=
       match tb_status b with
       | Some v => or_else (TaskStatus_of_label v) (t_status task)
       | None => t_status task
       end;
     t_priority :=
       match tb_priority b with
       | Some v => or_else (Priority_of_label v) (t_priority task)
       | None => t_priority task
       end;
     t_relatedTo := t_relatedTo task;
     t_owner := t_owner task;
     t_assignedTo :=
       match tb_assignedTo b with
       | Some v => Some v
       | None => t_assignedTo task
       end;
     t_completedAt :=
       match completedAt with
       | Absent => t_completedAt task
       | Assigned v => Some v
       | Undefined => None
       end |}.

(** Validation on [task.save()] of the paths the update modified. *)
Definition Task_save_errors (b : TaskBody) (t : Task) : list string :=
  Validator.check "title"
    (holds (tb_title b)
       (fun _ => Schema.required (t_title t) && Schema.maxlength 200 (t_title t)))
  ++ Validator.check "description"
       (holds (tb_description b)
          (fun _ => holds (t_description t) (Schema.maxlength 1000)))
  ++ Validator.check "dueDate"
       (holds (tb_dueDate b) (fun v => is_some (dueDate_update v)))
  ++ Validator.check "status"
       (holds (tb_status b) (fun v => is_some (TaskStatus_of_label v)))
  ++ Validator.check "priority"
       (holds (tb_priority b) (fun v => is_some (Priority_of_label v)))
  ++ Validator.check "assignedTo" (holds (tb_assignedTo b) Schema.is_ObjectId).

(** [role === 'agent' && task.owner.toString() !== req.user.id
     && task.assignedTo?.toString() !== req.user.id]. *)
Definition task_denied (user : User) (task : Task) : bool :=
  is_agent user && negb (t_owner task =? u_id user)
  && negb (assignee_is task (u_id user)).

(** [PATCH /tasks/:id]. *)
Definition tasks_patch (user : User) (id : ObjectId) (body : TaskBody)
    (now : Date) (aid : ObjectId)
  : Handler (Response Task) (Response Task) :=
  when_ (negb (requireAgentOrAdmin user)) forbidden ;;
  let errors := tasks_patch_check body in
  when_ (negb (is_nil errors)) (Rejected errors) ;;
  let body := tasks_patch_sanitize body in
  found <- query (fun st => findById t_id (tasks st) id) ;;
  match found with
  | None => respond (Failure 404 "Task not found")
  | Some task =>
      when_ (task_denied user task) (Failure 403 "Access denied") ;;
      let task := Task_assign task body (completedAt_update task body now) in
      save (Task_save_errors body task) (SaveTask task) ;;
      log_activity aid now user "Task Updated" ETask (t_id task)
        [("updatedFields", TaskBody_keys body)] ;;
      ret (Success 200 (Some "Task updated successfully") task)
  end.

(* ---------------------------------------------------------------- *)
(** *** [routes/users.ts]                                            *)
(* ---------------------------------------------------------------- *)

(** Modelled from the spec: [server/models/User.ts] is not among the
    sources.  The setters of the e-mail and of the password of the User
    schema: what the model stores for a value assigned to the path, the
    second being the password hash of the data model. *)
Variable User_set_email : string -> string.
Variable User_set_password : string -> string.

(** The body of the two user updates: a key for every path of the User
    entity but its identifier.  The chains validate the two names, and
    for [PATCH /users/:id] the role and the activity flag.  A key that
    is no path of the schema is not stored and has no field here. *)
Record UserBody : Type := {
  ub_email : option string;
  ub_password : option string;
  ub_firstName : option string;
  ub_lastName : option string;
  ub_role : option string;
  ub_isActive : option Json;
  ub_lastLogin : option string
}.

(** [Object.keys(req.body)]. *)
Definition UserBody_keys (b : UserBody) : list string :=
  present "email" (ub_email b) ++ present "password" (ub_password b)
  ++ present "firstName" (ub_firstName b) ++ present "lastName" (ub_lastName b)
  ++ present "role" (ub_role b) ++ present "isActive" (ub_isActive b)
  ++ present "lastLogin" (ub_lastLogin b).

Definition roles : list string := ["admin"; "agent"].

(** The chains of [PATCH /users/:id]; [isBoolean()] tests the text of
    the value. *)
Definition users_patch_check (b : UserBody) : list string :=
  Validator.check "firstName"
    (Validator.optional (trimmed_length 1 50) (ub_firstName b))
  ++ Validator.check "lastName"
       (Validator.optional (trimmed_length 1 50) (ub_lastName b))
  ++ Validator.check "role" (Validator.optional (Validator.isIn roles) (ub_role b))
  ++ Validator.check "isActive"
       (Validator.optional (fun v => Validator.isBoolean (Json_toString v))
          (ub_isActive b)).

(** The chains of [PATCH /users/profile/me]. *)
Definition users_profile_check (b : UserBody) : list string :=
  Validator.check "firstName"
    (Validator.optional (trimmed_length 1 50) (ub_firstName b))
  ++ Validator.check "lastName"
       (Validator.optional (trimmed_length 1 50) (ub_lastName b)).

Definition users_sanitize (b : UserBody) : UserBody :=
  {| ub_email := ub_email b;
     ub_password := ub_password b;
     ub_firstName := option_map Text.trim (ub_firstName b);
     ub_lastName := option_map Text.trim (ub_lastName b);
     ub_role := ub_role b;
     ub_isActive := ub_isActive b;
     ub_lastLogin := ub_lastLogin b |}.

(** [Object.assign(user, req.body)]: every key of the body is set on
    the document, through the setter and the cast of its path; a value
    that does not cast leaves the path as it was and is reported by
    [save]. *)
Definition User_assign (user : User) (b : UserBody) : User :=
  {| u_id := u_id user;
     u_email := or_else (option_map User_set_email (ub_email b)) (u_email user);
     u_password :=
       or_else (option_map User_set_password (ub_password b)) (u_password user);
     u_firstName := or_else (ub_firstName b) (u_firstName user);
     u_lastName := or_else (ub_lastName b) (u_lastName user);
     u_role :=
       match ub_role b with
       | Some v => or_else (Role_of_label v) (u_role user)
       | None => u_role user
       end;
     u_isActive :=
       match ub_isActive b with
       | Some v => or_else (Schema.cast_Boolean v) (u_isActive user)
       | None => u_isActive user
       end;
     u_lastLogin :=
       match ub_lastLogin b with
       | Some v =>
           match Date_parse v with
           | Some d => Some d
           | None => u_lastLogin user
           end
       | None => u_lastLogin user
       end |}.

(** Modelled from the spec: the User schema is not among the sources;
    on [user.save()] the role must be one of admin and agent, the two
    roles of the data model, the activity flag a Boolean and the last
    login a Date. *)
Definition User_save_errors (b : UserBody) : list string :=
  Validator.check "role" (holds (ub_role b) (fun v => is_some (Role_of_label v)))
  ++ Validator.check "isActive"
       (holds (ub_isActive b) (fun v => is_some (Schema.cast_Boolean v)))
  ++ Validator.check "lastLogin"
       (holds (ub_lastLogin b) (fun v => is_some (Date_parse v))).

(** Modelled from the spec: the e-mail of a User is unique; a body that
    sets the e-mail to the one another user holds is refused by the
    store. *)
Definition User_email_taken (st : Store) (b : UserBody) (target : User) : bool :=
  is_some (ub_email b)
  && existsb (fun u => (u_email u =? u_email target)
                       && negb (u_id u =? u_id target)) (users st).

(** [await user.save()]. *)
Definition User_save {A : Type} (b : UserBody) (target : User)
  : Handler (Response A) unit :=
  let errors := User_save_errors b in
  when_ (negb (is_nil errors)) (NextError (ValidationError errors)) ;;
  taken <- query (fun st => User_email_taken st b target) ;;
  when_ taken (NextError (DuplicateKey "email")) ;;
  write (SaveUser target).

(** [User.findById(req.params.id)]: the text of the path is cast to an
    ObjectId, which throws a CastError on a text that is not one. *)
Definition User_findById {A : Type} (id : string)
  : Handler (Response A) (option User) :=
  match Schema.cast_ObjectId id with
  | None => respond (NextError (CastError "_id"))
  | Some oid => query (fun st => findById u_id (users st) oid)
  end.

(** [PATCH /users/:id]; [user] is the caller, [id] the text of the
    path parameter, which the guard compares with [req.user.id] as a
    string. *)
Definition users_patch (user : User) (id : string) (body : UserBody)
    (now : Date) (aid : ObjectId)
  : Handler (Response User) (Response User) :=
  when_ (negb (requireAdmin user)) forbidden ;;
  let errors := users_patch_check body in
  when_ (negb (is_nil errors)) (Rejected errors) ;;
  let body := users_sanitize body in
  found <- User_findById id ;;
  match found with
  | None => respond (Failure 404 "User not found")
  | Some target =>
      when_ ((id =? u_id user) && Json_is_false (ub_isActive body))
        (Failure 400 "Cannot deactivate your own account") ;;
      let target := User_assign target body in
      User_save body target ;;
      log_activity aid now user "User Updated" EUser (u_id target)
        [("updatedFields", UserBody_keys body)] ;;
      ret (Success 200 (Some "User updated successfully") target)
  end.

(** [DELETE /users/:id]; [id] is the text of the path parameter. *)
Definition users_delete (user : User) (id : string) (now : Date)
    (aid : ObjectId) : Handler (Response unit) (Response unit) :=
  when_ (negb (requireAdmin user)) forbidden ;;
  when_ (id =? u_id user) (Failure 400 "Cannot delete your own account") ;;
  found <- User_findById id ;;
  match found with
  | None => respond (Failure 404 "User not found")
  | Some target =>
      write (DeleteUser (u_id target)) ;;
      log_activity aid now user "User Deleted" EUser (u_id target)
        [("email", [u_email target]); ("role", [Role_label (u_role target)])] ;;
      ret (Success 200 (Some "User deleted successfully") tt)
  end.

(** [PATCH /users/profile/me]: any authenticated user, on the record
    of their own identifier. *)
Definition users_profile_update (user : User) (body : UserBody)
    (now : Date) (aid : ObjectId)
  : Handler (Response User) (Response User) :=
  let errors := users_profile_check body in
  when_ (negb (is_nil errors)) (Rejected errors) ;;
  let body := users_sanitize body in
  found <- query (fun st => findById u_id (users st) (u_id user)) ;;
  match found with
  | None => respond (Failure 404 "User not found")
  | Some target =>
      let target := User_assign target body in
      User_save body target ;;
      log_activity aid now user "Profile Updated" EUser (u_id target)
        [("updatedFields", UserBody_keys body)] ;;
      ret (Success 200 (Some "Profile updated successfully") target)
  end.

End Routes.

Arguments Absent {A}.
Arguments Undefined {A}.

(* ================================================================== *)
(** ** The Task virtual, the activity routes and the registration      *)
(* ================================================================== *)

(** The virtual [isOverdue] of the Task schema:
    [if (this.status === 'Done') return false; return this.dueDate < new Date()]. *)
Definition isOverdue (t : Task) (now : Date) : bool :=
  if TaskStatus_label (t_status t) =? "Done" then false
  else (t_dueDate t <? now)%Z.

Definition EntityType_label (e : EntityType) : string :=
  match e with
  | ELead => "Lead"
  | ECustomer => "Customer"
  | ETask => "Task"
  | EUser => "User"
  end.

Definition entity_types : list string := ["Lead"; "Customer"; "Task"; "User"].

Section ActivityRoutes.

Variable RegExp_i : string -> option (string -> bool).

(* ---------------------------------------------------------------- *)
(** *** [routes/activity.ts]                                         *)
(* ---------------------------------------------------------------- *)

Record ActivityQuery : Type := {
  aq_page : option string;
  aq_limit : option string;
  aq_entityType : option string;
  aq_action : option string;
  aq_user : option string;
  aq_entityId : option string
}.

Definition activity_list_check (q : ActivityQuery) : list string :=
  Validator.check "page" (Validator.optional (Validator.isInt 1 None) (aq_page q))
  ++ Validator.check "limit"
       (Validator.optional (Validator.isInt 1 (Some 100%Z)) (aq_limit q))
  ++ Validator.check "entityType"
       (Validator.optional (Validator.isIn entity_types) (aq_entityType q))
  ++ Validator.check "user" (Validator.optional Validator.isMongoId (aq_user q))
  ++ Validator.check "entityId"
       (Validator.optional Validator.isMongoId (aq_entityId q)).

(** The query object handed to [Activity.find]; [af_action] is the
    regular expression on the action label. *)
Record ActivityFilter : Type := {
  af_user : option string;
  af_entityType : option string;
  af_action : option (string -> bool);
  af_entityId : option string
}.

Definition activity_matches (f : ActivityFilter) (a : Activity) : bool :=
  holds (af_user f) (String.eqb (a_user a))
  && holds (af_entityType f) (String.eqb (EntityType_label (a_entityType a)))
  && holds (af_action f) (fun re => re (a_action a))
  && holds (af_entityId f) (String.eqb (a_entityId a)).

(** [Activity.find] casts the identifiers of the filter. *)
Definition activity_filter_casts (f : ActivityFilter) : bool :=
  holds (af_user f) Schema.is_ObjectId
  && holds (af_entityId f) Schema.is_ObjectId.

(** The user clause of the activity reads: forced for an agent, chosen
    by the [user] parameter for an admin. *)
Definition activity_user_clause (user : User) (wanted : option string)
  : option string :=
  let forced := if is_agent user then Some (u_id user) else None in
  match wanted with
  | Some w => if Text.truthy w && is_admin user then Some w else forced
  | None => forced
  end.

(** [if (req.query.x)]: the parameter when it is a non-empty text. *)
Definition truthy_text (v : option string) : option string :=
  match v with
  | Some s => if Text.truthy s then Some s else None
  | None => None
  end.

(** [GET /activity].  It issues no write. *)
Definition activity_list (st : Store) (user : User) (q : ActivityQuery)
  : Response (Page Activity) :=
  if negb (requireAgentOrAdmin user) then forbidden else
  match activity_list_check q with
  | (_ :: _) as errors => Rejected errors
  | [] =>
      let pg := int_or (aq_page q) 1 in
      let lim := int_or (aq_limit q) 20 in
      let action :=
        match truthy_text (option_map Text.trim (aq_action q)) with
        | Some s => option_map Some (RegExp_i s)
        | None => Some None
        end in
      match action with
      | None => NextError SyntaxError
      | Some actionRegex =>
          let filter :=
            {| af_user := activity_user_clause user (aq_user q);
               af_entityType := truthy_text (aq_entityType q);
               af_action := actionRegex;
               af_entityId := truthy_text (aq_entityId q) |} in
          if negb (activity_filter_casts filter)
          then NextError (CastError "filter")
          else
            Success 200 None
              (paginate pg lim
                 (sort (newest_first a_createdAt)
                    (List.filter (activity_matches filter) (activities st))))
      end
  end.

(** [GET /activity/recent]: the ten newest entries.  It issues no
    write. *)
Definition activity_recent (st : Store) (user : User)
  : Response (list Activity) :=
  if negb (requireAgentOrAdmin user) then forbidden else
  let filter :=
    {| af_user := activity_user_clause user None; af_entityType := None;
       af_action := None; af_entityId := None |} in
  if negb (activity_filter_casts filter) then NextError (CastError "filter")
  else
    Success 200 None
      (firstn 10
         (sort (newest_first a_createdAt)
            (List.filter (activity_matches filter) (activities st)))).

Definition activity_entity_check (page_ limit_ : option string) : list string :=
  Validator.check "page" (Validator.optional (Validator.isInt 1 None) page_)
  ++ Validator.check "limit"
       (Validator.optional (Validator.isInt 1 (Some 100%Z)) limit_).

(** [GET /activity/entity/:entityType/:entityId].  It issues no
    write. *)
Definition activity_entity (st : Store) (user : User)
    (entityType entityId : string) (page_ limit_ : option string)
  : Response (Page Activity) :=
  if negb (requireAgentOrAdmin user) then forbidden else
  match activity_entity_check page_ limit_ with
  | (_ :: _) as errors => Rejected errors
  | [] =>
      let pg := int_or page_ 1 in
      let lim := int_or limit_ 20 in
      let filter :=
        {| af_user := activity_user_clause user None;
           af_entityType := Some entityType;
           af_action := None;
           af_entityId := Some entityId |} in
      if negb (activity_filter_casts filter) then NextError (CastError "filter")
      else
        Success 200 None
          (paginate pg lim
             (sort (newest_first a_createdAt)
                (List.filter (activity_matches filter) (activities st))))
  end.

End ActivityRoutes.

(* ---------------------------------------------------------------- *)
(** *** [middleware/auth.ts] and the registration of [routes/auth.ts] *)
(* ---------------------------------------------------------------- *)

(** The outcome of a middleware: it answers, or calls [next()] with
    [req.user] as it stands. *)
Inductive Gate : Type :=
| Denied (status : nat) (message : string)
| Passed (user : User).

(** [requireRole(roles)] as the middleware it is, on a request that may
    carry no [req.user]:
    [if (!req.user) 401; if (!roles.includes(req.user.role)) 403; next()]. *)
Definition requireRole_gate (roles : list Role) (req_user : option User) : Gate :=
  match req_user with
  | None => Denied 401 "Authentication required"
  | Some user =>
      if requireRole roles user then Passed user
      else Denied 403 "Insufficient permissions"
  end.

(** The [user] object of the registration response. *)
Record UserSummary : Type := {
  us_id : ObjectId;
  us_email : string;
  us_firstName : string;
  us_lastName : string;
  us_role : Role
}.

Definition summary_of (u : User) : UserSummary :=
  {| us_id := u_id u; us_email := u_email u; us_firstName := u_firstName u;
     us_lastName := u_lastName u; us_role := u_role u |}.

Record RegisterBody : Type := {
  rg_email : option string;
  rg_password : option string;
  rg_firstName : option string;
  rg_lastName : option string;
  rg_role : option string
}.

(** [new User(doc).save()]: the collection gains the document. *)
Definition insert_user {R : Type} (u : User) : Handler R unit :=
  fun st => (inr tt, with_users st (users st ++ [u])).

Section Registration.

Variable isEmail : string -> bool.
Variable normalizeEmail : string -> string.
(** Modelled from the spec: the setters of the User schema, which is not
    among the sources, as in the user routes. *)
Variable User_set_email : string -> string.
Variable User_set_password : string -> string.

Definition register_check (b : RegisterBody) : list string :=
  Validator.check "email" (isEmail (Validator.required_text (rg_email b)))
  ++ Validator.check "password"
       (6 <=? String.length (Validator.required_text (rg_password b)))%nat
  ++ Validator.check "firstName"
       (trimmed_length 1 50 (Validator.required_text (rg_firstName b)))
  ++ Validator.check "lastName"
       (trimmed_length 1 50 (Validator.required_text (rg_lastName b)))
  ++ Validator.check "role"
       (Validator.isIn roles (Validator.required_text (rg_role b))).

(** [POST /register] of the auth router, behind [requireAdmin];
    [req_user] is [req.user], [uid] and [aid] the identifiers of the
    User and of the Activity entry the handler creates.  Modelled from
    the spec: a new User is active. *)
Definition auth_register (req_user : option User) (body : RegisterBody)
    (now : Date) (uid aid : ObjectId)
  : Handler (Response UserSummary) (Response UserSummary) :=
  match requireRole_gate [admin] req_user with
  | Denied status message => respond (Failure status message)
  | Passed caller =>
      let errors := register_check body in
      when_ (negb (is_nil errors)) (Rejected errors) ;;
      let email := normalizeEmail (Validator.required_text (rg_email body)) in
      existingUser <-
        query (fun st => find (fun u => u_email u =? email) (users st)) ;;
      when_ (is_some existingUser)
        (Failure 400 "User with this email already exists") ;;
      match Role_of_label (Validator.required_text (rg_role body)) with
      | None => respond (NextError (ValidationError ["role"]))
      | Some role =>
          let user :=
            {| u_id := uid; u_email := User_set_email email;
               u_password :=
                 User_set_password (Validator.required_text (rg_password body));
               u_firstName := Text.trim (Validator.required_text (rg_firstName body));
               u_lastName := Text.trim (Validator.required_text (rg_lastName body));
               u_role := role; u_isActive := true; u_lastLogin := None |} in
          insert_user user ;;
          log_activity aid now caller "User Created" EUser (u_id user)
            [("email", [email]); ("role", [Role_label role])] ;;
          ret (Success 201 (Some "User created successfully") (summary_of user))
      end
  end.

(** [app.use('/api/auth', authRoutes)] in the server: unlike the other
    routers, the auth router is mounted without [authMiddleware], and no
    other middleware of the server sets [req.user]. *)
Definition api_auth_register (body : RegisterBody) (now : Date)
    (uid aid : ObjectId)
  : Handler (Response UserSummary) (Response UserSummary) :=
  auth_register None body now uid aid.

End Registration.

(* ================================================================== *)
(** ** Vocabulary of the properties                                     *)
(* ================================================================== *)

(** The records a list endpoint returns; none when it does not answer
    with a page. *)
Definition records {A : Type} (r : Response (Page A)) : list A :=
  match r with
  | Success _ _ p => data p
  | _ => []
  end.

(** A sequence of writes, issued in order. *)
Definition apply_writes (ws : list Write) (st : Store) : Store :=
  fold_left (fun s w => apply_write w s) ws st.

(** The caller may act on the record. *)
Definition lead_scope (user : User) (lead : Lead) : Prop :=
  lead_denied user lead = false.

Definition customer_scope (user : User) (customer : Customer) : Prop :=
  customer_denied user customer = false.

(** An owner filter that passes [optional().isMongoId()]. *)
Definition owner_filter_ok (o : option string) : Prop :=
  Validator.optional Validator.isMongoId o = true.

Definition lq_with_assignedAgent (q : LeadQuery) (o : option string)
  : LeadQuery :=
  {| lq_page := lq_page q; lq_limit := lq_limit q; lq_status := lq_status q;
     lq_search := lq_search q; lq_assignedAgent := o |}.

Definition cq_with_owner (q : CustomerQuery) (o : option string)
  : CustomerQuery :=
  {| cq_page := cq_page q; cq_limit := cq_limit q; cq_search := cq_search q;
     cq_tags := cq_tags q; cq_owner := o |}.

Definition tq_with_owners (q : TaskQuery) (owner assignedTo : option string)
  : TaskQuery :=
  {| tq_page := tq_page q; tq_limit := tq_limit q; tq_status := tq_status q;
     tq_priority := tq_priority q; tq_owner := owner;
     tq_assignedTo := assignedTo; tq_dueDate := tq_dueDate q;
     tq_overdue := tq_overdue q |}.

(** The writes of a successful conversion, in the order of the handler. *)
Definition convert_writes (user : User) (lead : Lead) (body : ConvertBody)
    (now : Date) (cid aid : ObjectId) : list Write :=
  let customer := converted_Customer cid now user lead body in
  let lead' := Lead_converted lead (c_id customer) now in
  [InsertCustomer customer;
   SaveLead lead';
   InsertActivity
     {| a_id := aid; a_user := u_id user;
        a_action := "Lead Converted to Customer";
        a_entityType := ELead; a_entityId := l_id lead';
        a_details :=
          [("customerId", [c_id customer]);
           ("company", [Text.trim (Validator.required_text (cv_company body))])];
        a_createdAt := now |}].

(** The tags and deals of a conversion request pass the Customer
    schema. *)
Definition extras_conform (now : Date) (body : ConvertBody) : bool :=
  forallb Schema.tag_ok (map Schema.set_text (or_else (cv_tags body) []))
  && forallb Schema.deal_ok (map (new_Deal now) (or_else (cv_deals body) [])).

(** The value [completedAt] holds after a task update. *)
Definition completedAt_after (task : Task) (body : TaskBody) (now : Date)
  : option Date :=
  match completedAt_update task body now with
  | Absent => t_completedAt task
  | Assigned v => Some v
  | Undefined => None
  end.

(** Ascending due dates. *)
Fixpoint due_ascending (l : list Task) : Prop :=
  match l with
  | [] => True
  | x :: l' => Forall (fun y => (t_dueDate x <= t_dueDate y)%Z) l' /\ due_ascending l'
  end.

(* ================================================================== *)
(** ** Sample data                                                      *)
(* ================================================================== *)

Module Sample.

Definition no_regexp : string -> option (string -> bool) := fun _ => None.
Definition any_email : string -> bool := fun _ => true.
Definition same_email : string -> string := fun s => s.
Definition no_date : string -> option Date := fun _ => None.
Definition any_date : string -> bool := fun _ => true.

Definition admin_id : ObjectId := "64b0000000000000000000ad".
Definition agent1_id : ObjectId := "64b0000000000000000000a1".
Definition agent2_id : ObjectId := "64b0000000000000000000a2".
Definition lead_id : ObjectId := "64b000000000000000000001".
Definition customer_id : ObjectId := "64b0000000000000000000c1".
Definition new_customer_id : ObjectId := "64b0000000000000000000c2".
Definition activity_id : ObjectId := "64b0000000000000000000f1".

Definition the_admin : User :=
  {| u_id := admin_id; u_email := "admin@crm.com"; u_password := "hash";
     u_firstName := "Admin"; u_lastName := "User"; u_role := admin;
     u_isActive := true; u_lastLogin := None |}.

Definition agent1 : User :=
  {| u_id := agent1_id; u_email := "agent1@crm.com"; u_password := "hash";
     u_firstName := "John"; u_lastName := "Smith"; u_role := agent;
     u_isActive := true; u_lastLogin := None |}.

Definition jane (status : LeadStatus) (archived : bool) : Lead :=
  {| l_id := lead_id; l_name := "Jane Doe"; l_email := "jane@x.com";
     l_phone := "555-0100"; l_status := status; l_source := "Website";
     l_assignedAgent := agent1_id; l_notes := None;
     l_isArchived := archived; l_convertedToCustomer := None;
     l_convertedAt := None; l_createdAt := 10%Z |}.

Definition note (n : Z) : Note :=
  {| n_content := "call"; n_createdBy := agent1_id; n_createdAt := n |}.

Definition acme (notes : list Note) : Customer :=
  {| c_id := customer_id; c_name := "Jane Roe"; c_company := "Acme";
     c_email := "jane@x.com"; c_phone := "555-0199"; c_notes := notes;
     c_tags := ["VIP"]; c_owner := agent1_id; c_deals := [];
     c_convertedFromLead := None; c_createdAt := 5%Z |}.

Definition task (id : ObjectId) (status : TaskStatus) (priority : Priority)
    (completedAt : option Date) : Task :=
  {| t_id := id; t_title := "Follow up"; t_description := None;
     t_dueDate := 1000%Z; t_status := status; t_priority := priority;
     t_relatedTo := RelLead lead_id; t_owner := agent1_id;
     t_assignedTo := Some agent1_id; t_completedAt := completedAt |}.

Definition store (ls : list Lead) (cs : list Customer) (ts : list Task)
  : Store :=
  {| users := [the_admin; agent1]; leads := ls; customers := cs;
     tasks := ts; activities := []; journal := [] |}.

Definition no_lead_query : LeadQuery :=
  {| lq_page := None; lq_limit := None; lq_status := None;
     lq_search := None; lq_assignedAgent := None |}.

Definition no_customer_query : CustomerQuery :=
  {| cq_page := None; cq_limit := None; cq_search := None;
     cq_tags := None; cq_owner := None |}.

Definition no_task_query : TaskQuery :=
  {| tq_page := None; tq_limit := None; tq_status := None;
     tq_priority := None; tq_owner := None; tq_assignedTo := None;
     tq_dueDate := None; tq_overdue := None |}.

Definition company (name : option string) (deals : option (list DealInput))
  : ConvertBody :=
  {| cv_company := name; cv_tags := None; cv_deals := deals |}.

Definition deal (value : Z) : DealInput :=
  {| di_title := "Renewal"; di_value := value; di_status := None;
     di_expectedCloseDate := Some 2000%Z |}.

Definition user_body (firstName : option string) (role : option string)
    (isActive : option Json) : UserBody :=
  {| ub_email := None; ub_password := None; ub_firstName := firstName;
     ub_lastName := None; ub_role := role; ub_isActive := isActive;
     ub_lastLogin := None |}.


(** Sample setters of the User schema and a sample reading of dates. *)
Definition lower_email : string -> string := Text.toLowerCase.
Definition hashed : string -> string := fun s => "hash of " ++ s.
Definition seven : string -> option Date := fun _ => Some 7%Z.

Definition lead_body (name : option string) (isArchived : option Json)
  : LeadBody :=
  {| lb_name := name; lb_email := None; lb_phone := None; lb_status := None;
     lb_source := None; lb_notes := None; lb_assignedAgent := None;
     lb_isArchived := isArchived; lb_convertedToCustomer := None;
     lb_convertedAt := None |}.


Definition task_body (title : option string) (status : option string)
  : TaskBody :=
  {| tb_title := title; tb_description := None; tb_dueDate := None;
     tb_status := status; tb_priority := None; tb_assignedTo := None |}.

End Sample.

(* ================================================================== *)
(** ** Vocabulary of the further properties                             *)
(* ================================================================== *)

(** The query with other [status] and [dueDate] parameters. *)
Definition tq_with_status_due (q : TaskQuery) (status dueDate : option string)
  : TaskQuery :=
  {| tq_page := tq_page q; tq_limit := tq_limit q; tq_status := status;
     tq_priority := tq_priority q; tq_owner := tq_owner q;
     tq_assignedTo := tq_assignedTo q; tq_dueDate := dueDate;
     tq_overdue := tq_overdue q |}.

(** The pagination of a response, when it carries a page. *)
Definition page_of {A : Type} (r : Response (Page A)) : option (Z * Z) :=
  match r with
  | Success _ _ p => Some (page p, limit p)
  | _ => None
  end.

(** A sample Activity entry. *)
Definition sample_activity (id actor : ObjectId) (createdAt : Date) : Activity :=
  {| a_id := id; a_user := actor; a_action := "Lead Created";
     a_entityType := ELead; a_entityId := "64b000000000000000000001";
     a_details := []; a_createdAt := createdAt |}.

(* ================================================================== *)
(** ** Reasoning about handlers, collections and lists                  *)
(* ================================================================== *)

Unset Implicit Arguments.

Ltac unfold_handler :=
  unfold run, bind, when_, query, respond, ret, save, log_activity, write.

Lemma requireAgentOrAdmin_any (user : User) : requireAgentOrAdmin user = true.
Proof.
  unfold requireAgentOrAdmin, requireRole.
  destruct (u_role user); reflexivity.
Qed.

Lemma agent_is_agent (user : User) :
  u_role user = agent -> is_agent user = true /\ is_admin user = false.
Proof.
  unfold is_agent, is_admin. intros ->. split; reflexivity.
Qed.

Lemma admin_is_admin (user : User) :
  u_role user = admin -> requireAdmin user = true.
Proof.
  unfold requireAdmin, requireRole. intros ->. reflexivity.
Qed.

Section CollectionFacts.
Variable A : Type.
Variable key : A -> ObjectId.

Lemma findById_key (coll : list A) (id : ObjectId) (x : A) :
  findById key coll id = Some x -> key x = id.
Proof.
  unfold findById. intros H.
  apply find_some in H. destruct H as [_ H].
  now apply String.eqb_eq.
Qed.

Lemma findById_In (coll : list A) (id : ObjectId) (x : A) :
  findById key coll id = Some x -> In x coll.
Proof.
  unfold findById. intros H. now apply find_some in H.
Qed.

(** A saved document is the one found under its identifier. *)
Lemma findById_replace (coll : list A) (old new : A) :
  findById key coll (key old) = Some old ->
  key new = key old ->
  findById key (replace key new coll) (key old) = Some new.
Proof.
  unfold findById, replace. intros Hfind Hkey. rewrite Hkey.
  induction coll as [|x coll IH]; simpl in *; [discriminate|].
  destruct (key x =? key old) eqn:E.
  - simpl. rewrite Hkey, String.eqb_refl. reflexivity.
  - simpl. rewrite E. now apply IH.
Qed.
End CollectionFacts.

Section SortFacts.
Variable A : Type.
Variable before : A -> A -> bool.

Lemma insert_In (x y : A) (l : list A) :
  In y (insert before x l) <-> y = x \/ In y l.
Proof.
  induction l as [|z l IH]; simpl.
  - intuition.
  - destruct (before x z); simpl; [intuition|].
    rewrite IH. intuition.
Qed.

Lemma sort_In (y : A) (l : list A) : In y (sort before l) <-> In y l.
Proof.
  unfold sort. induction l as [|x l IH]; simpl; [tauto|].
  rewrite insert_In, IH. intuition.
Qed.
End SortFacts.

Lemma In_firstn (A : Type) (n : nat) (l : list A) (x : A) :
  In x (firstn n l) -> In x l.
Proof.
  intros H. rewrite <- (firstn_skipn n l). apply in_or_app. now left.
Qed.

Lemma In_skipn (A : Type) (n : nat) (l : list A) (x : A) :
  In x (skipn n l) -> In x l.
Proof.
  intros H. rewrite <- (firstn_skipn n l). apply in_or_app. now right.
Qed.

Lemma paginate_In (A : Type) (pg lim : Z) (found : list A) (x : A) :
  In x (data (paginate pg lim found)) -> In x found.
Proof.
  unfold paginate; simpl. intros H.
  apply In_firstn in H. now apply In_skipn in H.
Qed.

Lemma paginate_length (A : Type) (pg lim : Z) (found : list A) :
  (List.length (data (paginate pg lim found)) <= Z.to_nat lim)%nat.
Proof.
  unfold paginate; simpl. apply firstn_le_length.
Qed.

(* ================================================================== *)
(** ** Facts on [trim]                                                  *)
(* ================================================================== *)

Module TextFacts.
Import Text.

Lemma ltrim_clean (s : string) : Text.clean_start (ltrim s) = true.
Proof.
  induction s as [|c s IH]; simpl; [reflexivity|].
  destruct (is_space c) eqn:E; [exact IH|]. simpl. now rewrite E.
Qed.

Lemma ltrim_fixed (s : string) : Text.clean_start s = true -> ltrim s = s.
Proof.
  destruct s as [|c s]; simpl; [reflexivity|].
  destruct (is_space c); [discriminate|reflexivity].
Qed.

Lemma reverse_involutive (s : string) : reverse (reverse s) = s.
Proof.
  unfold reverse.
  now rewrite list_ascii_of_string_of_list_ascii, rev_involutive,
    string_of_list_ascii_of_string.
Qed.

Lemma list_of_snoc (s : string) (c : ascii) :
  list_ascii_of_string (s ++ String c EmptyString)
  = (list_ascii_of_string s ++ [c])%list.
Proof.
  induction s as [|d s IH]; simpl; [reflexivity|]. now rewrite IH.
Qed.

Lemma reverse_snoc (s : string) (c : ascii) :
  reverse (s ++ String c EmptyString) = String c (reverse s).
Proof.
  unfold reverse. rewrite list_of_snoc, rev_app_distr. reflexivity.
Qed.

Lemma reverse_cons (s : string) (c : ascii) :
  reverse (String c s) = reverse s ++ String c EmptyString.
Proof.
  rewrite <- (reverse_involutive (reverse s ++ String c EmptyString)).
  now rewrite reverse_snoc, reverse_involutive.
Qed.

(** Trimming on the left keeps a last character that is not white
    space. *)
Lemma ltrim_snoc (s : string) (c : ascii) :
  is_space c = false ->
  exists v, ltrim (s ++ String c EmptyString) = v ++ String c EmptyString.
Proof.
  intros Hc. induction s as [|d s IH]; simpl.
  - rewrite Hc. now exists EmptyString.
  - destruct (is_space d); [exact IH|].
    now exists (String d s).
Qed.

Lemma rtrim_clean (s : string) :
  Text.clean_start s = true -> Text.clean_start (rtrim s) = true.
Proof.
  destruct s as [|c s]; [reflexivity|]. simpl. intros Hc.
  apply negb_true_iff in Hc.
  unfold rtrim. rewrite reverse_cons.
  destruct (ltrim_snoc (reverse s) c Hc) as [v ->].
  rewrite reverse_snoc. simpl. now rewrite Hc.
Qed.

Lemma rtrim_idempotent (s : string) : rtrim (rtrim s) = rtrim s.
Proof.
  unfold rtrim. rewrite reverse_involutive.
  now rewrite (ltrim_fixed (ltrim (reverse s)) (ltrim_clean _)).
Qed.

(** [trim] is idempotent: a sanitized text passes a [trim: true]
    setter unchanged. *)
Lemma trim_idempotent (s : string) : trim (trim s) = trim s.
Proof.
  unfold trim.
  rewrite (ltrim_fixed (rtrim (ltrim s)) (rtrim_clean _ (ltrim_clean s))).
  apply rtrim_idempotent.
Qed.

Lemma isLength_required (max : nat) (s : string) :
  Validator.isLength 1 max s = true ->
  Schema.required s = true /\ Schema.maxlength max s = true.
Proof.
  unfold Validator.isLength, Schema.required, Schema.maxlength, truthy.
  intros H. apply andb_prop in H. destruct H as [Hmin Hmax].
  split; [|exact Hmax].
  destruct s; [discriminate|reflexivity].
Qed.

End TextFacts.

(* ================================================================== *)
(** ** Role-scoped lists                                                *)
(* ================================================================== *)

Section ListFacts.
Variable RegExp_i : string -> option (string -> bool).
Variable isISO8601 : string -> bool.
Variable Date_parse : string -> option Date.

Lemma leads_list_filter_agent (user : User) (q : LeadQuery) :
  u_role user = agent ->
  lf_assignedAgent (leads_list_filter user q) = Some (u_id user).
Proof.
  intros Hrole. destruct (agent_is_agent user Hrole) as [Hag Had].
  unfold leads_list_filter. rewrite Hag, Had.
  destruct (lq_status q) as [s|]; [destruct (Text.truthy s)|];
    destruct (lq_assignedAgent q) as [a|];
    try rewrite andb_false_r; reflexivity.
Qed.

(** A Lead on a page of [GET /leads] satisfies the filter the handler
    built, whatever the search clause. *)
Lemma leads_list_matches (st : Store) (user : User) (q : LeadQuery) (l : Lead) :
  In l (records (leads_list RegExp_i st user q)) ->
  exists re, lead_matches
               {| lf_isArchived := Some false;
                  lf_assignedAgent := lf_assignedAgent (leads_list_filter user q);
                  lf_status := lf_status (leads_list_filter user q);
                  lf_or := re |} l = true.
Proof.
  unfold leads_list.
  destruct (negb (requireAgentOrAdmin user)); [intros []|].
  destruct (leads_list_check q); [|intros []].
  assert (Harch : lf_isArchived (leads_list_filter user q) = Some false).
  { unfold leads_list_filter.
    destruct (is_agent user); destruct (lq_status q) as [s|];
      try destruct (Text.truthy s); destruct (lq_assignedAgent q) as [a|];
      try destruct (Text.truthy a && is_admin user); reflexivity. }
  rewrite <- Harch.
  set (f := leads_list_filter user q).
  destruct (option_map Text.trim (lq_search q)) as [s|].
  - destruct (Text.truthy s).
    + destruct (RegExp_i s) as [re|]; simpl; [|intros []].
      destruct (negb _); simpl; [intros []|].
      intros H. apply paginate_In, sort_In, filter_In in H.
      exists (Some re). apply H.
    + destruct (negb _); simpl; [intros []|].
      intros H. apply paginate_In, sort_In, filter_In in H.
      exists (lf_or f). destruct f; apply H.
  - destruct (negb _); simpl; [intros []|].
    intros H. apply paginate_In, sort_In, filter_In in H.
    exists (lf_or f). destruct f; apply H.
Qed.

Lemma leads_list_scoped (st : Store) (user : User) (q : LeadQuery) :
  u_role user = agent ->
  Forall (fun l => l_assignedAgent l = u_id user)
    (records (leads_list RegExp_i st user q)).
Proof.
  intros Hrole. apply Forall_forall. intros l Hin.
  destruct (leads_list_matches _ _ _ _ Hin) as [re H].
  rewrite (leads_list_filter_agent user q Hrole) in H.
  unfold lead_matches in H; simpl in H.
  repeat (apply andb_prop in H; destruct H as [H ?]).
  now apply String.eqb_eq.
Qed.

(** For an agent the [assignedAgent] parameter reaches neither the
    filter nor, when it is well formed, the validation result. *)
Lemma leads_list_ignores_owner (st : Store) (user : User) (q : LeadQuery)
    (o : option string) :
  u_role user = agent -> owner_filter_ok o ->
  leads_list RegExp_i st user (lq_with_assignedAgent q o)
  = leads_list RegExp_i st user (lq_with_assignedAgent q None).
Proof.
  intros Hrole Hok. destruct (agent_is_agent user Hrole) as [Hag Had].
  unfold leads_list, leads_list_check, leads_list_filter; simpl.
  rewrite Hok, Hag, Had.
  destruct o as [a|]; [rewrite andb_false_r|]; reflexivity.
Qed.

Lemma customers_list_scoped (st : Store) (user : User) (q : CustomerQuery) :
  u_role user = agent ->
  Forall (fun c => c_owner c = u_id user)
    (records (customers_list RegExp_i st user q)).
Proof.
  intros Hrole. destruct (agent_is_agent user Hrole) as [Hag Had].
  apply Forall_forall. intros c.
  unfold customers_list.
  destruct (negb (requireAgentOrAdmin user)); [intros []|].
  destruct (customers_list_check q); [|intros []].
  assert (Hown : cf_owner (customers_list_filter user q) = Some (u_id user)).
  { unfold customers_list_filter; simpl. rewrite Hag, Had.
    destruct (cq_owner q); [rewrite andb_false_r|]; reflexivity. }
  set (f := customers_list_filter user q) in *.
  assert (Hgen : forall g, cf_owner g = Some (u_id user) ->
                 In c (List.filter (customer_matches g) (customers st)) ->
                 c_owner c = u_id user).
  { intros g Hg H. apply filter_In in H. destruct H as [_ H].
    unfold customer_matches in H. rewrite Hg in H; simpl in H.
    repeat (apply andb_prop in H; destruct H as [H ?]).
    now apply String.eqb_eq. }
  destruct (option_map Text.trim (cq_search q)) as [s|];
    [destruct (Text.truthy s); [destruct (RegExp_i s) as [re|]|]|];
    simpl; try (intros []);
    destruct (negb _); simpl; try (intros []);
    intros H; apply paginate_In, sort_In in H;
    refine (Hgen _ _ H); exact Hown.
Qed.

Lemma customers_list_ignores_owner (st : Store) (user : User)
    (q : CustomerQuery) (o : option string) :
  u_role user = agent -> owner_filter_ok o ->
  customers_list RegExp_i st user (cq_with_owner q o)
  = customers_list RegExp_i st user (cq_with_owner q None).
Proof.
  intros Hrole Hok. destruct (agent_is_agent user Hrole) as [Hag Had].
  unfold customers_list, customers_list_check, customers_list_filter; simpl.
  rewrite Hok, Hag, Had.
  destruct o as [a|]; [rewrite andb_false_r|]; reflexivity.
Qed.

Lemma tasks_list_filter_agent (user : User) (q : TaskQuery) (now : Date) :
  u_role user = agent ->
  tf_or (tasks_list_filter Date_parse user q now)
  = Some [OwnerIs (u_id user); AssignedToIs (u_id user)].
Proof.
  intros Hrole. destruct (agent_is_agent user Hrole) as [Hag _].
  unfold tasks_list_filter; simpl. now rewrite Hag.
Qed.

Lemma tasks_list_matches (st : Store) (user : User) (q : TaskQuery)
    (now : Date) (t : Task) :
  In t (records (tasks_list isISO8601 Date_parse st user q now)) ->
  task_matches (tasks_list_filter Date_parse user q now) t = true.
Proof.
  unfold tasks_list.
  destruct (negb (requireAgentOrAdmin user)); [intros []|].
  destruct (tasks_list_check isISO8601 q); [|intros []].
  destruct (negb _); simpl; [intros []|].
  intros H. apply paginate_In, sort_In, filter_In in H. apply H.
Qed.

Lemma tasks_list_scoped (st : Store) (user : User) (q : TaskQuery) (now : Date) :
  u_role user = agent ->
  Forall (fun t => t_owner t = u_id user \/ t_assignedTo t = Some (u_id user))
    (records (tasks_list isISO8601 Date_parse st user q now)).
Proof.
  intros Hrole. apply Forall_forall. intros t Hin.
  apply tasks_list_matches in Hin.
  unfold task_matches in Hin.
  rewrite (tasks_list_filter_agent user q now Hrole) in Hin.
  repeat (apply andb_prop in Hin; destruct Hin as [Hin ?]).
  simpl in Hin. rewrite orb_false_r in Hin.
  apply orb_prop in Hin. destruct Hin as [Hin|Hin].
  - left. now apply String.eqb_eq.
  - right. unfold assignee_is in Hin.
    destruct (t_assignedTo t) as [a|]; [|discriminate].
    apply String.eqb_eq in Hin. now subst.
Qed.

Lemma tasks_list_ignores_owner (st : Store) (user : User) (q : TaskQuery)
    (now : Date) (o a : option string) :
  u_role user = agent -> owner_filter_ok o -> owner_filter_ok a ->
  tasks_list isISO8601 Date_parse st user (tq_with_owners q o a) now
  = tasks_list isISO8601 Date_parse st user (tq_with_owners q None None) now.
Proof.
  intros Hrole Ho Ha. destruct (agent_is_agent user Hrole) as [Hag Had].
  unfold tasks_list, tasks_list_check, tasks_list_filter; simpl.
  rewrite Ho, Ha, Had.
  destruct o as [x|], a as [y|]; repeat rewrite andb_false_r; reflexivity.
Qed.

(** A request that fails a validation chain of a list endpoint is
    answered with the errors of the chains. *)
Lemma leads_list_rejects (st : Store) (user : User) (q : LeadQuery)
    (path : string) :
  In path (leads_list_check q) ->
  leads_list RegExp_i st user q = Rejected (leads_list_check q).
Proof.
  intros Hin. unfold leads_list. rewrite requireAgentOrAdmin_any. cbn [negb].
  destruct (leads_list_check q); [destruct Hin|reflexivity].
Qed.

Lemma customers_list_rejects (st : Store) (user : User) (q : CustomerQuery)
    (path : string) :
  In path (customers_list_check q) ->
  customers_list RegExp_i st user q = Rejected (customers_list_check q).
Proof.
  intros Hin. unfold customers_list. rewrite requireAgentOrAdmin_any.
  cbn [negb].
  destruct (customers_list_check q); [destruct Hin|reflexivity].
Qed.

Lemma tasks_list_rejects (st : Store) (user : User) (q : TaskQuery)
    (now : Date) (path : string) :
  In path (tasks_list_check isISO8601 q) ->
  tasks_list isISO8601 Date_parse st user q now
  = Rejected (tasks_list_check isISO8601 q).
Proof.
  intros Hin. unfold tasks_list. rewrite requireAgentOrAdmin_any. cbn [negb].
  destruct (tasks_list_check isISO8601 q); [destruct Hin|reflexivity].
Qed.

Lemma owner_filter_bad (o : option string) :
  ~ owner_filter_ok o -> Validator.optional Validator.isMongoId o = false.
Proof.
  unfold owner_filter_ok.
  destruct (Validator.optional Validator.isMongoId o); [now intros []|reflexivity].
Qed.

(** C1 (as amended): for a caller with role agent, every record on a
    page of [GET /leads], [GET /customers] and [GET /tasks] is one the
    agent owns or is assigned to (Leads by assignedAgent, Customers by
    owner, Tasks by owner or assignedTo), whatever the query; two
    requests that differ only in owner filters that pass the query
    validation (absent, or a well formed identifier) receive the same
    response; and a request with an owner filter that does not pass it
    is answered, on each of the three endpoints, with status 400, the
    validation errors, which name the parameter, and no record. *)
Theorem agent_lists_scoped_owner_filter_ignored
    (st : Store) (user : User) (now : Date) :
  u_role user = agent ->
  (forall q, Forall (fun l => l_assignedAgent l = u_id user)
               (records (leads_list RegExp_i st user q)))
  /\ (forall q, Forall (fun c => c_owner c = u_id user)
                  (records (customers_list RegExp_i st user q)))
  /\ (forall q, Forall (fun t => t_owner t = u_id user
                               \/ t_assignedTo t = Some (u_id user))
                  (records (tasks_list isISO8601 Date_parse st user q now)))
  /\ (forall q o o',
        owner_filter_ok o -> owner_filter_ok o' ->
        leads_list RegExp_i st user (lq_with_assignedAgent q o)
        = leads_list RegExp_i st user (lq_with_assignedAgent q o'))
  /\ (forall q o o',
        owner_filter_ok o -> owner_filter_ok o' ->
        customers_list RegExp_i st user (cq_with_owner q o)
        = customers_list RegExp_i st user (cq_with_owner q o'))
  /\ (forall q o o' a a',
        owner_filter_ok o -> owner_filter_ok o' ->
        owner_filter_ok a -> owner_filter_ok a' ->
        tasks_list isISO8601 Date_parse st user (tq_with_owners q o a) now
        = tasks_list isISO8601 Date_parse st user (tq_with_owners q o' a') now)
  /\ (forall q o,
        ~ owner_filter_ok o ->
        let r := leads_list RegExp_i st user (lq_with_assignedAgent q o) in
        r = Rejected (leads_list_check (lq_with_assignedAgent q o))
        /\ In "assignedAgent" (leads_list_check (lq_with_assignedAgent q o))
        /\ status_of r = Some 400%nat
        /\ records r = [])
  /\ (forall q o,
        ~ owner_filter_ok o ->
        let r := customers_list RegExp_i st user (cq_with_owner q o) in
        r = Rejected (customers_list_check (cq_with_owner q o))
        /\ In "owner" (customers_list_check (cq_with_owner q o))
        /\ status_of r = Some 400%nat
        /\ records r = [])
  /\ (forall q o a,
        ~ owner_filter_ok o \/ ~ owner_filter_ok a ->
        let r :=
          tasks_list isISO8601 Date_parse st user (tq_with_owners q o a) now in
        r = Rejected (tasks_list_check isISO8601 (tq_with_owners q o a))
        /\ (In "owner" (tasks_list_check isISO8601 (tq_with_owners q o a))
            \/ In "assignedTo"
                 (tasks_list_check isISO8601 (tq_with_owners q o a)))
        /\ status_of r = Some 400%nat
        /\ records r = []).
Proof.
  intros Hrole.
  split; [intros q; now apply leads_list_scoped|].
  split; [intros q; now apply customers_list_scoped|].
  split; [intros q; now apply tasks_list_scoped|].
  split.
  { intros q o o' Ho Ho'.
    rewrite (leads_list_ignores_owner st user q o Hrole Ho).
    now rewrite (leads_list_ignores_owner st user q o' Hrole Ho'). }
  split.
  { intros q o o' Ho Ho'.
    rewrite (customers_list_ignores_owner st user q o Hrole Ho).
    now rewrite (customers_list_ignores_owner st user q o' Hrole Ho'). }
  split.
  { intros q o o' a a' Ho Ho' Ha Ha'.
    rewrite (tasks_list_ignores_owner st user q now o a Hrole Ho Ha).
    now rewrite (tasks_list_ignores_owner st user q now o' a' Hrole Ho' Ha'). }
  split; [|split].
  - intros q o Hbad. apply owner_filter_bad in Hbad. cbv zeta.
    assert (Hin : In "assignedAgent"
                    (leads_list_check (lq_with_assignedAgent q o))).
    { unfold leads_list_check. cbn [lq_with_assignedAgent lq_assignedAgent].
      rewrite Hbad. do 3 (apply in_or_app; right). now left. }
    rewrite (leads_list_rejects st user _ _ Hin). now repeat split.
  - intros q o Hbad. apply owner_filter_bad in Hbad. cbv zeta.
    assert (Hin : In "owner" (customers_list_check (cq_with_owner q o))).
    { unfold customers_list_check. cbn [cq_with_owner cq_owner].
      rewrite Hbad. do 3 (apply in_or_app; right). now left. }
    rewrite (customers_list_rejects st user _ _ Hin). now repeat split.
  - intros q o a Hbad. cbv zeta.
    assert (Hin : In "owner" (tasks_list_check isISO8601 (tq_with_owners q o a))
                  \/ In "assignedTo"
                       (tasks_list_check isISO8601 (tq_with_owners q o a))).
    { unfold tasks_list_check. cbn [tq_with_owners tq_owner tq_assignedTo].
      destruct Hbad as [Hbad|Hbad]; apply owner_filter_bad in Hbad;
        rewrite Hbad; [left|right].
      - do 4 (apply in_or_app; right). apply in_or_app. left. now left.
      - do 5 (apply in_or_app; right). apply in_or_app. left. now left. }
    destruct Hin as [Hin|Hin];
      rewrite (tasks_list_rejects st user _ now _ Hin); repeat split;
      solve [now left | now right].
Qed.

End ListFacts.

(** C1 (as stated) fails: the agent who owns the sample Lead receives it
    from [GET /leads], and receives a 400 response without any record
    when the same request carries an [assignedAgent] parameter that is
    not a well formed identifier. *)
Lemma agent_malformed_owner_filter_rejected :
  let st := Sample.store [Sample.jane New false] [] [] in
  let q := Sample.no_lead_query in
  let q' := lq_with_assignedAgent q (Some "agent2") in
  u_role Sample.agent1 = agent
  /\ records (leads_list Sample.no_regexp st Sample.agent1 q)
     = [Sample.jane New false]
  /\ leads_list Sample.no_regexp st Sample.agent1 q' = Rejected ["assignedAgent"]
  /\ records (leads_list Sample.no_regexp st Sample.agent1 q') = []
  /\ records (leads_list Sample.no_regexp st Sample.agent1 q)
     <> records (leads_list Sample.no_regexp st Sample.agent1 q').
Proof.
  cbv zeta. repeat split; try reflexivity.
  vm_compute. discriminate.
Qed.

Lemma agent_lists_scoped_owner_filter_ignored_witness :
  let st := Sample.store [Sample.jane New false] [Sample.acme []]
              [Sample.task "64b0000000000000000000b1" Open High None] in
  u_role Sample.agent1 = agent
  /\ owner_filter_ok (Some Sample.agent2_id)
  /\ owner_filter_ok None
  /\ ~ owner_filter_ok (Some "agent2")
  /\ leads_list Sample.no_regexp st Sample.agent1
       (lq_with_assignedAgent Sample.no_lead_query (Some Sample.agent2_id))
     = leads_list Sample.no_regexp st Sample.agent1
         (lq_with_assignedAgent Sample.no_lead_query None)
  /\ Forall (fun l => l_assignedAgent l = Sample.agent1_id)
       (records (leads_list Sample.no_regexp st Sample.agent1
                   (lq_with_assignedAgent Sample.no_lead_query
                      (Some Sample.agent2_id))))
  /\ customers_list Sample.no_regexp st Sample.agent1
       (cq_with_owner Sample.no_customer_query (Some "agent2"))
     = Rejected ["owner"]
  /\ tasks_list Sample.any_date Sample.no_date st Sample.agent1
       (tq_with_owners Sample.no_task_query None (Some "agent2")) 0%Z
     = Rejected ["assignedTo"].
Proof.
  cbv zeta.
  assert (Hrole : u_role Sample.agent1 = agent) by reflexivity.
  assert (Ho : owner_filter_ok (Some Sample.agent2_id)) by (vm_compute; reflexivity).
  assert (Hn : owner_filter_ok None) by reflexivity.
  assert (Hbad : ~ owner_filter_ok (Some "agent2")) by (vm_compute; discriminate).
  destruct (agent_lists_scoped_owner_filter_ignored
              Sample.no_regexp Sample.any_date Sample.no_date
              (Sample.store [Sample.jane New false] [Sample.acme []]
                 [Sample.task "64b0000000000000000000b1" Open High None])
              Sample.agent1 0%Z Hrole)
    as (Hleads & _ & _ & Hsame & _ & _ & _ & Hcustomers & Htasks).
  split; [exact Hrole|].
  split; [exact Ho|].
  split; [exact Hn|].
  split; [exact Hbad|].
  split; [apply (Hsame _ _ _ Ho Hn)|].
  split; [apply Hleads|].
  split.
  - exact (proj1 (Hcustomers Sample.no_customer_query (Some "agent2") Hbad)).
  - exact (proj1 (Htasks Sample.no_task_query None (Some "agent2")
                    (or_intror Hbad))).
Defined.

(* ================================================================== *)
(** ** Lead conversion                                                  *)
(* ================================================================== *)

Lemma check_nil (path : string) (ok : bool) :
  Validator.check path ok = [] <-> ok = true.
Proof.
  unfold Validator.check. destruct ok; split; intros H;
    reflexivity || discriminate.
Qed.

Lemma is_nil_true (A : Type) (l : list A) : is_nil l = true <-> l = [].
Proof.
  destruct l; split; intros H; reflexivity || discriminate.
Qed.

Lemma apply_writes_journal (ws : list Write) (st : Store) :
  journal (apply_writes ws st) = (journal st ++ ws)%list.
Proof.
  unfold apply_writes. revert st.
  induction ws as [|w ws IH]; intros st; simpl.
  - now rewrite app_nil_r.
  - rewrite IH. destruct w; simpl; now rewrite <- app_assoc.
Qed.

(** The handler of [POST /leads/:id/convert], guard by guard. *)
Lemma leads_convert_unfold (user : User) (id : ObjectId) (body : ConvertBody)
    (now : Date) (cid aid : ObjectId) (st : Store) :
  run (leads_convert user id body now cid aid) st =
  if negb (requireAgentOrAdmin user) then (forbidden, st)
  else if negb (is_nil (leads_convert_check body))
  then (Rejected (leads_convert_check body), st)
  else match findById l_id (leads st) id with
       | None => (Failure 404 "Lead not found", st)
       | Some lead =>
           if lead_denied user lead then (Failure 403 "Access denied", st)
           else if lead_closed lead
           then (Failure 400 "Cannot convert closed lead", st)
           else
             let customer := converted_Customer cid now user lead body in
             if is_nil (Schema.Customer_errors customer)
             then (Success 200 (Some "Lead converted to customer successfully")
                     (customer, Lead_converted lead (c_id customer) now),
                   apply_writes (convert_writes user lead body now cid aid) st)
             else (NextError (ValidationError (Schema.Customer_errors customer)),
                   st)
       end.
Proof.
  unfold leads_convert. unfold_handler.
  destruct (negb (requireAgentOrAdmin user)); [reflexivity|].
  destruct (negb (is_nil (leads_convert_check body))); [reflexivity|].
  destruct (findById l_id (leads st) id) as [lead|]; [|reflexivity].
  destruct (lead_denied user lead); [reflexivity|].
  destruct (lead_closed lead); [reflexivity|].
  cbv zeta.
  destruct (is_nil (Schema.Customer_errors
                      (converted_Customer cid now user lead body)));
    reflexivity.
Qed.

(** A Lead that conforms to its schema, a valid company and conforming
    tags and deals make a Customer that passes the Customer schema. *)
Lemma converted_Customer_valid (user : User) (lead : Lead) (body : ConvertBody)
    (now : Date) (cid : ObjectId) :
  Schema.Lead_conforms lead = true ->
  leads_convert_check body = [] ->
  extras_conform now body = true ->
  Schema.Customer_errors (converted_Customer cid now user lead body) = [].
Proof.
  unfold Schema.Lead_conforms, leads_convert_check, extras_conform.
  intros Hlead Hcompany Hextras.
  repeat (apply andb_prop in Hlead; destruct Hlead as [Hlead ?]).
  apply String.eqb_eq in Hlead.
  repeat match goal with
         | H : (_ =? _) = true |- _ => apply String.eqb_eq in H
         end.
  apply check_nil in Hcompany. unfold trimmed_length in Hcompany.
  apply TextFacts.isLength_required in Hcompany. destruct Hcompany as [Hreq Hmax].
  apply andb_prop in Hextras. destruct Hextras as [Htags Hdeals].
  unfold Schema.Customer_errors, converted_Customer, new_Customer; simpl.
  unfold Schema.set_text at 2. rewrite TextFacts.trim_idempotent.
  unfold Schema.name_ok at 2. rewrite Hreq, Hmax.
  rewrite Hlead.
  repeat match goal with
         | H : Schema.set_text _ = _ |- _ => rewrite H
         | H : Schema.set_email _ = _ |- _ => rewrite H
         end.
  repeat match goal with
         | H : _ = true |- _ => rewrite H
         end.
  reflexivity.
Qed.

Lemma lead_closed_iff (lead : Lead) :
  lead_closed lead = true
  <-> l_status lead = ClosedWon \/ l_status lead = ClosedLost.
Proof.
  unfold lead_closed.
  destruct (l_status lead); simpl; split; intros H;
    try discriminate; try tauto;
    destruct H; discriminate.
Qed.

Lemma lead_open_not_closed (lead : Lead) :
  l_status lead = New \/ l_status lead = InProgress ->
  lead_closed lead = false.
Proof.
  unfold lead_closed. intros [-> | ->]; reflexivity.
Qed.

(** C2 (as amended): for a stored Lead that conforms to the Lead schema
    and a caller with scope access who supplies a valid company: when
    the status is New or In Progress and the tags and deals of the
    request pass the Customer schema, the conversion answers 200 and
    adds exactly one Customer, whose name, email and phone are those of
    the Lead and whose convertedFromLead is the Lead's id, and the
    stored Lead becomes Closed Won with convertedToCustomer the new
    Customer's id and convertedAt the time of the request; when the
    status is Closed Won or Closed Lost, the conversion answers 400,
    Cannot convert closed lead, and the store is unchanged. *)
Theorem convert_open_lead_creates_customer
    (user : User) (id : ObjectId) (body : ConvertBody) (now : Date)
    (cid aid : ObjectId) (st : Store) (lead : Lead) :
  findById l_id (leads st) id = Some lead ->
  lead_scope user lead ->
  leads_convert_check body = [] ->
  (l_status lead = New \/ l_status lead = InProgress ->
   Schema.Lead_conforms lead = true ->
   extras_conform now body = true ->
   exists customer lead' st',
     run (leads_convert user id body now cid aid) st
     = (Success 200 (Some "Lead converted to customer successfully")
          (customer, lead'), st')
     /\ customers st' = (customers st ++ [customer])%list
     /\ c_id customer = cid
     /\ c_name customer = l_name lead
     /\ c_email customer = l_email lead
     /\ c_phone customer = l_phone lead
     /\ c_convertedFromLead customer = Some (l_id lead)
     /\ findById l_id (leads st') id = Some lead'
     /\ l_id lead' = l_id lead
     /\ l_status lead' = ClosedWon
     /\ l_convertedToCustomer lead' = Some (c_id customer)
     /\ l_convertedAt lead' = Some now)
  /\ (l_status lead = ClosedWon \/ l_status lead = ClosedLost ->
      run (leads_convert user id body now cid aid) st
      = (Failure 400 "Cannot convert closed lead", st)).
Proof.
  intros Hfind Hscope Hcheck.
  pose proof (leads_convert_unfold user id body now cid aid st) as Hrun.
  rewrite requireAgentOrAdmin_any, Hcheck, Hfind, Hscope in Hrun.
  simpl negb in Hrun. cbv iota in Hrun.
  split.
  - intros Hopen Hconf Hextras.
    rewrite (lead_open_not_closed lead Hopen) in Hrun. cbv zeta in Hrun.
    rewrite (converted_Customer_valid user lead body now cid Hconf Hcheck Hextras)
      in Hrun.
    simpl is_nil in Hrun. cbv iota in Hrun.
    eexists _, _, _. split; [exact Hrun|].
    unfold Schema.Lead_conforms in Hconf.
    repeat (apply andb_prop in Hconf; destruct Hconf as [Hconf ?]).
    apply String.eqb_eq in Hconf.
    repeat match goal with
           | H : (_ =? _) = true |- _ => apply String.eqb_eq in H
           end.
    repeat split; try reflexivity; try assumption.
    simpl.
    pose proof (findById_key _ l_id (leads st) id lead Hfind) as Hid.
    rewrite <- Hid.
    apply (findById_replace _ l_id (leads st) lead); [now rewrite Hid|reflexivity].
  - intros Hclosed. apply lead_closed_iff in Hclosed.
    now rewrite Hclosed in Hrun.
Qed.

(** C2 (as stated) fails: a valid company does not suffice.  The agent
    who owns the sample Lead, whose status is New, supplies the company
    Acme and a deal of negative value; saving the Customer throws a
    validation error on [deals], no Customer is created and the Lead
    keeps its status. *)
Lemma convert_negative_deal_creates_nothing :
  let lead := Sample.jane New false in
  let st := Sample.store [lead] [] [] in
  let body := Sample.company (Some "Acme") (Some [Sample.deal (-1)]) in
  let result :=
    run (leads_convert Sample.agent1 Sample.lead_id body 99%Z
           Sample.new_customer_id Sample.activity_id) st in
  l_status lead = New
  /\ lead_scope Sample.agent1 lead
  /\ leads_convert_check body = []
  /\ result = (NextError (ValidationError ["deals"]), st)
  /\ customers (snd result) = []
  /\ findById l_id (leads (snd result)) Sample.lead_id = Some lead.
Proof.
  cbv zeta. repeat split; vm_compute; reflexivity.
Qed.

Lemma convert_open_lead_creates_customer_witness :
  let body := Sample.company (Some "Acme") (Some [Sample.deal 500]) in
  (exists customer lead' st',
      run (leads_convert Sample.agent1 Sample.lead_id body 99%Z
             Sample.new_customer_id Sample.activity_id)
        (Sample.store [Sample.jane InProgress false] [] [])
      = (Success 200 (Some "Lead converted to customer successfully")
           (customer, lead'), st')
      /\ customers st' = [customer]
      /\ c_name customer = "Jane Doe"
      /\ l_status lead' = ClosedWon)
  /\ run (leads_convert Sample.agent1 Sample.lead_id body 99%Z
            Sample.new_customer_id Sample.activity_id)
       (Sample.store [Sample.jane ClosedLost false] [] [])
     = (Failure 400 "Cannot convert closed lead",
        Sample.store [Sample.jane ClosedLost false] [] []).
Proof.
  cbv zeta. split.
  - destruct (convert_open_lead_creates_customer
                Sample.agent1 Sample.lead_id
                (Sample.company (Some "Acme") (Some [Sample.deal 500]))
                99%Z Sample.new_customer_id Sample.activity_id
                (Sample.store [Sample.jane InProgress false] [] [])
                (Sample.jane InProgress false)
                eq_refl eq_refl eq_refl) as [Hopen _].
    destruct (Hopen (or_intror eq_refl) eq_refl eq_refl)
      as (customer & lead' & st' & Hrun & Hcs & _ & Hname & _ & _ & _ & _ & _
          & Hstatus & _).
    exists customer, lead', st'. repeat split; assumption.
  - destruct (convert_open_lead_creates_customer
                Sample.agent1 Sample.lead_id
                (Sample.company (Some "Acme") (Some [Sample.deal 500]))
                99%Z Sample.new_customer_id Sample.activity_id
                (Sample.store [Sample.jane ClosedLost false] [] [])
                (Sample.jane ClosedLost false)
                eq_refl eq_refl eq_refl) as [_ Hclosed].
    apply Hclosed. right. reflexivity.
Defined.

(** C6: in the conversion the Customer is written before the Lead.  A
    run that answers with the success found the Lead, open and in the
    scope of the caller, with a valid company and a Customer that passes
    its schema; its store is the one before it with three writes
    applied, which the journal lists in their order: the insertion of
    the Customer of the response, then the save of the Lead of the
    response, then the Activity entry; and such a request is answered
    with the success.  Every other response leaves the whole store,
    hence the Lead with its status, convertedToCustomer and
    convertedAt, unchanged; a request whose company is missing or
    invalid, or whose Customer fails the validation of the schema on
    save, is answered with such a response. *)
Theorem convert_writes_customer_first_or_nothing
    (user : User) (id : ObjectId) (body : ConvertBody) (now : Date)
    (cid aid : ObjectId) (st : Store) (r : Response (Customer * Lead))
    (st' : Store) :
  run (leads_convert user id body now cid aid) st = (r, st') ->
  (is_success r = true ->
   exists lead activity,
     let customer := converted_Customer cid now user lead body in
     let lead' := Lead_converted lead cid now in
     findById l_id (leads st) id = Some lead
     /\ lead_denied user lead = false
     /\ lead_closed lead = false
     /\ leads_convert_check body = []
     /\ Schema.Customer_errors customer = []
     /\ r = Success 200 (Some "Lead converted to customer successfully")
              (customer, lead')
     /\ st' = apply_writes
                [InsertCustomer customer; SaveLead lead'; InsertActivity activity]
                st
     /\ journal st'
        = (journal st
           ++ [InsertCustomer customer; SaveLead lead'; InsertActivity activity])%list
     /\ customers st' = (customers st ++ [customer])%list
     /\ leads st' = replace l_id lead' (leads st)
     /\ activities st' = (activities st ++ [activity])%list)
  /\ (forall lead,
        findById l_id (leads st) id = Some lead ->
        lead_denied user lead = false ->
        lead_closed lead = false ->
        leads_convert_check body = [] ->
        Schema.Customer_errors (converted_Customer cid now user lead body) = [] ->
        is_success r = true)
  /\ (is_success r = false -> st' = st)
  /\ (leads_convert_check body <> [] ->
      r = Rejected (leads_convert_check body) /\ st' = st)
  /\ (forall lead,
        findById l_id (leads st) id = Some lead ->
        Schema.Customer_errors (converted_Customer cid now user lead body) <> [] ->
        is_success r = false /\ st' = st
        /\ findById l_id (leads st') id = Some lead).
Proof.
  rewrite leads_convert_unfold, requireAgentOrAdmin_any. simpl negb. cbv iota.
  intros Hrun.
  destruct (is_nil (leads_convert_check body)) eqn:Hcheck; simpl negb in Hrun;
    cbv iota in Hrun.
  2:{ injection Hrun as <- <-.
      assert (Hbad : leads_convert_check body <> [])
        by (intros H; rewrite H in Hcheck; discriminate).
      repeat split; auto; try discriminate; intros; congruence. }
  apply is_nil_true in Hcheck.
  destruct (findById l_id (leads st) id) as [lead|] eqn:Hfind.
  2:{ injection Hrun as <- <-.
      repeat split; auto; try discriminate; intros; congruence. }
  destruct (lead_denied user lead) eqn:Hdenied.
  { injection Hrun as <- <-.
    repeat split; auto; try discriminate; intros; congruence. }
  destruct (lead_closed lead) eqn:Hclosed.
  { injection Hrun as <- <-.
    repeat split; auto; try discriminate; intros; congruence. }
  cbv zeta in Hrun.
  destruct (is_nil (Schema.Customer_errors
                      (converted_Customer cid now user lead body))) eqn:Hsave.
  - injection Hrun as <- <-. apply is_nil_true in Hsave.
    split; [|split; [reflexivity|split; [discriminate|split; [congruence|]]]].
    + intros _. exists lead. eexists. cbv zeta.
      repeat match goal with |- _ /\ _ => split end;
        try reflexivity; try assumption.
      simpl. repeat rewrite <- app_assoc. reflexivity.
    + intros lead0 Hl. injection Hl as <-. congruence.
  - injection Hrun as <- <-.
    assert (Hbad : Schema.Customer_errors
                     (converted_Customer cid now user lead body) <> [])
      by (intros H; rewrite H in Hsave; discriminate).
    repeat split; auto; try discriminate; intros; congruence.
Qed.

Lemma convert_writes_customer_first_or_nothing_witness :
  let lead := Sample.jane New false in
  let st := Sample.store [lead] [] [] in
  (exists activity,
      run (leads_convert Sample.agent1 Sample.lead_id
             (Sample.company (Some "Acme") None) 99%Z
             Sample.new_customer_id Sample.activity_id) st
      = (Success 200 (Some "Lead converted to customer successfully")
           (converted_Customer Sample.new_customer_id 99%Z Sample.agent1 lead
              (Sample.company (Some "Acme") None),
            Lead_converted lead Sample.new_customer_id 99%Z),
         apply_writes
           [InsertCustomer
              (converted_Customer Sample.new_customer_id 99%Z Sample.agent1 lead
                 (Sample.company (Some "Acme") None));
            SaveLead (Lead_converted lead Sample.new_customer_id 99%Z);
            InsertActivity activity] st))
  /\ leads_convert_check (Sample.company None None) <> []
  /\ run (leads_convert Sample.agent1 Sample.lead_id (Sample.company None None)
            99%Z Sample.new_customer_id Sample.activity_id) st
     = (Rejected ["company"], st)
  /\ findById l_id (leads st) Sample.lead_id = Some lead.
Proof.
  cbv zeta.
  assert (Hbad : leads_convert_check (Sample.company None None) <> [])
    by (vm_compute; discriminate).
  split; [|split; [exact Hbad|split; [|reflexivity]]].
  - destruct (run (leads_convert Sample.agent1 Sample.lead_id
                     (Sample.company (Some "Acme") None) 99%Z
                     Sample.new_customer_id Sample.activity_id)
                (Sample.store [Sample.jane New false] [] []))
      as [r st'] eqn:Hrun.
    destruct (convert_writes_customer_first_or_nothing
                Sample.agent1 Sample.lead_id
                (Sample.company (Some "Acme") None) 99%Z
                Sample.new_customer_id Sample.activity_id
                (Sample.store [Sample.jane New false] [] [])
                r st' Hrun) as (Hsuccess & Hreached & _).
    destruct (Hsuccess (Hreached (Sample.jane New false)
                          eq_refl eq_refl eq_refl eq_refl eq_refl))
      as (lead & activity & Hfind & _ & _ & _ & _ & Hr & Hst & _).
    injection Hfind as <-. exists activity. now rewrite Hr, Hst.
  - destruct (convert_writes_customer_first_or_nothing
                Sample.agent1 Sample.lead_id (Sample.company None None) 99%Z
                Sample.new_customer_id Sample.activity_id
                (Sample.store [Sample.jane New false] [] [])
                _ _ eq_refl) as (_ & _ & _ & Hcompany & _).
    destruct (Hcompany Hbad) as [Hr Hst].
    vm_compute. reflexivity.
Defined.

(* ================================================================== *)
(** ** Uniqueness of the Customer e-mail                                *)
(* ================================================================== *)

Lemma find_present (A : Type) (f : A -> bool) (l : list A) (x : A) :
  In x l -> f x = true -> is_some (find f l) = true.
Proof.
  induction l as [|y l IH]; simpl; [tauto|].
  intros [->|Hin] Hx.
  - now rewrite Hx.
  - destruct (f y); [reflexivity|]. now apply IH.
Qed.

(** [POST /customers] refuses an e-mail that a stored Customer has. *)
Lemma customers_create_rejects_taken_email
    (isEmail : string -> bool) (normalizeEmail : string -> string)
    (user : User) (body : CustomerBody) (now : Date) (cid aid : ObjectId)
    (st : Store) (existing : Customer) :
  customers_create_check isEmail body = [] ->
  In existing (customers st) ->
  c_email existing = normalizeEmail (Validator.required_text (cb_email body)) ->
  run (customers_create isEmail normalizeEmail user body now cid aid) st
  = (Failure 400 "Customer with this email already exists", st).
Proof.
  intros Hcheck Hin Hemail.
  unfold customers_create. unfold_handler.
  rewrite requireAgentOrAdmin_any, Hcheck. simpl.
  rewrite (find_present _ _ _ existing Hin); [reflexivity|].
  apply String.eqb_eq. exact Hemail.
Qed.

(** C5, evaluated where it fails: the store holds a Customer with the
    e-mail jane@x.com and a Lead, status New, with the same e-mail; the
    conversion of the Lead does not look for a Customer with that
    e-mail, succeeds and leaves two Customers with it. *)
Theorem convert_duplicates_customer_email :
  let st := Sample.store [Sample.jane New false] [Sample.acme []] [] in
  let result :=
    run (leads_convert Sample.agent1 Sample.lead_id
           (Sample.company (Some "Initech") None) 99%Z
           Sample.new_customer_id Sample.activity_id) st in
  map c_email (customers st) = ["jane@x.com"]
  /\ is_success (fst result) = true
  /\ map c_id (customers (snd result))
     = [Sample.customer_id; Sample.new_customer_id]
  /\ map c_email (customers (snd result)) = ["jane@x.com"; "jane@x.com"].
Proof.
  cbv zeta. repeat split; vm_compute; reflexivity.
Qed.

(* ================================================================== *)
(** ** Archived Leads                                                   *)
(* ================================================================== *)

(** X1: the list endpoint never returns an archived Lead. *)
Lemma leads_list_excludes_archived
    (RegExp_i : string -> option (string -> bool))
    (st : Store) (user : User) (q : LeadQuery) :
  Forall (fun l => l_isArchived l = false)
    (records (leads_list RegExp_i st user q)).
Proof.
  apply Forall_forall. intros l Hin.
  destruct (leads_list_matches _ _ _ _ _ Hin) as [re H].
  unfold lead_matches in H; simpl in H.
  repeat (apply andb_prop in H; destruct H as [H ?]).
  now apply Bool.eqb_prop in H.
Qed.

(** [GET /leads/:id], asked by an admin, answers with the stored Lead
    whatever its isArchived flag. *)
Lemma leads_get_found (st : Store) (user : User) (id : ObjectId) (lead : Lead) :
  u_role user = admin ->
  findById l_id (leads st) id = Some lead ->
  leads_get st user id = Success 200 None (Lead_populate st lead).
Proof.
  intros Hrole Hfind. unfold leads_get, is_agent.
  now rewrite requireAgentOrAdmin_any, Hfind, Hrole.
Qed.

(** C3, evaluated where it fails: the sample Lead is archived through
    [DELETE /leads/:id] by the agent it is assigned to.  It is then
    absent from [GET /leads], for the agent and for the admin, but the
    routes that load a Lead by its identifier do not look at
    isArchived: [GET /leads/:id] asked by the admin answers 200 with the
    archived Lead, [PATCH /leads/:id] by the agent updates it and
    [POST /leads/:id/convert] by the agent turns it into a Customer.
    [GET /leads/:id] asked by the agent answers 403, not 404: the
    ownership test on the populated document turns every agent away,
    archived Lead or not. *)
Theorem archived_lead_served_by_id
    (RegExp_i : string -> option (string -> bool))
    (Date_parse : string -> option Date)
    (isEmail : string -> bool) (normalizeEmail : string -> string) :
  let st0 := Sample.store [Sample.jane New false] [] [] in
  let st :=
    snd (run (leads_archive Sample.agent1 Sample.lead_id 50%Z "64b0000000000000000000f0")
           st0) in
  let archived := Sample.jane New true in
  findById l_id (leads st) Sample.lead_id = Some archived
  /\ l_isArchived archived = true
  /\ records (leads_list RegExp_i st Sample.agent1 Sample.no_lead_query) = []
  /\ records (leads_list RegExp_i st Sample.the_admin Sample.no_lead_query) = []
  /\ leads_get st Sample.the_admin Sample.lead_id
     = Success 200 None (Lead_populate st archived)
  /\ leads_get st0 Sample.agent1 Sample.lead_id = Failure 403 "Access denied"
  /\ leads_get st Sample.agent1 Sample.lead_id = Failure 403 "Access denied"
  /\ is_success
       (fst (run (leads_patch Date_parse isEmail normalizeEmail Sample.agent1 Sample.lead_id
                    (Sample.lead_body (Some "Jane D") None) 99%Z
                    Sample.activity_id) st)) = true
  /\ option_map l_name
       (findById l_id
          (leads (snd (run (leads_patch Date_parse isEmail normalizeEmail Sample.agent1
                              Sample.lead_id
                              (Sample.lead_body (Some "Jane D") None) 99%Z
                              Sample.activity_id) st)))
          Sample.lead_id) = Some "Jane D"
  /\ is_success
       (fst (run (leads_convert Sample.agent1 Sample.lead_id
                    (Sample.company (Some "Acme") None) 99%Z
                    Sample.new_customer_id Sample.activity_id) st)) = true
  /\ map c_convertedFromLead
       (customers
          (snd (run (leads_convert Sample.agent1 Sample.lead_id
                       (Sample.company (Some "Acme") None) 99%Z
                       Sample.new_customer_id Sample.activity_id) st)))
     = [Some Sample.lead_id].
Proof.
  cbv zeta. repeat split; vm_compute; reflexivity.
Qed.

(* ================================================================== *)
(** ** Tasks: completion time and list order                            *)
(* ================================================================== *)

Section TaskFacts.
Variable isISO8601 : string -> bool.
Variable Date_parse : string -> option Date.

(** The handler of [PATCH /tasks/:id], guard by guard. *)
Lemma tasks_patch_unfold (user : User) (id : ObjectId) (body : TaskBody)
    (now : Date) (aid : ObjectId) (st : Store) :
  run (tasks_patch isISO8601 Date_parse user id body now aid) st =
  if negb (is_nil (tasks_patch_check isISO8601 body))
  then (Rejected (tasks_patch_check isISO8601 body), st)
  else
    let body := tasks_patch_sanitize body in
    match findById t_id (tasks st) id with
    | None => (Failure 404 "Task not found", st)
    | Some task =>
        if task_denied user task then (Failure 403 "Access denied", st)
        else
          let task' :=
            Task_assign Date_parse task body (completedAt_update task body now) in
          if is_nil (Task_save_errors Date_parse body task')
          then (Success 200 (Some "Task updated successfully") task',
                apply_writes
                  [SaveTask task';
                   InsertActivity
                     {| a_id := aid; a_user := u_id user;
                        a_action := "Task Updated"; a_entityType := ETask;
                        a_entityId := t_id task';
                        a_details := [("updatedFields", TaskBody_keys body)];
                        a_createdAt := now |}] st)
          else (NextError
                  (ValidationError (Task_save_errors Date_parse body task')),
                st)
    end.
Proof.
  unfold tasks_patch. unfold_handler.
  rewrite requireAgentOrAdmin_any. change (negb true) with false.
  cbv iota beta zeta.
  destruct (negb (is_nil (tasks_patch_check isISO8601 body))); [reflexivity|].
  destruct (findById t_id (tasks st) id) as [task|]; [|reflexivity].
  destruct (task_denied user task); [reflexivity|].
  destruct (is_nil _); reflexivity.
Qed.

(** What an accepted update leaves in [completedAt]. *)
Lemma tasks_patch_completedAt (user : User) (id : ObjectId) (body : TaskBody)
    (now : Date) (aid : ObjectId) (st : Store) (task task' : Task)
    (message : option string) (st' : Store) :
  findById t_id (tasks st) id = Some task ->
  run (tasks_patch isISO8601 Date_parse user id body now aid) st
  = (Success 200 message task', st') ->
  findById t_id (tasks st') id = Some task'
  /\ t_completedAt task' = completedAt_after task body now.
Proof.
  intros Hfind. rewrite tasks_patch_unfold, Hfind. cbv zeta.
  destruct (negb _); [discriminate|].
  destruct (task_denied user task); [discriminate|].
  destruct (is_nil _); [|discriminate].
  intros H. injection H as _ <- <-. split.
  - simpl. pose proof (findById_key _ t_id (tasks st) id task Hfind) as Hid.
    rewrite <- Hid.
    apply (findById_replace _ t_id (tasks st) task); [now rewrite Hid|reflexivity].
  - reflexivity.
Qed.

(** The first two parts of C7 hold: a request that sets the status
    to Done on a Task that is not Done stamps [completedAt], and a
    request that sets another status clears it. *)
Lemma completedAt_after_status (task : Task) (body : TaskBody) (now : Date) :
  (tb_status body = Some "Done" -> t_status task <> Done ->
   completedAt_after task body now = Some now)
  /\ (forall s, tb_status body = Some s -> s <> "Done" ->
      completedAt_after task body now = None).
Proof.
  unfold completedAt_after, completedAt_update, body_status_is_Done. split.
  - intros -> Hnot. simpl.
    destruct (t_status task); try reflexivity. now elim Hnot.
  - intros s -> Hs. apply String.eqb_neq in Hs. now rewrite Hs.
Qed.

(** The third does not: without a status in the request the second
    branch of the handler still runs. *)
Lemma completedAt_after_no_status (task : Task) (body : TaskBody) (now : Date) :
  tb_status body = None -> completedAt_after task body now = None.
Proof.
  unfold completedAt_after, completedAt_update, body_status_is_Done.
  now intros ->.
Qed.

(** C7, evaluated where it fails: a Task is Done and completed at 500;
    a request that only renames it, with no status field, is accepted
    and leaves the Task Done with no [completedAt]. *)
Theorem patch_without_status_clears_completedAt :
  let id := "64b0000000000000000000b1" in
  let done := Sample.task id Done Medium (Some 500%Z) in
  let st := Sample.store [] [] [done] in
  let body := Sample.task_body (Some "Call back") None in
  let result :=
    run (tasks_patch isISO8601 Date_parse Sample.agent1 id body 900%Z
           Sample.activity_id) st in
  tb_status body = None
  /\ t_status done = Done
  /\ t_completedAt done = Some 500%Z
  /\ is_success (fst result) = true
  /\ option_map t_title (findById t_id (tasks (snd result)) id)
     = Some "Call back"
  /\ option_map t_status (findById t_id (tasks (snd result)) id) = Some Done
  /\ option_map t_completedAt (findById t_id (tasks (snd result)) id)
     = Some None.
Proof.
  cbv zeta. repeat split; vm_compute; reflexivity.
Qed.

Lemma task_before_due (x y : Task) :
  (task_before x y = true -> (t_dueDate x <= t_dueDate y)%Z)
  /\ (task_before x y = false -> (t_dueDate y <= t_dueDate x)%Z).
Proof.
  unfold task_before. split; intros H.
  - apply orb_prop in H. destruct H as [H|H].
    + apply Z.ltb_lt in H. lia.
    + apply andb_prop in H. destruct H as [H _]. apply Z.eqb_eq in H. lia.
  - apply orb_false_elim in H. destruct H as [H _].
    apply Z.ltb_ge in H. exact H.
Qed.

Lemma due_ascending_insert (x : Task) (l : list Task) :
  due_ascending l -> due_ascending (insert task_before x l).
Proof.
  induction l as [|y l IH]; simpl.
  - intros _. split; [constructor|exact I].
  - intros [Hy Hl].
    destruct (task_before x y) eqn:E.
    + apply task_before_due in E. simpl. split; [|now split].
      constructor; [exact E|].
      apply Forall_forall. intros z Hz.
      rewrite Forall_forall in Hy. specialize (Hy z Hz). lia.
    + apply task_before_due in E. simpl. split; [|now apply IH].
      apply Forall_forall. intros z Hz.
      apply insert_In in Hz. destruct Hz as [->|Hz]; [exact E|].
      rewrite Forall_forall in Hy. now apply Hy.
Qed.

Lemma due_ascending_sort (l : list Task) :
  due_ascending (sort task_before l).
Proof.
  unfold sort. induction l as [|x l IH]; simpl; [exact I|].
  now apply due_ascending_insert.
Qed.

Lemma due_ascending_skipn (n : nat) (l : list Task) :
  due_ascending l -> due_ascending (skipn n l).
Proof.
  revert l. induction n as [|n IH]; intros l H; [exact H|].
  destruct l as [|x l]; [exact I|]. simpl. apply IH. apply H.
Qed.

Lemma due_ascending_firstn (n : nat) (l : list Task) :
  due_ascending l -> due_ascending (firstn n l).
Proof.
  revert l. induction n as [|n IH]; intros l H; [exact I|].
  destruct l as [|x l]; [exact I|]. simpl. destruct H as [Hx Hl].
  split; [|now apply IH].
  apply Forall_forall. intros z Hz. apply In_firstn in Hz.
  rewrite Forall_forall in Hx. now apply Hx.
Qed.

(** The part of C10 that holds: a page of [GET /tasks] is in
    ascending order of due date, holds at most [limit] Tasks, and
    with [status] and [priority] in the query, and no [overdue], holds
    only Tasks of exactly that status and that priority. *)
Lemma tasks_list_page (st : Store) (user : User) (q : TaskQuery) (now : Date) :
  let found := records (tasks_list isISO8601 Date_parse st user q now) in
  due_ascending found
  /\ (List.length found <= Z.to_nat (int_or (tq_limit q) 20))%nat
  /\ (forall s p,
        tq_status q = Some s -> tq_priority q = Some p -> tq_overdue q = None ->
        Forall (fun t => TaskStatus_label (t_status t) = s
                         /\ Priority_label (t_priority t) = p) found).
Proof.
  cbv zeta. split; [|split].
  - unfold tasks_list.
    destruct (negb (requireAgentOrAdmin user)); [exact I|].
    destruct (tasks_list_check isISO8601 q); [|exact I].
    destruct (negb _); simpl; [exact I|].
    apply due_ascending_firstn, due_ascending_skipn, due_ascending_sort.
  - unfold tasks_list.
    destruct (negb (requireAgentOrAdmin user)); [apply Nat.le_0_l|].
    destruct (tasks_list_check isISO8601 q); [|apply Nat.le_0_l].
    destruct (negb _); [apply Nat.le_0_l|].
    apply paginate_length.
  - intros s p Hs Hp Ho. apply Forall_forall. intros t Hin.
    assert (Hts : Text.truthy s = true /\ Text.truthy p = true).
    { unfold tasks_list in Hin.
      destruct (negb (requireAgentOrAdmin user)); [destruct Hin|].
      destruct (tasks_list_check isISO8601 q) eqn:Hc; [|destruct Hin].
      unfold tasks_list_check in Hc. rewrite Hs, Hp in Hc. simpl in Hc.
      repeat (apply app_eq_nil in Hc; destruct Hc as [? Hc]).
      repeat match goal with
             | H : Validator.check _ _ = [] |- _ => apply check_nil in H
             end.
      split.
      - destruct s; [discriminate|reflexivity].
      - destruct p; [discriminate|reflexivity]. }
    destruct Hts as [Hts Htp].
    apply tasks_list_matches in Hin.
    unfold task_matches, tasks_list_filter in Hin.
    rewrite Hs, Hp, Ho, Hts, Htp in Hin. cbn [tf_status tf_priority holds] in Hin.
    repeat (apply andb_prop in Hin; destruct Hin as [Hin ?]).
    split; now apply String.eqb_eq.
Qed.

(** C10, evaluated where it fails: three Tasks are due at the same
    time, with priorities High, Low and Medium.  [GET /tasks] sorts
    the priority as the string it is stored as, in descending order:
    Medium comes first, then Low, then High. *)
Theorem tasks_with_equal_due_date_sorted_by_priority_name :
  let st :=
    Sample.store [] []
      [Sample.task "64b0000000000000000000b1" Open High None;
       Sample.task "64b0000000000000000000b2" Open Low None;
       Sample.task "64b0000000000000000000b3" Open Medium None] in
  let found :=
    records (tasks_list isISO8601 Date_parse st Sample.the_admin
               Sample.no_task_query 0%Z) in
  map t_dueDate found = [1000%Z; 1000%Z; 1000%Z]
  /\ map t_priority found = [Medium; Low; High].
Proof.
  cbv zeta. split; vm_compute; reflexivity.
Qed.

End TaskFacts.

(* ================================================================== *)
(** ** Customer notes                                                   *)
(* ================================================================== *)

Lemma slice_last_all (A : Type) (n : nat) (l : list A) :
  (List.length l <= n)%nat -> slice_last n l = l.
Proof.
  unfold slice_last. intros H.
  replace (List.length l - n)%nat with 0%nat by lia. reflexivity.
Qed.

Lemma slice_last_length (A : Type) (n : nat) (l : list A) :
  List.length (slice_last n l) = Nat.min n (List.length l).
Proof.
  unfold slice_last. rewrite length_skipn. lia.
Qed.

Lemma slice_last_suffix (A : Type) (n : nat) (l : list A) :
  (firstn (List.length l - n) l ++ slice_last n l)%list = l.
Proof.
  unfold slice_last. apply firstn_skipn.
Qed.

(** The push and the conditional truncation together keep the last five
    notes. *)
Lemma push_note_last_five (notes : list Note) (note : Note) :
  push_note notes note = slice_last 5 (notes ++ [note]).
Proof.
  unfold push_note.
  destruct (5 <? List.length (notes ++ [note]))%nat eqn:E; [reflexivity|].
  apply Nat.ltb_ge in E. now rewrite slice_last_all.
Qed.

(** The handler of [POST /customers/:id/notes], guard by guard. *)
Lemma customers_add_note_unfold (user : User) (id : ObjectId)
    (content : option string) (now : Date) (aid : ObjectId) (st : Store) :
  run (customers_add_note user id content now aid) st =
  let text := Text.trim (Validator.required_text content) in
  if negb (Validator.isLength 1 1000 text)
  then (Rejected ["content"], st)
  else match findById c_id (customers st) id with
       | None => (Failure 404 "Customer not found", st)
       | Some customer =>
           if customer_denied user customer
           then (Failure 403 "Access denied", st)
           else
             let note :=
               {| n_content := text; n_createdBy := u_id user;
                  n_createdAt := now |} in
             let customer' :=
               Customer_with_notes customer (push_note (c_notes customer) note) in
             (Success 200 (Some "Note added successfully") (c_notes customer'),
              apply_writes
                [SaveCustomer customer';
                 InsertActivity
                   {| a_id := aid; a_user := u_id user;
                      a_action := "Note Added to Customer";
                      a_entityType := ECustomer; a_entityId := c_id customer';
                      a_details := [("noteContent", [substring 0 100 text])];
                      a_createdAt := now |}] st)
       end.
Proof.
  unfold customers_add_note. unfold_handler.
  rewrite requireAgentOrAdmin_any. unfold trimmed_length. cbv zeta.
  destruct (Validator.isLength 1 1000
              (Text.trim (Validator.required_text content))) eqn:Hlen;
    cbn [Validator.check is_nil negb]; [|reflexivity].
  destruct (findById c_id (customers st) id) as [customer|]; [|reflexivity].
  destruct (customer_denied user customer); [reflexivity|].
  unfold Schema.set_text. rewrite TextFacts.trim_idempotent.
  destruct (TextFacts.isLength_required _ _ Hlen) as [Hreq Hmax].
  unfold Schema.note_ok. cbn [n_content]. rewrite Hreq, Hmax.
  reflexivity.
Qed.

(** C8 (as amended): for a stored Customer and a caller with scope
    access, a note whose content, once trimmed, has 1 to 1000 characters
    is appended as (trimmed content, caller, now) at the end of the
    notes, of which the last five are kept, oldest dropped first: at
    most five notes remain, they are a suffix of the appended list, and
    on a Customer with five notes they are the last four of these
    followed by the new one. *)
Theorem add_note_keeps_last_five
    (user : User) (id : ObjectId) (content : string) (now : Date)
    (aid : ObjectId) (st : Store) (customer : Customer) :
  findById c_id (customers st) id = Some customer ->
  customer_scope user customer ->
  trimmed_length 1 1000 content = true ->
  let note :=
    {| n_content := Text.trim content; n_createdBy := u_id user;
       n_createdAt := now |} in
  let notes := slice_last 5 (c_notes customer ++ [note]) in
  exists st',
    run (customers_add_note user id (Some content) now aid) st
    = (Success 200 (Some "Note added successfully") notes, st')
    /\ findById c_id (customers st') id = Some (Customer_with_notes customer notes)
    /\ (List.length notes <= 5)%nat
    /\ (exists dropped, (c_notes customer ++ [note] = dropped ++ notes)%list)
    /\ ((List.length (c_notes customer) < 5)%nat ->
        notes = (c_notes customer ++ [note])%list)
    /\ (List.length (c_notes customer) = 5%nat ->
        notes = (tl (c_notes customer) ++ [note])%list
        /\ List.length notes = 5%nat).
Proof.
  intros Hfind Hscope Hlen. cbv zeta.
  rewrite customers_add_note_unfold. cbv zeta. simpl Validator.required_text.
  unfold trimmed_length in Hlen. rewrite Hlen, Hfind, Hscope.
  simpl negb. cbv iota. rewrite push_note_last_five.
  eexists. split; [reflexivity|].
  split; [|split; [|split; [|split]]].
  - simpl. pose proof (findById_key _ c_id (customers st) id customer Hfind) as Hid.
    rewrite <- Hid.
    apply (findById_replace _ c_id (customers st) customer);
      [now rewrite Hid|reflexivity].
  - rewrite slice_last_length. apply Nat.le_min_l.
  - eexists. symmetry. apply slice_last_suffix.
  - intros Hshort. apply slice_last_all. rewrite length_app. simpl. lia.
  - intros Hfive. split.
    + unfold slice_last. rewrite length_app, Hfive. simpl.
      destruct (c_notes customer); [discriminate|reflexivity].
    + rewrite slice_last_length, length_app, Hfive. reflexivity.
Qed.

(** C8 (as stated) fails: the content of a single space has length 1,
    within 1 to 1000, and is rejected with status 400; no note is
    added. *)
Lemma add_note_blank_content_rejected :
  let st := Sample.store [] [Sample.acme []] [] in
  let result :=
    run (customers_add_note Sample.agent1 Sample.customer_id (Some " ") 99%Z
           Sample.activity_id) st in
  customer_scope Sample.agent1 (Sample.acme [])
  /\ Validator.isLength 1 1000 " " = true
  /\ result = (Rejected ["content"], st)
  /\ option_map c_notes (findById c_id (customers (snd result)) Sample.customer_id)
     = Some [].
Proof.
  cbv zeta. repeat split; vm_compute; reflexivity.
Qed.

Lemma add_note_keeps_last_five_witness :
  let five := [Sample.note 1; Sample.note 2; Sample.note 3; Sample.note 4;
               Sample.note 5] in
  let sixth :=
    {| n_content := "met the buyer"; n_createdBy := Sample.agent1_id;
       n_createdAt := 99%Z |} in
  trimmed_length 1 1000 "  met the buyer " = true
  /\ exists st',
      run (customers_add_note Sample.agent1 Sample.customer_id
             (Some "  met the buyer ") 99%Z Sample.activity_id)
        (Sample.store [] [Sample.acme five] [])
      = (Success 200 (Some "Note added successfully")
           [Sample.note 2; Sample.note 3; Sample.note 4; Sample.note 5; sixth],
         st').
Proof.
  cbv zeta. split; [vm_compute; reflexivity|].
  destruct (add_note_keeps_last_five
              Sample.agent1 Sample.customer_id "  met the buyer " 99%Z
              Sample.activity_id
              (Sample.store [] [Sample.acme [Sample.note 1; Sample.note 2;
                                              Sample.note 3; Sample.note 4;
                                              Sample.note 5]] [])
              (Sample.acme [Sample.note 1; Sample.note 2; Sample.note 3;
                            Sample.note 4; Sample.note 5])
              eq_refl eq_refl eq_refl) as (st' & Hrun & _).
  exists st'. exact Hrun.
Defined.

(* ================================================================== *)
(** ** Users: self-protection and profile update                        *)
(* ================================================================== *)




(** X3: the guard of [DELETE /users/:id] compares the text of the path:
    the admin's own identifier written in upper case is another text
    and the same ObjectId, and the admin deletes their own account. *)
Lemma own_account_deleted_by_upper_case_id :
  let st := Sample.store [] [] [] in
  let '(r, st') :=
    run (users_delete Sample.the_admin "64B0000000000000000000AD" 99%Z
           Sample.activity_id) st in
  Schema.cast_ObjectId "64B0000000000000000000AD" = Some Sample.admin_id
  /\ r = Success 200 (Some "User deleted successfully") tt
  /\ users st' = [Sample.agent1]
  /\ findById u_id (users st') Sample.admin_id = None.
Proof.
  vm_compute. repeat split.
Qed.

(** X4: the guard of [PATCH /users/:id] asks for the boolean false: the
    text false passes [isBoolean()], is not the boolean, and is cast to
    false on save, so the admin deactivates their own account.  The
    path in upper case does the same with the boolean. *)
Lemma own_account_deactivated_by_text_false :
  let st := Sample.store [] [] [] in
  option_map u_isActive
    (findById u_id
       (users (snd (run (users_patch Sample.seven Sample.lower_email
                           Sample.hashed Sample.the_admin Sample.admin_id
                           (Sample.user_body None None (Some (JText "false")))
                           99%Z Sample.activity_id) st)))
       Sample.admin_id) = Some false
  /\ option_map u_isActive
       (findById u_id
          (users (snd (run (users_patch Sample.seven Sample.lower_email
                              Sample.hashed Sample.the_admin
                              "64B0000000000000000000AD"
                              (Sample.user_body None None (Some (JBool false)))
                              99%Z Sample.activity_id) st)))
          Sample.admin_id) = Some false.
Proof.
  vm_compute. split; reflexivity.
Qed.

(** Every check of a list of validation errors that is empty passed. *)
Lemma check_app_nil (path : string) (ok : bool) (rest : list string) :
  (Validator.check path ok ++ rest)%list = [] -> ok = true /\ rest = [].
Proof.
  destruct ok; cbn; [now split|discriminate].
Qed.

Section Updates.
Variable Date_parse : string -> option Date.
Variable isEmail : string -> bool.
Variable normalizeEmail : string -> string.
Variable User_set_email : string -> string.
Variable User_set_password : string -> string.

(** The handler of [PATCH /users/profile/me], guard by guard. *)
Lemma users_profile_update_unfold (user : User) (body : UserBody) (now : Date)
    (aid : ObjectId) (st : Store) :
  run (users_profile_update Date_parse User_set_email User_set_password
         user body now aid) st =
  if negb (is_nil (users_profile_check body))
  then (Rejected (users_profile_check body), st)
  else
    let body := users_sanitize body in
    match findById u_id (users st) (u_id user) with
    | None => (Failure 404 "User not found", st)
    | Some target =>
        let target' :=
          User_assign Date_parse User_set_email User_set_password target body in
        if negb (is_nil (User_save_errors Date_parse body))
        then (NextError (ValidationError (User_save_errors Date_parse body)), st)
        else if User_email_taken st body target'
        then (NextError (DuplicateKey "email"), st)
        else (Success 200 (Some "Profile updated successfully") target',
              apply_writes
                [SaveUser target';
                 InsertActivity
                   {| a_id := aid; a_user := u_id user;
                      a_action := "Profile Updated"; a_entityType := EUser;
                      a_entityId := u_id target';
                      a_details := [("updatedFields", UserBody_keys body)];
                      a_createdAt := now |}] st)
    end.
Proof.
  unfold users_profile_update, User_save. unfold_handler.
  destruct (negb (is_nil (users_profile_check body))); [reflexivity|].
  cbv zeta.
  destruct (findById u_id (users st) (u_id user)) as [target|]; [|reflexivity].
  destruct (negb (is_nil _)); [reflexivity|].
  destruct (User_email_taken _ _ _); reflexivity.
Qed.

(** The handler of [PATCH /leads/:id], guard by guard. *)
Lemma leads_patch_unfold (user : User) (id : ObjectId) (body : LeadBody)
    (now : Date) (aid : ObjectId) (st : Store) :
  run (leads_patch Date_parse isEmail normalizeEmail user id body now aid) st =
  if negb (is_nil (leads_patch_check isEmail body))
  then (Rejected (leads_patch_check isEmail body), st)
  else
    let body := leads_patch_sanitize normalizeEmail body in
    match findById l_id (leads st) id with
    | None => (Failure 404 "Lead not found", st)
    | Some lead =>
        if lead_denied user lead then (Failure 403 "Access denied", st)
        else if is_some (lead_email_taken st lead body)
        then (Failure 400 "Lead with this email already exists", st)
        else
          let lead' := Lead_assign Date_parse lead body in
          if is_nil (Lead_save_errors Date_parse body lead')
          then (Success 200 (Some "Lead updated successfully") lead',
                apply_writes
                  [SaveLead lead';
                   InsertActivity
                     {| a_id := aid; a_user := u_id user;
                        a_action := "Lead Updated"; a_entityType := ELead;
                        a_entityId := l_id lead';
                        a_details := [("updatedFields", LeadBody_keys body)];
                        a_createdAt := now |}] st)
          else (NextError
                  (ValidationError (Lead_save_errors Date_parse body lead')), st)
    end.
Proof.
  unfold leads_patch. unfold_handler.
  rewrite requireAgentOrAdmin_any. cbn [negb].
  destruct (negb (is_nil (leads_patch_check isEmail body))); [reflexivity|].
  cbv zeta.
  destruct (findById l_id (leads st) id) as [lead|]; [|reflexivity].
  destruct (lead_denied user lead); [reflexivity|].
  destruct (is_some _); [reflexivity|].
  destruct (is_nil _); reflexivity.
Qed.




End Updates.



(* ================================================================== *)
(** ** Further properties of the routes                                 *)
(* ================================================================== *)

Lemma hex_first (c : ascii) (s id : string) :
  Schema.is_ObjectId id = true -> Text.is_hex c = false ->
  (String c s =? id) = false.
Proof.
  intros Hid Hc. destruct id as [|d id']; [reflexivity|].
  unfold Schema.is_ObjectId in Hid. apply andb_prop in Hid.
  destruct Hid as [_ Hhex]. cbn in Hhex. apply andb_prop in Hhex.
  destruct Hhex as [Hd _].
  destruct (String.eqb_spec (String c s) (String d id')) as [Heq|]; [|reflexivity].
  injection Heq as -> _. congruence.
Qed.

(** X2: [GET /leads/:id] never serves an agent: the ownership test is made
    on the populated document, whose text is no identifier, so an agent
    whose identifier is an ObjectId is answered 403 on every Lead whose
    agent is stored, their own Leads included, 404 where there is no
    Lead, and with an error where the agent of the Lead is not
    stored. *)
Theorem agent_never_reads_lead_by_id (st : Store) (user : User) (id : ObjectId) :
  u_role user = agent ->
  Schema.is_ObjectId (u_id user) = true ->
  is_success (leads_get st user id) = false
  /\ (forall lead,
        findById l_id (leads st) id = Some lead ->
        is_some (findById u_id (users st) (l_assignedAgent lead)) = true ->
        leads_get st user id = Failure 403 "Access denied").
Proof.
  intros Hrole Hid. destruct (agent_is_agent user Hrole) as [Hag _].
  unfold leads_get. rewrite requireAgentOrAdmin_any, Hag. cbn [negb].
  destruct (findById l_id (leads st) id) as [lead|]; [|split; [reflexivity|intros ? H; discriminate H]].
  cbn [Lead_populate pl_assignedAgent]. unfold populate_User.
  destruct (findById u_id (users st) (l_assignedAgent lead)) as [assigned|]
    eqn:Hassigned; cbn [option_map].
  - unfold UserRef_toString. cbn [String.append].
    erewrite hex_first; [|exact Hid|reflexivity]. cbn [negb].
    split; [reflexivity|]. intros lead0 _ _. reflexivity.
  - split; [reflexivity|]. intros lead0 Hl Hstored. injection Hl as <-.
    rewrite Hassigned in Hstored. discriminate Hstored.
Qed.

Lemma agent_never_reads_lead_by_id_witness :
  leads_get (Sample.store [Sample.jane New false] [] []) Sample.agent1
    Sample.lead_id
  = Failure 403 "Access denied".
Proof.
  destruct (agent_never_reads_lead_by_id
              (Sample.store [Sample.jane New false] [] []) Sample.agent1
              Sample.lead_id eq_refl eq_refl) as [_ Hdenied].
  exact (Hdenied (Sample.jane New false) eq_refl eq_refl).
Defined.

Section MoreCollectionFacts.
Variable A : Type.
Variable key : A -> ObjectId.

Lemma findById_remove (coll : list A) (id : ObjectId) :
  findById key (remove key id coll) id = None.
Proof.
  unfold findById, remove. induction coll as [|x coll IH]; [reflexivity|].
  cbn [filter]. destruct (key x =? id) eqn:Hx; cbn [negb]; [exact IH|].
  cbn [find]. rewrite Hx. exact IH.
Qed.

End MoreCollectionFacts.

(** X5: [DELETE /users/:id] by an admin on the identifier of another stored
    user removes that user and nothing else: the user is no longer
    found, one Activity entry by the caller on the deleted user is
    added, and the Leads, Customers and Tasks that refer to the user
    stay as they were. *)
Theorem admin_deletes_other_user
    (user target : User) (id : string) (oid : ObjectId) (now : Date)
    (aid : ObjectId) (st : Store) :
  u_role user = admin ->
  id <> u_id user ->
  Schema.cast_ObjectId id = Some oid ->
  findById u_id (users st) oid = Some target ->
  exists st' activity,
    run (users_delete user id now aid) st
    = (Success 200 (Some "User deleted successfully") tt, st')
    /\ users st' = remove u_id oid (users st)
    /\ findById u_id (users st') oid = None
    /\ activities st' = (activities st ++ [activity])%list
    /\ a_user activity = u_id user
    /\ a_action activity = "User Deleted"
    /\ a_entityId activity = oid
    /\ leads st' = leads st
    /\ customers st' = customers st
    /\ tasks st' = tasks st.
Proof.
  intros Hrole Hother Hcast Hfind.
  pose proof (findById_key _ u_id (users st) oid target Hfind) as Hkey.
  unfold users_delete, User_findById. unfold_handler.
  rewrite (admin_is_admin user Hrole). cbn [negb].
  destruct (String.eqb_spec id (u_id user)) as [Heq|_]; [contradiction|].
  rewrite Hcast. unfold_handler. rewrite Hfind.
  eexists _, _. split; [reflexivity|]. cbn. rewrite Hkey.
  repeat match goal with |- _ /\ _ => split end; try reflexivity.
  apply findById_remove.
Qed.

Lemma admin_deletes_other_user_witness :
  exists st',
    run (users_delete Sample.the_admin "64B0000000000000000000A1" 99%Z
           Sample.activity_id) (Sample.store [Sample.jane New false] [] [])
    = (Success 200 (Some "User deleted successfully") tt, st')
    /\ users st' = [Sample.the_admin]
    /\ leads st' = [Sample.jane New false].
Proof.
  destruct (admin_deletes_other_user Sample.the_admin Sample.agent1
              "64B0000000000000000000A1" Sample.agent1_id 99%Z
              Sample.activity_id (Sample.store [Sample.jane New false] [] [])
              eq_refl ltac:(discriminate) eq_refl eq_refl)
    as (st' & activity & Hrun & Husers & _ & _ & _ & _ & _ & Hleads & _).
  exists st'. split; [exact Hrun|]. split; [exact Husers|exact Hleads].
Defined.



(** X7: the page of a list endpoint is the window of the documents found
    that [skip] and [limit] cut: its entry at position i, below the
    limit, is the entry of the documents found at position
    (page - 1) * limit + i; it holds no more entries than the limit;
    the total is the number of documents found and the number of pages
    the least one that covers them. *)
Theorem page_is_window_of_found
    (A : Type) (pg lim : Z) (found : list A) (i : nat) :
  (1 <= pg)%Z -> (1 <= lim)%Z -> (i < Z.to_nat lim)%nat ->
  let p := paginate pg lim found in
  nth_error (data p) i = nth_error found (Z.to_nat ((pg - 1) * lim) + i)
  /\ (List.length (data p) <= Z.to_nat lim)%nat
  /\ total p = Z.of_nat (List.length found)
  /\ ((pages p - 1) * lim < total p \/ total p = 0)%Z
  /\ (total p <= pages p * lim)%Z.
Proof.
  intros Hpg Hlim Hi. cbv zeta. unfold paginate. cbn [data total pages].
  split; [|split; [|split; [reflexivity|]]].
  - rewrite nth_error_firstn, nth_error_skipn.
    destruct (Nat.ltb_spec i (Z.to_nat lim)); [reflexivity|lia].
  - apply firstn_le_length.
  - set (n := Z.of_nat (List.length found)).
    assert (Hn : (0 <= n)%Z) by (unfold n; lia).
    pose proof (Z.div_mod (n + lim - 1) lim ltac:(lia)) as Hdiv.
    pose proof (Z.mod_pos_bound (n + lim - 1) lim ltac:(lia)) as Hmod.
    split; nia.
Qed.

Lemma page_is_window_of_found_witness :
  nth_error (data (paginate 2 2 [10; 20; 30; 40; 50]%Z)) 1 = Some 40%Z
  /\ pages (paginate 2 2 [10; 20; 30; 40; 50]%Z) = 3%Z.
Proof.
  destruct (page_is_window_of_found Z 2 2 [10; 20; 30; 40; 50]%Z 1
              ltac:(lia) ltac:(lia) ltac:(cbn; lia)) as (Hnth & _).
  split; [exact Hnth|reflexivity].
Defined.

(** The handler of [DELETE /leads/:id], guard by guard. *)
Lemma leads_archive_unfold (user : User) (id : ObjectId) (now : Date)
    (aid : ObjectId) (st : Store) :
  run (leads_archive user id now aid) st =
  match findById l_id (leads st) id with
  | None => (Failure 404 "Lead not found", st)
  | Some lead =>
      if lead_denied user lead then (Failure 403 "Access denied", st)
      else (Success 200 (Some "Lead archived successfully") tt,
            apply_writes
              [SaveLead (Lead_archived lead);
               InsertActivity
                 {| a_id := aid; a_user := u_id user;
                    a_action := "Lead Archived"; a_entityType := ELead;
                    a_entityId := l_id lead;
                    a_details := [("name", [l_name lead])];
                    a_createdAt := now |}] st)
  end.
Proof.
  unfold leads_archive. unfold_handler.
  rewrite requireAgentOrAdmin_any. cbn [negb].
  destruct (findById l_id (leads st) id) as [lead|]; [|reflexivity].
  destruct (lead_denied user lead); reflexivity.
Qed.

(** X8: [DELETE /leads/:id] is a soft delete: for a caller with scope
    access the Lead stays in the store under its identifier with
    isArchived true and every other field as it was, the Customers, the
    Tasks and the Users are untouched, one Activity entry is added, and
    from then on no page of [GET /leads], for any caller and any
    query, holds the Lead. *)
Theorem archive_keeps_the_lead_and_hides_it
    (RegExp_i : string -> option (string -> bool))
    (user : User) (id : ObjectId) (now : Date) (aid : ObjectId) (st : Store)
    (lead : Lead) :
  findById l_id (leads st) id = Some lead ->
  lead_scope user lead ->
  exists st',
    run (leads_archive user id now aid) st
    = (Success 200 (Some "Lead archived successfully") tt, st')
    /\ findById l_id (leads st') id = Some (Lead_archived lead)
    /\ l_isArchived (Lead_archived lead) = true
    /\ l_name (Lead_archived lead) = l_name lead
    /\ l_email (Lead_archived lead) = l_email lead
    /\ l_status (Lead_archived lead) = l_status lead
    /\ l_assignedAgent (Lead_archived lead) = l_assignedAgent lead
    /\ l_convertedToCustomer (Lead_archived lead) = l_convertedToCustomer lead
    /\ List.length (leads st') = List.length (leads st)
    /\ customers st' = customers st
    /\ tasks st' = tasks st
    /\ users st' = users st
    /\ List.length (activities st') = S (List.length (activities st))
    /\ (forall caller q,
          ~ In (Lead_archived lead)
              (records (leads_list RegExp_i st' caller q))).
Proof.
  intros Hfind Hscope. rewrite leads_archive_unfold, Hfind, Hscope.
  pose proof (findById_key _ l_id (leads st) id lead Hfind) as Hkey.
  eexists. split; [reflexivity|].
  split.
  { simpl. rewrite <- Hkey.
    apply (findById_replace _ l_id (leads st) lead);
      [now rewrite Hkey|reflexivity]. }
  repeat match goal with |- _ /\ _ => split end; try reflexivity.
  - simpl. unfold replace. now rewrite length_map.
  - simpl. rewrite length_app. simpl. lia.
  - intros caller q Hin.
    destruct (leads_list_matches RegExp_i _ caller q _ Hin) as [re H].
    unfold lead_matches in H. simpl in H.
    repeat (apply andb_prop in H; destruct H as [H ?]).
    discriminate H.
Qed.

Lemma archive_keeps_the_lead_and_hides_it_witness :
  exists st',
    run (leads_archive Sample.agent1 Sample.lead_id 50%Z Sample.activity_id)
      (Sample.store [Sample.jane New false] [] [])
    = (Success 200 (Some "Lead archived successfully") tt, st')
    /\ findById l_id (leads st') Sample.lead_id = Some (Sample.jane New true)
    /\ records (leads_list Sample.no_regexp st' Sample.the_admin
                  Sample.no_lead_query) = [].
Proof.
  destruct (archive_keeps_the_lead_and_hides_it Sample.no_regexp
              Sample.agent1 Sample.lead_id 50%Z Sample.activity_id
              (Sample.store [Sample.jane New false] [] [])
              (Sample.jane New false) eq_refl eq_refl)
    as (st' & Hrun & Hstored & _).
  exists st'. split; [exact Hrun|]. split; [exact Hstored|].
  injection Hrun as <-. reflexivity.
Defined.

(** X9: an agent changes no Lead that is assigned to another user: update,
    conversion and archival of such a Lead are not answered with a
    success and leave the whole store as it was; the archival, which
    has no validation before the ownership check, is answered 403. *)
Theorem agent_cannot_change_foreign_lead
    (Date_parse : string -> option Date)
    (isEmail : string -> bool) (normalizeEmail : string -> string)
    (user : User) (id : ObjectId) (lead : Lead) (now : Date)
    (cid aid : ObjectId) (st : Store) :
  u_role user = agent ->
  findById l_id (leads st) id = Some lead ->
  l_assignedAgent lead <> u_id user ->
  (forall body,
      let result :=
        run (leads_patch Date_parse isEmail normalizeEmail user id body now aid)
          st in
      is_success (fst result) = false /\ snd result = st
      /\ (leads_patch_check isEmail body = [] ->
          fst result = Failure 403 "Access denied"))
  /\ (forall body,
        let result := run (leads_convert user id body now cid aid) st in
        is_success (fst result) = false /\ snd result = st
        /\ (leads_convert_check body = [] ->
            fst result = Failure 403 "Access denied"))
  /\ run (leads_archive user id now aid) st
     = (Failure 403 "Access denied", st).
Proof.
  intros Hrole Hfind Hother.
  destruct (agent_is_agent user Hrole) as [Hag _].
  assert (Hdenied : lead_denied user lead = true).
  { unfold lead_denied. rewrite Hag.
    destruct (String.eqb_spec (l_assignedAgent lead) (u_id user));
      [contradiction|reflexivity]. }
  split; [|split].
  - intros body. cbv zeta.
    rewrite (leads_patch_unfold Date_parse isEmail normalizeEmail).
    destruct (leads_patch_check isEmail body) eqn:Hcheck; cbn [is_nil negb].
    + cbv zeta. rewrite Hfind, Hdenied. now repeat split.
    + repeat split. intros H. discriminate H.
  - intros body. cbv zeta.
    rewrite leads_convert_unfold, requireAgentOrAdmin_any. cbn [negb].
    destruct (leads_convert_check body) eqn:Hcheck; cbn [is_nil negb].
    + rewrite Hfind, Hdenied. now repeat split.
    + repeat split. intros H. discriminate H.
  - now rewrite leads_archive_unfold, Hfind, Hdenied.
Qed.

Lemma agent_cannot_change_foreign_lead_witness :
  let agent2 : User :=
    {| u_id := Sample.agent2_id; u_email := "agent2@crm.com";
       u_password := "hash"; u_firstName := "Sarah"; u_lastName := "Johnson";
       u_role := agent; u_isActive := true; u_lastLogin := None |} in
  let st := Sample.store [Sample.jane New false] [] [] in
  run (leads_archive agent2 Sample.lead_id 99%Z Sample.activity_id) st
  = (Failure 403 "Access denied", st).
Proof.
  cbv zeta.
  exact (proj2 (proj2
    (agent_cannot_change_foreign_lead Sample.seven Sample.any_email
       Sample.same_email
       {| u_id := Sample.agent2_id; u_email := "agent2@crm.com";
          u_password := "hash"; u_firstName := "Sarah";
          u_lastName := "Johnson"; u_role := agent; u_isActive := true;
          u_lastLogin := None |}
       Sample.lead_id (Sample.jane New false) 99%Z Sample.new_customer_id
       Sample.activity_id (Sample.store [Sample.jane New false] [] [])
       eq_refl eq_refl ltac:(discriminate)))).
Defined.

(** X10: an update that is not answered with a success writes nothing: for
    [PATCH /leads/:id], [PATCH /users/profile/me] and [PATCH /tasks/:id]
    a response other than the success leaves the store as it was, and
    the success extends the journal by the save of the document and the
    Activity entry, in that order. *)
Theorem failed_update_writes_nothing
    (isISO8601 : string -> bool) (Date_parse : string -> option Date)
    (isEmail : string -> bool) (normalizeEmail : string -> string)
    (User_set_email User_set_password : string -> string)
    (user : User) (id : ObjectId) (now : Date) (aid : ObjectId) (st : Store) :
  (forall body,
      let result :=
        run (leads_patch Date_parse isEmail normalizeEmail user id body now aid)
          st in
      if is_success (fst result)
      then exists lead activity,
             journal (snd result)
             = (journal st ++ [SaveLead lead; InsertActivity activity])%list
      else snd result = st)
  /\ (forall body,
        let result :=
          run (users_profile_update Date_parse User_set_email User_set_password
                 user body now aid) st in
        if is_success (fst result)
        then exists target activity,
               journal (snd result)
               = (journal st ++ [SaveUser target; InsertActivity activity])%list
        else snd result = st)
  /\ (forall body,
        let result :=
          run (tasks_patch isISO8601 Date_parse user id body now aid) st in
        if is_success (fst result)
        then exists task activity,
               journal (snd result)
               = (journal st ++ [SaveTask task; InsertActivity activity])%list
        else snd result = st).
Proof.
  split; [|split]; intros body; cbv zeta.
  - rewrite (leads_patch_unfold Date_parse isEmail normalizeEmail).
    destruct (negb (is_nil (leads_patch_check isEmail body))); [reflexivity|].
    cbv zeta.
    destruct (findById l_id (leads st) id) as [lead|]; [|reflexivity].
    destruct (lead_denied user lead); [reflexivity|].
    destruct (is_some _); [reflexivity|].
    destruct (is_nil _); [|reflexivity].
    cbn [fst snd is_success]. eexists _, _.
    simpl. now rewrite <- app_assoc.
  - rewrite (users_profile_update_unfold Date_parse User_set_email
               User_set_password).
    destruct (negb (is_nil (users_profile_check body))); [reflexivity|].
    cbv zeta.
    destruct (findById u_id (users st) (u_id user)) as [target|]; [|reflexivity].
    destruct (negb (is_nil _)); [reflexivity|].
    destruct (User_email_taken _ _ _); [reflexivity|].
    cbn [fst snd is_success]. eexists _, _.
    simpl. now rewrite <- app_assoc.
  - rewrite (tasks_patch_unfold isISO8601 Date_parse).
    destruct (negb (is_nil (tasks_patch_check isISO8601 body))); [reflexivity|].
    cbv zeta.
    destruct (findById t_id (tasks st) id) as [task|]; [|reflexivity].
    destruct (task_denied user task); [reflexivity|].
    destruct (is_nil _); [|reflexivity].
    cbn [fst snd is_success]. eexists _, _.
    simpl. now rewrite <- app_assoc.
Qed.



(** X12: the e-mail pattern of the Lead and Customer schemas accepts a last
    label of two or three letters only.  An address such as
    jane@example.info, which an [isEmail] chain that accepts it lets
    through, makes [PATCH /leads/:id] fail on save: the error goes to
    the error middleware instead of a 400 response, and nothing is
    written. *)
Lemma schema_email_rejects_long_last_label :
  let st := Sample.store [Sample.jane New false] [] [] in
  let body :=
    {| lb_name := None; lb_email := Some "jane@example.info"; lb_phone := None;
       lb_status := None; lb_source := None; lb_notes := None;
       lb_assignedAgent := None; lb_isArchived := None;
       lb_convertedToCustomer := None; lb_convertedAt := None |} in
  Schema.email_ok "jane@example.com" = true
  /\ Schema.email_ok "jane@example.info" = false
  /\ run (leads_patch Sample.seven Sample.any_email Sample.same_email
            Sample.agent1 Sample.lead_id body 99%Z Sample.activity_id) st
     = (NextError (ValidationError ["email"]), st).
Proof.
  cbv zeta. repeat split; vm_compute; reflexivity.
Qed.

(** What [parseInt(x) || fallback] reads of a parameter that passed
    [optional().isInt({min: 1, max})]: a value within the bounds, the
    fallback when the parameter is absent. *)
Lemma int_or_checked (v : option string) (max : option Z) (fallback : Z) :
  Validator.optional (Validator.isInt 1 max) v = true ->
  (1 <= fallback)%Z ->
  (1 <= int_or v fallback)%Z
  /\ (forall m, max = Some m -> (fallback <= m)%Z -> (int_or v fallback <= m)%Z).
Proof.
  intros Hok Hfb. destruct v as [s|]; cbn in *.
  2:{ split; [exact Hfb|]. intros m _ Hm. exact Hm. }
  unfold Validator.isInt in Hok.
  destruct (Text.parseInt s) as [n|]; [|discriminate].
  apply andb_prop in Hok. destruct Hok as [Hmin Hmax].
  apply Z.leb_le in Hmin.
  destruct (Z.eqb_spec n 0); [lia|].
  split; [exact Hmin|]. intros m -> _. now apply Z.leb_le.
Qed.

Section BoundsAndOverdue.
Variable RegExp_i : string -> option (string -> bool).
Variable isISO8601 : string -> bool.
Variable Date_parse : string -> option Date.

(** X13: every page a list endpoint answers with has a page number of at
    least 1 and a limit between 1 and 100, whatever the caller and the
    query: the validation lets no other value reach [skip] and
    [limit]. *)
Theorem list_pages_within_bounds
    (st : Store) (user : User) (now : Date)
    (lq : LeadQuery) (cq : CustomerQuery) (tq : TaskQuery) (aq : ActivityQuery)
    (pg lim : Z) :
  page_of (leads_list RegExp_i st user lq) = Some (pg, lim)
  \/ page_of (customers_list RegExp_i st user cq) = Some (pg, lim)
  \/ page_of (tasks_list isISO8601 Date_parse st user tq now) = Some (pg, lim)
  \/ page_of (activity_list RegExp_i st user aq) = Some (pg, lim) ->
  (1 <= pg)%Z /\ (1 <= lim <= 100)%Z.
Proof.
  intros [H|[H|[H|H]]].
  - unfold leads_list in H.
    destruct (negb (requireAgentOrAdmin user)); [discriminate|].
    destruct (leads_list_check lq) eqn:Hcheck; [|discriminate].
    unfold leads_list_check in Hcheck.
    apply check_app_nil in Hcheck. destruct Hcheck as [Hpage Hcheck].
    apply check_app_nil in Hcheck. destruct Hcheck as [Hlimit _].
    cbv zeta in H.
    destruct (match option_map Text.trim (lq_search lq) with
              | Some s => _ | None => _ end); [|discriminate].
    destruct (negb _); [discriminate|].
    cbn in H. injection H as <- <-.
    destruct (int_or_checked _ _ 1 Hpage ltac:(lia)) as [Hp _].
    destruct (int_or_checked _ _ 20 Hlimit ltac:(lia)) as [Hl Hm].
    specialize (Hm 100%Z eq_refl ltac:(lia)). lia.
  - unfold customers_list in H.
    destruct (negb (requireAgentOrAdmin user)); [discriminate|].
    destruct (customers_list_check cq) eqn:Hcheck; [|discriminate].
    unfold customers_list_check in Hcheck.
    apply check_app_nil in Hcheck. destruct Hcheck as [Hpage Hcheck].
    apply check_app_nil in Hcheck. destruct Hcheck as [Hlimit _].
    cbv zeta in H.
    destruct (match option_map Text.trim (cq_search cq) with
              | Some s => _ | None => _ end); [|discriminate].
    destruct (negb _); [discriminate|].
    cbn in H. injection H as <- <-.
    destruct (int_or_checked _ _ 1 Hpage ltac:(lia)) as [Hp _].
    destruct (int_or_checked _ _ 20 Hlimit ltac:(lia)) as [Hl Hm].
    specialize (Hm 100%Z eq_refl ltac:(lia)). lia.
  - unfold tasks_list in H.
    destruct (negb (requireAgentOrAdmin user)); [discriminate|].
    destruct (tasks_list_check isISO8601 tq) eqn:Hcheck; [|discriminate].
    unfold tasks_list_check in Hcheck.
    apply check_app_nil in Hcheck. destruct Hcheck as [Hpage Hcheck].
    apply check_app_nil in Hcheck. destruct Hcheck as [Hlimit _].
    cbv zeta in H.
    destruct (negb _); [discriminate|].
    cbn in H. injection H as <- <-.
    destruct (int_or_checked _ _ 1 Hpage ltac:(lia)) as [Hp _].
    destruct (int_or_checked _ _ 20 Hlimit ltac:(lia)) as [Hl Hm].
    specialize (Hm 100%Z eq_refl ltac:(lia)). lia.
  - unfold activity_list in H.
    destruct (negb (requireAgentOrAdmin user)); [discriminate|].
    destruct (activity_list_check aq) eqn:Hcheck; [|discriminate].
    unfold activity_list_check in Hcheck.
    apply check_app_nil in Hcheck. destruct Hcheck as [Hpage Hcheck].
    apply check_app_nil in Hcheck. destruct Hcheck as [Hlimit _].
    cbv zeta in H.
    destruct (match truthy_text (option_map Text.trim (aq_action aq)) with
              | Some s => _ | None => _ end); [|discriminate].
    destruct (negb _); [discriminate|].
    cbn in H. injection H as <- <-.
    destruct (int_or_checked _ _ 1 Hpage ltac:(lia)) as [Hp _].
    destruct (int_or_checked _ _ 20 Hlimit ltac:(lia)) as [Hl Hm].
    specialize (Hm 100%Z eq_refl ltac:(lia)). lia.
Qed.

(** X14: [GET /tasks?overdue=true] and the virtual [isOverdue] agree: every
    Task on a page of such a request is overdue at the time of the
    request, and the [status] and [dueDate] parameters sent along do not
    reach the filter. *)
Theorem overdue_filter_agrees_with_virtual
    (st : Store) (user : User) (q : TaskQuery) (now : Date) :
  tq_overdue q = Some "true" ->
  Forall (fun t => isOverdue t now = true)
    (records (tasks_list isISO8601 Date_parse st user q now))
  /\ (forall status dueDate,
        tasks_list_filter Date_parse user (tq_with_status_due q status dueDate) now
        = tasks_list_filter Date_parse user q now).
Proof.
  intros Hoverdue. split.
  - apply Forall_forall. intros t Hin.
    pose proof (tasks_list_matches isISO8601 Date_parse st user q now t Hin) as H.
    unfold task_matches, tasks_list_filter in H. rewrite Hoverdue in H.
    cbn in H.
    repeat (apply andb_prop in H; destruct H as [H ?]).
    unfold isOverdue.
    destruct (TaskStatus_label (t_status t) =? "Done"); [discriminate|].
    assumption.
  - intros status dueDate. unfold tasks_list_filter.
    cbn [tq_with_status_due tq_status tq_priority tq_owner tq_assignedTo
         tq_dueDate tq_overdue].
    rewrite Hoverdue. reflexivity.
Qed.

End BoundsAndOverdue.

Lemma list_pages_within_bounds_witness :
  page_of (leads_list Sample.no_regexp (Sample.store [] [] []) Sample.agent1
             {| lq_page := Some "03"; lq_limit := Some "050";
                lq_status := None; lq_search := None;
                lq_assignedAgent := None |}) = Some (3, 50)%Z
  /\ (1 <= 3)%Z /\ (1 <= 50 <= 100)%Z.
Proof.
  split; [reflexivity|].
  apply (list_pages_within_bounds Sample.no_regexp Sample.any_date
           Sample.no_date (Sample.store [] [] []) Sample.agent1 0%Z
           {| lq_page := Some "03"; lq_limit := Some "050";
              lq_status := None; lq_search := None;
              lq_assignedAgent := None |}
           Sample.no_customer_query Sample.no_task_query
           {| aq_page := None; aq_limit := None; aq_entityType := None;
              aq_action := None; aq_user := None; aq_entityId := None |}
           3%Z 50%Z).
  left. reflexivity.
Defined.

Lemma overdue_filter_agrees_with_virtual_witness :
  let st := Sample.store [] []
              [Sample.task "64b0000000000000000000b1" Open High None;
               Sample.task "64b0000000000000000000b2" Done High (Some 900%Z)] in
  let q :=
    {| tq_page := None; tq_limit := None; tq_status := Some "Done";
       tq_priority := None; tq_owner := None; tq_assignedTo := None;
       tq_dueDate := None; tq_overdue := Some "true" |} in
  records (tasks_list Sample.any_date Sample.no_date st Sample.agent1 q 5000%Z)
  = [Sample.task "64b0000000000000000000b1" Open High None]
  /\ Forall (fun t => isOverdue t 5000%Z = true)
       (records (tasks_list Sample.any_date Sample.no_date st Sample.agent1 q
                   5000%Z)).
Proof.
  cbv zeta. split; [reflexivity|].
  apply (overdue_filter_agrees_with_virtual Sample.any_date Sample.no_date).
  reflexivity.
Defined.

(** X15: registration is out of reach.  The handler of
    [POST /register] works behind an admin: a body that passes the
    chains and whose e-mail no user holds is answered 201 and the user,
    active and with the role of the body, is added to the store; an
    agent is answered 403.  But the auth router is mounted without
    [authMiddleware], so [requireAdmin] finds no [req.user]: every
    [POST /api/auth/register], whatever its body, is answered 401,
    Authentication required, and leaves the store as it was. *)
Theorem register_is_never_authorised
    (isEmail : string -> bool) (normalizeEmail : string -> string)
    (User_set_email User_set_password : string -> string)
    (caller : User) (body : RegisterBody) (now : Date) (uid aid : ObjectId)
    (st : Store) :
  run (api_auth_register isEmail normalizeEmail User_set_email
         User_set_password body now uid aid) st
  = (Failure 401 "Authentication required", st)
  /\ (u_role caller = agent ->
      run (auth_register isEmail normalizeEmail User_set_email
             User_set_password (Some caller) body now uid aid) st
      = (Failure 403 "Insufficient permissions", st))
  /\ (u_role caller = admin ->
      register_check isEmail body = [] ->
      find (fun u => u_email u
                     =? normalizeEmail (Validator.required_text (rg_email body)))
        (users st) = None ->
      exists user st',
        run (auth_register isEmail normalizeEmail User_set_email
               User_set_password (Some caller) body now uid aid) st
        = (Success 201 (Some "User created successfully") (summary_of user), st')
        /\ users st' = (users st ++ [user])%list
        /\ u_id user = uid
        /\ u_isActive user = true
        /\ Role_label (u_role user) = Validator.required_text (rg_role body)
        /\ List.length (activities st') = S (List.length (activities st))).
Proof.
  split; [reflexivity|]. split.
  - intros Hrole. unfold auth_register, requireRole_gate, requireRole.
    rewrite Hrole. reflexivity.
  - intros Hrole Hcheck Hfree.
    unfold auth_register, requireRole_gate, requireRole.
    rewrite Hrole. cbn [existsb Role_eqb orb]. unfold_handler.
    rewrite Hcheck. cbn [is_nil negb]. rewrite Hfree. cbn [is_some].
    unfold register_check in Hcheck.
    do 4 (apply check_app_nil in Hcheck; destruct Hcheck as [_ Hcheck]).
    apply check_nil in Hcheck.
    assert (Hlabel : exists role,
               Role_of_label (Validator.required_text (rg_role body)) = Some role
               /\ Role_label role = Validator.required_text (rg_role body)).
    { unfold Validator.isIn, roles in Hcheck. cbn [existsb] in Hcheck.
      unfold Role_of_label.
      destruct (String.eqb_spec (Validator.required_text (rg_role body)) "admin")
        as [->|_]; [exists admin; now split|].
      destruct (String.eqb_spec (Validator.required_text (rg_role body)) "agent")
        as [->|_]; [exists agent; now split|].
      discriminate Hcheck. }
    destruct Hlabel as (role & Hof & Hlabel). rewrite Hof.
    unfold insert_user. eexists _, _. split; [reflexivity|].
    cbn. repeat match goal with |- _ /\ _ => split end;
      try reflexivity; try assumption.
    rewrite length_app. cbn. lia.
Qed.

Lemma register_is_never_authorised_witness :
  let body :=
    {| rg_email := Some "new@crm.com"; rg_password := Some "secret1";
       rg_firstName := Some " New "; rg_lastName := Some "Agent";
       rg_role := Some "agent" |} in
  run (api_auth_register Sample.any_email Sample.same_email Sample.lower_email
         Sample.hashed body 99%Z Sample.agent2_id Sample.activity_id)
    (Sample.store [] [] [])
  = (Failure 401 "Authentication required", Sample.store [] [] [])
  /\ status_of
       (fst (run (auth_register Sample.any_email Sample.same_email
                    Sample.lower_email Sample.hashed (Some Sample.the_admin)
                    body 99%Z Sample.agent2_id Sample.activity_id)
               (Sample.store [] [] []))) = Some 201%nat.
Proof.
  cbv zeta.
  destruct (register_is_never_authorised Sample.any_email Sample.same_email
              Sample.lower_email Sample.hashed Sample.the_admin
              {| rg_email := Some "new@crm.com"; rg_password := Some "secret1";
                 rg_firstName := Some " New "; rg_lastName := Some "Agent";
                 rg_role := Some "agent" |}
              99%Z Sample.agent2_id Sample.activity_id (Sample.store [] [] []))
    as (Hmount & _ & Hadmin).
  split; [exact Hmount|].
  destruct (Hadmin eq_refl eq_refl eq_refl) as (user & st' & Hrun & _).
  now rewrite Hrun.
Defined.

Section ActivityFacts.
Variable RegExp_i : string -> option (string -> bool).

Lemma activity_clause_agent (user : User) (wanted : option string) :
  u_role user = agent ->
  activity_user_clause user wanted = Some (u_id user).
Proof.
  intros Hrole. destruct (agent_is_agent user Hrole) as [Hag Had].
  unfold activity_user_clause. rewrite Hag, Had.
  destruct wanted; [rewrite andb_false_r|]; reflexivity.
Qed.

Lemma activity_matches_user (f : ActivityFilter) (a : Activity) (id : ObjectId) :
  af_user f = Some id -> activity_matches f a = true -> a_user a = id.
Proof.
  intros Hf H. unfold activity_matches in H. rewrite Hf in H. cbn [holds] in H.
  repeat (apply andb_prop in H; destruct H as [H ?]).
  now apply String.eqb_eq.
Qed.

(** X16: an agent reads no Activity entry of another user: every entry of
    [GET /activity], whatever the query and its [user] parameter, of
    [GET /activity/recent] and of [GET /activity/entity/:type/:id] was
    logged for the caller; and [GET /activity/recent] holds at most ten
    entries for any caller. *)
Theorem agent_reads_own_activity_only
    (st : Store) (user : User) :
  u_role user = agent ->
  (forall q, Forall (fun a => a_user a = u_id user)
               (records (activity_list RegExp_i st user q)))
  /\ (forall entityType entityId page_ limit_,
        Forall (fun a => a_user a = u_id user)
          (records (activity_entity st user entityType entityId page_ limit_)))
  /\ (forall entries,
        activity_recent st user = Success 200 None entries ->
        Forall (fun a => a_user a = u_id user) entries)
  /\ (forall caller entries,
        activity_recent st caller = Success 200 None entries ->
        (List.length entries <= 10)%nat).
Proof.
  intros Hrole. split; [|split; [|split]].
  - intros q. apply Forall_forall. intros a. unfold activity_list.
    destruct (negb (requireAgentOrAdmin user)); [intros []|].
    destruct (activity_list_check q); [|intros []].
    cbv zeta.
    destruct (match truthy_text (option_map Text.trim (aq_action q)) with
              | Some s => _ | None => _ end) as [re|]; [|intros []].
    destruct (negb _); [intros []|].
    cbn [records data paginate]. intros H.
    apply In_firstn, In_skipn, sort_In, filter_In in H. destruct H as [_ H].
    apply (activity_matches_user _ a (u_id user)) in H; [exact H|].
    cbn [af_user]. now apply activity_clause_agent.
  - intros entityType entityId page_ limit_. apply Forall_forall. intros a.
    unfold activity_entity.
    destruct (negb (requireAgentOrAdmin user)); [intros []|].
    destruct (activity_entity_check page_ limit_); [|intros []].
    cbv zeta. destruct (negb _); [intros []|].
    cbn [records data paginate]. intros H.
    apply In_firstn, In_skipn, sort_In, filter_In in H. destruct H as [_ H].
    apply (activity_matches_user _ a (u_id user)) in H; [exact H|].
    cbn [af_user]. now apply activity_clause_agent.
  - intros entries. unfold activity_recent.
    destruct (negb (requireAgentOrAdmin user)); [discriminate|].
    cbv zeta. destruct (negb _); [discriminate|].
    set (found := firstn 10 _). intros H.
    assert (Hentries : entries = found) by congruence.
    rewrite Hentries. clear H Hentries. subst found.
    apply Forall_forall. intros a H.
    apply In_firstn, sort_In, filter_In in H. destruct H as [_ H].
    apply (activity_matches_user _ a (u_id user)) in H; [exact H|].
    cbn [af_user]. now apply activity_clause_agent.
  - intros caller entries. unfold activity_recent.
    destruct (negb (requireAgentOrAdmin caller)); [discriminate|].
    cbv zeta. destruct (negb _); [discriminate|].
    set (found := firstn 10 _). intros H.
    assert (Hentries : entries = found) by congruence.
    rewrite Hentries. apply firstn_le_length.
Qed.

End ActivityFacts.

Lemma agent_reads_own_activity_only_witness :
  let st :=
    with_activities (Sample.store [] [] [])
      [sample_activity "64b0000000000000000000f1" Sample.agent1_id 1%Z;
       sample_activity "64b0000000000000000000f2" Sample.admin_id 2%Z] in
  activity_recent st Sample.agent1
  = Success 200 None
      [sample_activity "64b0000000000000000000f1" Sample.agent1_id 1%Z]
  /\ Forall (fun a => a_user a = Sample.agent1_id)
       [sample_activity "64b0000000000000000000f1" Sample.agent1_id 1%Z].
Proof.
  cbv zeta. split; [reflexivity|].
  destruct (agent_reads_own_activity_only Sample.no_regexp
              (with_activities (Sample.store [] [] [])
                 [sample_activity "64b0000000000000000000f1" Sample.agent1_id 1%Z;
                  sample_activity "64b0000000000000000000f2" Sample.admin_id 2%Z])
              Sample.agent1 eq_refl) as (_ & _ & Hrecent & _).
  apply Hrecent. reflexivity.
Defined.
